(** * Workflow queue manager and workflow app runner of the dify API

    A shallow embedding of
    - [api/core/app/apps/base_app_queue_manager.py] (AppQueueManager),
    - [api/core/app/apps/message_based_app_queue_manager.py]
      (MessageBasedAppQueueManager),
    - [api/core/app/apps/workflow_app_runner.py] (WorkflowBasedAppRunner),
    - [api/core/workflow/graph_engine/entities/event.py] (engine events),
    followed by the properties of the specification that concern them. *)

From Stdlib Require Import ZArith Lia.
From stdpp Require Import base strings list gmap.

Set Warnings "-register-all".

Local Open Scope string_scope.
Local Open Scope list_scope.
Local Open Scope Z_scope.

(** ** Python values *)

Module Py.

(** An arbitrary Python object that is none of the built-in containers or
    scalars below.  The two flags are what the queue manager asks of it:
    [isinstance(o, DeclarativeMeta)] and [hasattr(o, "_sa_instance_state")].
    Objects compare by identity. *)
Record pyobj : Type := mk_pyobj {
  obj_id : nat;
  is_declarative_meta : bool;
  has_sa_instance_state : bool
}.

(** The values that occur in dumped events and in graph configurations.
    Dictionaries are kept as association lists in insertion order; floating
    point numbers are left out, none of the modelled code computes on them. *)
Inductive pyval : Type :=
| PNone
| PBool (b : bool)
| PInt (n : Z)
| PStr (s : string)
| PEnum (cls member : string)
| PDatetime (t : Z)
| PList (xs : list pyval)
| PTuple (xs : list pyval)
| PSet (xs : list pyval)
| PDict (kvs : list (pyval * pyval))
| PObj (o : pyobj).

(** [bool] is a subclass of [int]: [True == 1] and [False == 0]. *)
Definition as_number (v : pyval) : option Z :=
  match v with
  | PBool b => Some (Z.b2z b)
  | PInt n => Some n
  | _ => None
  end.

(** Python's [==] on these values. *)
Fixpoint py_eq (a b : pyval) {struct a} : bool :=
  let fix seq_eq (xs ys : list pyval) {struct xs} : bool :=
    match xs, ys with
    | [], [] => true
    | x :: xs', y :: ys' => py_eq x y && seq_eq xs' ys'
    | _, _ => false
    end in
  let fix all_in (xs ys : list pyval) {struct xs} : bool :=
    match xs with
    | [] => true
    | x :: xs' => existsb (py_eq x) ys && all_in xs' ys
    end in
  let fix items_in (kvs kvs' : list (pyval * pyval)) {struct kvs} : bool :=
    match kvs with
    | [] => true
    | (k, v) :: rest =>
        existsb (fun kv' => py_eq k (fst kv') && py_eq v (snd kv')) kvs'
        && items_in rest kvs'
    end in
  match a, b with
  | PNone, PNone => true
  | PBool _, _ | PInt _, _ =>
      match as_number a, as_number b with
      | Some m, Some n => Z.eqb m n
      | _, _ => false
      end
  | PStr s, PStr t => String.eqb s t
  | PEnum c m, PEnum c' m' => String.eqb c c' && String.eqb m m'
  | PDatetime t, PDatetime t' => Z.eqb t t'
  | PList xs, PList ys => seq_eq xs ys
  | PTuple xs, PTuple ys => seq_eq xs ys
  | PSet xs, PSet ys => Nat.eqb (length xs) (length ys) && all_in xs ys
  | PDict kvs, PDict kvs' =>
      Nat.eqb (length kvs) (length kvs') && items_in kvs kvs'
  | PObj o, PObj o' => Nat.eqb (obj_id o) (obj_id o')
  | _, _ => false
  end.

(** [x in xs] for a list [xs]. *)
Definition py_in (x : pyval) (xs : list pyval) : bool := existsb (py_eq x) xs.

(** [x is None] *)
Definition is_none (x : pyval) : bool :=
  match x with PNone => true | _ => false end.

(** [key in d] and [d.get(key, default)] for a string key. *)
Fixpoint dict_lookup (key : string) (kvs : list (pyval * pyval)) : option pyval :=
  match kvs with
  | [] => None
  | (k, v) :: rest => if py_eq (PStr key) k then Some v else dict_lookup key rest
  end.

Definition dict_contains (key : string) (kvs : list (pyval * pyval)) : bool :=
  match dict_lookup key kvs with Some _ => true | None => false end.

Definition dict_get (key : string) (default : pyval) (kvs : list (pyval * pyval)) : pyval :=
  match dict_lookup key kvs with Some v => v | None => default end.

(** [d[key] = v]: replaces the value under an existing key in place, appends
    a new item otherwise. *)
Fixpoint dict_set (key : string) (v : pyval) (kvs : list (pyval * pyval))
  : list (pyval * pyval) :=
  match kvs with
  | [] => [(PStr key, v)]
  | (k, v0) :: rest =>
      if py_eq (PStr key) k then (k, v) :: rest else (k, v0) :: dict_set key v rest
  end.

(** Truth value of an object, as [if not x] tests it. *)
Definition truthy (v : pyval) : bool :=
  match v with
  | PNone => false
  | PBool b => b
  | PInt n => negb (Z.eqb n 0)
  | PStr s => negb (String.eqb s "")
  | PList xs | PTuple xs | PSet xs => negb (Nat.eqb (length xs) 0)
  | PDict kvs => negb (Nat.eqb (length kvs) 0)
  | PEnum _ _ | PDatetime _ | PObj _ => true
  end.

(** Keyword arguments of a constructor call, by name. *)
Fixpoint kwarg (name : string) (kws : list (string * pyval)) : option pyval :=
  match kws with
  | [] => None
  | (k, v) :: rest => if String.eqb name k then Some v else kwarg name rest
  end.

Definition of_opt_str (o : option string) : pyval :=
  match o with Some s => PStr s | None => PNone end.

End Py.
Import Py.

(** ** Induction over Python values *)

Section pyval_induction.

Variable P : pyval -> Prop.
Hypothesis HNone : P PNone.
Hypothesis HBool : forall b, P (PBool b).
Hypothesis HInt : forall n, P (PInt n).
Hypothesis HStr : forall s, P (PStr s).
Hypothesis HEnum : forall c m, P (PEnum c m).
Hypothesis HDatetime : forall t, P (PDatetime t).
Hypothesis HList : forall xs, Forall P xs -> P (PList xs).
Hypothesis HTuple : forall xs, Forall P xs -> P (PTuple xs).
Hypothesis HSet : forall xs, Forall P xs -> P (PSet xs).
Hypothesis HDict :
  forall kvs, Forall (fun kv => P (fst kv) /\ P (snd kv)) kvs -> P (PDict kvs).
Hypothesis HObj : forall o, P (PObj o).

Fixpoint pyval_nested_ind (v : pyval) : P v :=
  let fix all (xs : list pyval) : Forall P xs :=
    match xs with
    | [] => List.Forall_nil P
    | x :: rest => @List.Forall_cons _ P x rest (pyval_nested_ind x) (all rest)
    end in
  let fix all_items (kvs : list (pyval * pyval))
    : Forall (fun kv => P (fst kv) /\ P (snd kv)) kvs :=
    match kvs with
    | [] => List.Forall_nil _
    | (k, v) :: rest =>
        @List.Forall_cons _ (fun kv => P (fst kv) /\ P (snd kv)) (k, v) rest
          (conj (pyval_nested_ind k) (pyval_nested_ind v)) (all_items rest)
    end in
  match v with
  | PNone => HNone
  | PBool b => HBool b
  | PInt n => HInt n
  | PStr s => HStr s
  | PEnum c m => HEnum c m
  | PDatetime t => HDatetime t
  | PList xs => HList xs (all xs)
  | PTuple xs => HTuple xs (all xs)
  | PSet xs => HSet xs (all xs)
  | PDict kvs => HDict kvs (all_items kvs)
  | PObj o => HObj o
  end.

End pyval_induction.

(** ** Exceptions and results *)

Inductive exn : Type :=
| ValueError (msg : string)
| TypeError (msg : string)
| AttributeError
| GenerateTaskStoppedError
| OtherError (msg : string).

Inductive result (A : Type) : Type :=
| Ok (a : A)
| Raise (e : exn).
Arguments Ok {A} a.
Arguments Raise {A} e.

Definition is_ok {A} (r : result A) : bool :=
  match r with Ok _ => true | Raise _ => false end.

(** ** The shared key-value store and the task queue *)

(** An entry of the store [redis_client] talks to: the text written by
    [setex] and the time at which it expires.  The client encodes what it
    writes in UTF-8 and hands back the bytes, which the code decodes again;
    the entry keeps the text. *)
Record Entry : Type := mk_entry {
  expire_at : Z;
  value : string
}.

(** A queue message, [MessageQueueMessage]. *)
Inductive QueueEventClass : Type :=
| QueueStopEvent
| QueueErrorEvent
| QueuePingEvent
| QueueMessageEndEvent
| QueueAdvancedChatMessageEndEvent
| QueueLLMChunkEvent
| QueueAgentMessageEvent
| QueueTextChunkEvent
| QueueRetrieverResourcesEvent
| QueueWorkflowStartedEvent
| QueueWorkflowSucceededEvent
| QueueWorkflowFailedEvent
| QueueNodeStartedEvent
| QueueNodeSucceededEvent
| QueueNodeFailedEvent
| QueueParallelBranchRunStartedEvent
| QueueParallelBranchRunSucceededEvent
| QueueParallelBranchRunFailedEvent
| QueueIterationStartEvent
| QueueIterationNextEvent
| QueueIterationCompletedEvent.

(** Modelled from the spec: the event classes of
    core/app/entities/queue_entities.py, which is not among the sources.  An
    event is the class it was built from together with the keyword arguments
    of the constructor call, values in their dumped form (a nested model is
    the dictionary of its fields); fields left to the defaults of the class
    are not recorded. *)
Record AppQueueEvent : Type := mk_event {
  ev_class : QueueEventClass;
  ev_fields : list (string * pyval)
}.

(** [event.model_dump()] *)
Definition model_dump (event : AppQueueEvent) : pyval :=
  PDict (map (fun kw => (PStr (fst kw), snd kw)) (ev_fields event)).

Record MessageQueueMessage : Type := mk_message {
  msg_task_id : string;
  msg_message_id : string;
  msg_conversation_id : string;
  msg_app_mode : string;
  msg_event : AppQueueEvent
}.

(** What the modelled code reads and writes: the store, the wall clock in
    whole seconds, the [setex] commands sent so far, and the manager's
    [queue.Queue], where [None] is the item [stop_listen] puts. *)
#[projections(primitive)]
Record State : Type := mk_state {
  redis_kv : gmap string Entry;
  redis_log : list (string * Z * string);
  clock : Z;
  q : list (option MessageQueueMessage)
}.

Definition set_q (st : State) (q' : list (option MessageQueueMessage)) : State :=
  {| redis_kv := redis_kv st; redis_log := redis_log st; clock := clock st; q := q' |}.

Definition set_clock (st : State) (t : Z) : State :=
  {| redis_kv := redis_kv st; redis_log := redis_log st; clock := t; q := q st |}.

(** [redis_client.get(key)] *)
Definition redis_get (st : State) (key : string) : option string :=
  match redis_kv st !! key with
  | Some e => if clock st <? expire_at e then Some (value e) else None
  | None => None
  end.

(** [redis_client.setex(key, ttl, v)] *)
Definition redis_setex (key : string) (ttl : Z) (v : string) (st : State) : State :=
  {| redis_kv := <[key := mk_entry (clock st + ttl) v]> (redis_kv st);
     redis_log := redis_log st ++ [(key, ttl, v)];
     clock := clock st;
     q := q st |}.

(** Code that changes the state and may raise; the state changes made before
    an exception stay. *)
Definition M (A : Type) : Type := State -> State * result A.

Definition ret {A} (a : A) : M A := fun st => (st, Ok a).
Definition raise {A} (e : exn) : M A := fun st => (st, Raise e).
Definition bind {A B} (m : M A) (k : A -> M B) : M B :=
  fun st =>
    match m st with
    | (st', Ok a) => k a st'
    | (st', Raise e) => (st', Raise e)
    end.

Declare Scope py_scope.
Delimit Scope py_scope with py.
Notation "'let*' x := m 'in' k" := (bind m (fun x => k))
  (at level 10, x name, m at level 100, k at level 200) : py_scope.
Notation "m >> k" := (bind m (fun _ => k))
  (at level 100, k at level 200, right associativity) : py_scope.
Local Open Scope py_scope.

(** ** AppQueueManager *)

Inductive PublishFrom : Type :=
| APPLICATION_MANAGER
| TASK_PIPELINE.

(** Modelled from the spec: the enumeration [InvokeFrom] of
    core/app/entities/app_invoke_entities.py, which is not among the sources;
    its members are the ones the sources name. *)
Inductive InvokeFrom : Type :=
| SERVICE_API
| WEB_APP
| EXPLORE
| DEBUGGER.

Definition PublishFrom_eqb (a b : PublishFrom) : bool :=
  match a, b with
  | APPLICATION_MANAGER, APPLICATION_MANAGER => true
  | TASK_PIPELINE, TASK_PIPELINE => true
  | _, _ => false
  end.

(** The attributes of a [MessageBasedAppQueueManager]; its queue lives in the
    [State]. *)
Record Manager : Type := mk_manager {
  _task_id : string;
  _user_id : string;
  _invoke_from : InvokeFrom;
  _conversation_id : string;
  _app_mode : string;
  _message_id : string
}.

Record DifyConfig : Type := mk_config {
  APP_MAX_EXECUTION_TIME : Z
}.

Definition default_config : DifyConfig := {| APP_MAX_EXECUTION_TIME := 1200 |}.

Definition _generate_task_belong_cache_key (task_id : string) : string :=
  "generate_task_belong:" +:+ task_id.

Definition _generate_stopped_cache_key (task_id : string) : string :=
  "generate_task_stopped:" +:+ task_id.

(** ["account" if invoke_from in {EXPLORE, DEBUGGER} else "end-user"] *)
Definition user_prefix (invoke_from : InvokeFrom) : string :=
  match invoke_from with
  | EXPLORE | DEBUGGER => "account"
  | _ => "end-user"
  end.

(** [f"{user_prefix}-{user_id}"] *)
Definition task_belong_value (invoke_from : InvokeFrom) (user_id : string) : string :=
  user_prefix invoke_from +:+ "-" +:+ user_id.

(** [AppQueueManager.__init__], as [MessageBasedAppQueueManager.__init__]
    extends it. *)
Definition MessageBasedAppQueueManager_init
    (task_id user_id : string) (invoke_from : InvokeFrom)
    (conversation_id app_mode message_id : string) : M Manager :=
  fun st =>
    if String.eqb user_id "" then (st, Raise (ValueError "user is required"))
    else
      let st1 := redis_setex (_generate_task_belong_cache_key task_id) 1800
                             (task_belong_value invoke_from user_id) st in
      (set_q st1 [],
       Ok (mk_manager task_id user_id invoke_from conversation_id app_mode message_id)).

(** [AppQueueManager.set_stop_flag] *)
Definition set_stop_flag (task_id : string) (invoke_from : InvokeFrom) (user_id : string)
  : M unit :=
  fun st =>
    match redis_get st (_generate_task_belong_cache_key task_id) with
    | None => (st, Ok tt)
    | Some result =>
        if negb (String.eqb result (task_belong_value invoke_from user_id))
        then (st, Ok tt)
        else (redis_setex (_generate_stopped_cache_key task_id) 600 "1" st, Ok tt)
    end.

(** [AppQueueManager._is_stopped] *)
Definition _is_stopped (self : Manager) (st : State) : bool :=
  match redis_get st (_generate_stopped_cache_key (_task_id self)) with
  | Some _ => true
  | None => false
  end.

Definition sqlalchemy_message : string :=
  "Critical Error: Passing SQLAlchemy Model instances that cause thread safety issues is not allowed.".

(** [AppQueueManager._check_for_sqlalchemy_models]: [Some e] when it raises
    [e], [None] when it returns. *)
Fixpoint _check_for_sqlalchemy_models (data : pyval) : option exn :=
  let fix check_items (kvs : list (pyval * pyval)) : option exn :=
    match kvs with
    | [] => None
    | (_, value) :: rest =>
        match _check_for_sqlalchemy_models value with
        | Some e => Some e
        | None => check_items rest
        end
    end in
  let fix check_list (xs : list pyval) : option exn :=
    match xs with
    | [] => None
    | item :: rest =>
        match _check_for_sqlalchemy_models item with
        | Some e => Some e
        | None => check_list rest
        end
    end in
  match data with
  | PDict kvs => check_items kvs
  | PList xs => check_list xs
  | PObj o =>
      if is_declarative_meta o || has_sa_instance_state o
      then Some (TypeError sqlalchemy_message)
      else None
  | _ => None
  end.

(** [AppQueueManager.stop_listen] *)
Definition stop_listen : M unit :=
  fun st => (set_q st (q st ++ [None]), Ok tt).

(** The classes named by the [isinstance] test of [_publish]. *)
Definition closes_queue (c : QueueEventClass) : bool :=
  match c with
  | QueueStopEvent | QueueErrorEvent | QueueMessageEndEvent
  | QueueAdvancedChatMessageEndEvent => true
  | _ => false
  end.

(** [MessageBasedAppQueueManager.construct_queue_message] *)
Definition construct_queue_message (self : Manager) (event : AppQueueEvent)
  : MessageQueueMessage :=
  mk_message (_task_id self) (_message_id self) (_conversation_id self)
             (_app_mode self) event.

(** [MessageBasedAppQueueManager._publish] *)
Definition _publish (self : Manager) (event : AppQueueEvent) (pub_from : PublishFrom)
  : M unit :=
  let message := construct_queue_message self event in
  (fun st => (set_q st (q st ++ [Some message]), Ok tt)) >>
  (if closes_queue (ev_class event) then stop_listen else ret tt) >>
  (fun st =>
     if PublishFrom_eqb pub_from APPLICATION_MANAGER && _is_stopped self st
     then (st, Raise GenerateTaskStoppedError)
     else (st, Ok tt)).

(** [AppQueueManager.publish] *)
Definition publish (self : Manager) (event : AppQueueEvent) (pub_from : PublishFrom)
  : M unit :=
  match _check_for_sqlalchemy_models (model_dump event) with
  | Some e => raise e
  | None => _publish self event pub_from
  end.

(** The first queue operation of a call of [publish]: after the check,
    [_publish] constructs the message and calls [self._q.put(message)].  The
    sentinel, for a closing event, is put by a second call,
    [self.stop_listen()]. *)
Definition put_message (self : Manager) (event : AppQueueEvent) : M unit :=
  match _check_for_sqlalchemy_models (model_dump event) with
  | Some e => raise e
  | None =>
      fun st => (set_q st (q st ++ [Some (construct_queue_message self event)]), Ok tt)
  end.

(** [QueueStopEvent(stopped_by=QueueStopEvent.StopBy.USER_MANUAL)] *)
Definition stop_event_user_manual : AppQueueEvent :=
  mk_event QueueStopEvent [("stopped_by", PEnum "QueueStopEvent.StopBy" "USER_MANUAL")].

(** [QueuePingEvent()] *)
Definition ping_event : AppQueueEvent := mk_event QueuePingEvent [].

(** [AppQueueManager.publish_error] *)
Definition publish_error (self : Manager) (e : pyobj) (pub_from : PublishFrom) : M unit :=
  publish self (mk_event QueueErrorEvent [("error", PObj e)]) pub_from.

(** A live reference to an ORM model: what the last branch of the check
    rejects. *)
Definition is_orm_reference (o : pyobj) : bool :=
  is_declarative_meta o || has_sa_instance_state o.

(** The specification's reading of the check: a live reference "present
    anywhere" in the data, whatever container holds it. *)
Fixpoint contains_orm_reference (data : pyval) : bool :=
  match data with
  | PObj o => is_orm_reference o
  | PList xs | PTuple xs | PSet xs => existsb contains_orm_reference xs
  | PDict kvs =>
      existsb (fun kv => contains_orm_reference (fst kv) || contains_orm_reference (snd kv)) kvs
  | _ => false
  end.

(** What the check does visit: the values of dictionaries and the elements of
    lists, down to any depth. *)
Fixpoint visited_orm_reference (data : pyval) : bool :=
  match data with
  | PObj o => is_orm_reference o
  | PList xs => existsb visited_orm_reference xs
  | PDict kvs => existsb (fun kv => visited_orm_reference (snd kv)) kvs
  | _ => false
  end.

(** The items a call of [publish] appends to the queue. *)
Definition enqueued_by (self : Manager) (event : AppQueueEvent)
  : list (option MessageQueueMessage) :=
  Some (construct_queue_message self event)
  :: (if closes_queue (ev_class event) then [None] else []).

(** ** The generator [AppQueueManager.listen]

    The generator is a small machine: it is either about to call
    [self._q.get(timeout=1)], or suspended at [yield message] (where the
    [finally] block is still to run when it is resumed), or finished. *)

Inductive PC : Type :=
| AtGet
| AtYield
| Finished.

Record Local : Type := mk_local {
  pc : PC;
  start_time : Z;
  last_ping_time : Z
}.

(** The first [next()]: the prologue of [listen] up to the loop. *)
Definition listen_start (st : State) : Local :=
  {| pc := AtGet; start_time := clock st; last_ping_time := 0 |}.

(** The test that guards the stop event in the [finally] block. *)
Definition stop_condition (cfg : DifyConfig) (self : Manager) (loc : Local) (st : State)
  : bool :=
  let elapsed_time := clock st - start_time loc in
  (APP_MAX_EXECUTION_TIME cfg <=? elapsed_time) || _is_stopped self st.

(** The [finally] block of the loop body; it returns the new
    [last_ping_time]. *)
Definition listen_finally (cfg : DifyConfig) (self : Manager) (loc : Local) : M Z :=
  fun st =>
    let elapsed_time := clock st - start_time loc in
    ((if stop_condition cfg self loc st
      then publish self stop_event_user_manual TASK_PIPELINE
      else ret tt) >>
     (if last_ping_time loc <? elapsed_time / 10
      then publish self ping_event TASK_PIPELINE >> ret (elapsed_time / 10)
      else ret (last_ping_time loc))) st.

(** One turn of the generator: from where it stands to the next point at
    which it yields, loops or ends.  The first component is the message handed
    to the consumer, if any.  A [get] on an empty queue gives up after one
    second. *)
Definition listen_step (cfg : DifyConfig) (self : Manager) (loc : Local)
  : M (option MessageQueueMessage * Local) :=
  fun st =>
    match pc loc with
    | Finished => (st, Ok (None, loc))
    | AtYield =>
        (let* ping := listen_finally cfg self loc in
         ret (None, mk_local AtGet (start_time loc) ping)) st
    | AtGet =>
        match q st with
        | [] =>
            (let* ping := listen_finally cfg self loc in
             ret (None, mk_local AtGet (start_time loc) ping))
              (set_clock st (clock st + 1))
        | None :: rest =>
            (let* ping := listen_finally cfg self loc in
             ret (None, mk_local Finished (start_time loc) ping))
              (set_q st rest)
        | Some message :: rest =>
            (set_q st rest, Ok (Some message, mk_local AtYield (start_time loc) (last_ping_time loc)))
        end
    end.

(** ** Runs

    What happens around one manager: producer threads publish, a cancel
    request sets the stop flag, time passes, and the consumer drives the
    generator.  The queue is shared between the threads, and a call of
    [publish] on a producer thread touches it twice for a closing event:
    [self._q.put(message)], then [self.stop_listen()].  These are two actions
    of a run, [Put] and [StopListen], and actions of other threads may fall
    between them.  A turn of the generator is one action. *)

Inductive Action : Type :=
| Put (event : AppQueueEvent)
| StopListen
| SetStopFlag (task_id : string) (invoke_from : InvokeFrom) (user_id : string)
| Sleep (seconds : Z)
| Resume.

Record Run : Type := mk_run {
  run_state : State;
  run_local : Local;
  observed : list MessageQueueMessage
}.

Definition run_action (cfg : DifyConfig) (self : Manager) (r : Run) (a : Action) : Run :=
  match a with
  | Put event =>
      mk_run (fst (put_message self event (run_state r))) (run_local r) (observed r)
  | StopListen =>
      mk_run (fst (stop_listen (run_state r))) (run_local r) (observed r)
  | SetStopFlag task_id invoke_from user_id =>
      mk_run (fst (set_stop_flag task_id invoke_from user_id (run_state r)))
             (run_local r) (observed r)
  | Sleep seconds =>
      mk_run (set_clock (run_state r) (clock (run_state r) + seconds))
             (run_local r) (observed r)
  | Resume =>
      match listen_step cfg self (run_local r) (run_state r) with
      | (st', Ok (Some message, loc')) => mk_run st' loc' (observed r ++ [message])
      | (st', Ok (None, loc')) => mk_run st' loc' (observed r)
      | (st', Raise _) =>
          mk_run st' (mk_local Finished (start_time (run_local r))
                               (last_ping_time (run_local r))) (observed r)
      end
  end.

Definition run_actions (cfg : DifyConfig) (self : Manager) (r : Run) (sched : list Action)
  : Run :=
  fold_left (run_action cfg self) sched r.

(** The queue operations of one call of [publish], in their order. *)
Definition passes_check (event : AppQueueEvent) : bool :=
  match _check_for_sqlalchemy_models (model_dump event) with
  | None => true
  | Some _ => false
  end.

Definition publish_steps (event : AppQueueEvent) : list Action :=
  Put event
  :: (if closes_queue (ev_class event) && passes_check event then [StopListen] else []).

(** A run starts when the consumer first asks [listen()] for a message. *)
Definition start_run (st : State) : Run := mk_run st (listen_start st) [].

(** The consumer alone, for [n] turns. *)
Definition consume (cfg : DifyConfig) (self : Manager) (n : nat) (r : Run) : Run :=
  run_actions cfg self r (repeat Resume n).

Definition event_class_of (m : MessageQueueMessage) : QueueEventClass :=
  ev_class (msg_event m).

(** The terminal events of the specification's property P1. *)
Definition is_terminal (c : QueueEventClass) : bool :=
  match c with
  | QueueWorkflowSucceededEvent | QueueWorkflowFailedEvent | QueueStopEvent => true
  | _ => false
  end.

Definition is_stop (c : QueueEventClass) : bool :=
  match c with QueueStopEvent => true | _ => false end.

Definition count_class (p : QueueEventClass -> bool) (tr : list MessageQueueMessage) : nat :=
  length (List.filter (fun m => p (event_class_of m)) tr).

(** P1 on an observed stream: one terminal event, and it comes last. *)
Definition single_terminal_event (tr : list MessageQueueMessage) : Prop :=
  count_class is_terminal tr = 1%nat /\
  exists (tr0 : list MessageQueueMessage) (m : MessageQueueMessage),
    tr = tr0 ++ [m] /\ is_terminal (event_class_of m) = true.

(** ** WorkflowBasedAppRunner: graph construction *)

Definition rbind {A B} (r : result A) (k : A -> result B) : result B :=
  match r with
  | Ok a => k a
  | Raise e => Raise e
  end.

Notation "'let?' x := r 'in' k" := (rbind r (fun x => k))
  (at level 10, x name, r at level 100, k at level 200) : py_scope.

(** [isinstance(v, list)] *)
Definition is_list (v : pyval) : bool :=
  match v with PList _ => true | _ => false end.

(** [obj.get(key, default)]: only a dictionary has the method. *)
Definition py_get (obj : pyval) (key : string) (default : pyval) : result pyval :=
  match obj with
  | PDict kvs => Ok (dict_get key default kvs)
  | _ => Raise AttributeError
  end.

(** A list comprehension [[x for x in xs if keep(x)]] whose test may raise. *)
Fixpoint comprehension_if {A} (keep : A -> result bool) (xs : list A) : result (list A) :=
  match xs with
  | [] => Ok []
  | x :: rest =>
      let? b := keep x in
      let? rest' := comprehension_if keep rest in
      Ok (if b then x :: rest' else rest')
  end.

(** A list comprehension [[f(x) for x in xs]] whose body may raise. *)
Fixpoint comprehension_map {A B} (f : A -> result B) (xs : list A) : result (list B) :=
  match xs with
  | [] => Ok []
  | x :: rest =>
      let? y := f x in
      let? rest' := comprehension_map f rest in
      Ok (y :: rest')
  end.

(** The items iterated by [for x in v] when [v] is a list. *)
Definition list_items (v : pyval) : list pyval :=
  match v with PList xs => xs | _ => [] end.

(** The test of the node comprehension:
    [node.get("id") == node_id
     or node.get("data", {}).get("iteration_id", "") == node_id] *)
Definition node_in_iteration (node_id : string) (node : pyval) : result bool :=
  let? id := py_get node "id" PNone in
  if py_eq id (PStr node_id) then Ok true
  else
    let? data := py_get node "data" (PDict []) in
    let? iteration_id := py_get data "iteration_id" (PStr "") in
    Ok (py_eq iteration_id (PStr node_id)).

(** The test of the edge comprehension:
    [(edge.get("source") is None or edge.get("source") in node_ids)
     and (edge.get("target") is None or edge.get("target") in node_ids)] *)
Definition edge_in_iteration (node_ids : list pyval) (edge : pyval) : result bool :=
  let? source := py_get edge "source" PNone in
  if is_none source || py_in source node_ids then
    let? target := py_get edge "target" PNone in
    Ok (is_none target || py_in target node_ids)
  else Ok false.

(** The three checks shared by [_init_graph] and the single-iteration
    path. *)
Definition check_nodes_and_edges (graph_config : list (pyval * pyval)) : result unit :=
  if negb (dict_contains "nodes" graph_config) || negb (dict_contains "edges" graph_config)
  then Raise (ValueError "nodes or edges not found in workflow graph")
  else if negb (is_list (dict_get "nodes" PNone graph_config))
  then Raise (ValueError "nodes in workflow graph must be a list")
  else if negb (is_list (dict_get "edges" PNone graph_config))
  then Raise (ValueError "edges in workflow graph must be a list")
  else Ok tt.

(** [_get_graph_and_variable_pool_of_single_iteration] up to the
    configuration it hands to [Graph.init]: the checks, the two
    comprehensions and the two assignments into [graph_config]. *)
Definition single_iteration_graph_config
    (graph_config : list (pyval * pyval)) (node_id : string)
  : result (list (pyval * pyval)) :=
  if negb (truthy (PDict graph_config)) then Raise (ValueError "workflow graph not found")
  else
    let? _ := check_nodes_and_edges graph_config in
    let? node_configs :=
      comprehension_if (node_in_iteration node_id)
                       (list_items (dict_get "nodes" (PList []) graph_config)) in
    let graph_config1 := dict_set "nodes" (PList node_configs) graph_config in
    let? node_ids := comprehension_map (fun node => py_get node "id" PNone) node_configs in
    let? edge_configs :=
      comprehension_if (edge_in_iteration node_ids)
                       (list_items (dict_get "edges" (PList []) graph_config1)) in
    Ok (dict_set "edges" (PList edge_configs) graph_config1).

(** The first node of [node_configs] whose id is [node_id]. *)
Fixpoint find_iteration_node_config (node_id : string) (node_configs : list pyval)
  : result (option pyval) :=
  match node_configs with
  | [] => Ok None
  | node :: rest =>
      let? id := py_get node "id" PNone in
      if py_eq id (PStr node_id) then Ok (Some node)
      else find_iteration_node_config node_id rest
  end.

Section GraphConstruction.

(** The graph class and its constructor [Graph.init(graph_config,
    root_node_id)] live in core/workflow/graph_engine/entities/graph.py,
    which is not among the sources: they are parameters here.  The
    constructor returns a graph, returns nothing, or raises. *)
Variable Graph : Type.
Variable Graph_init : list (pyval * pyval) -> option string -> result (option Graph).

(** [WorkflowBasedAppRunner._init_graph] *)
Definition _init_graph (graph_config : list (pyval * pyval)) : result Graph :=
  let? _ := check_nodes_and_edges graph_config in
  let? graph := Graph_init graph_config None in
  match graph with
  | None => Raise (ValueError "graph not found in workflow")
  | Some g => Ok g
  end.

(** [_get_graph_and_variable_pool_of_single_iteration] up to the lookup of
    the iteration node; the variable pool it then fills depends on classes
    outside the sources and is left out.  It returns the graph and the
    configuration the graph was built from. *)
Definition _get_graph_of_single_iteration
    (graph_config : list (pyval * pyval)) (node_id : string)
  : result (Graph * list (pyval * pyval)) :=
  let? graph_config' := single_iteration_graph_config graph_config node_id in
  let? graph := Graph_init graph_config' (Some node_id) in
  match graph with
  | None => Raise (ValueError "graph not found in workflow")
  | Some g =>
      let? iteration_node_config :=
        find_iteration_node_config node_id
          (list_items (dict_get "nodes" PNone graph_config')) in
      match iteration_node_config with
      | None => Raise (ValueError "iteration node id not found in workflow graph")
      | Some _ => Ok (g, graph_config')
      end
  end.

End GraphConstruction.

(** ** Engine events and their conversion to queue events *)

Inductive NodeType : Type :=
| START | END | ANSWER | LLM | KNOWLEDGE_RETRIEVAL | IF_ELSE | CODE
| TEMPLATE_TRANSFORM | QUESTION_CLASSIFIER | HTTP_REQUEST | TOOL
| VARIABLE_AGGREGATOR | VARIABLE_ASSIGNER | LOOP | ITERATION | ITERATION_START
| PARAMETER_EXTRACTOR | CONVERSATION_VARIABLE_ASSIGNER.

Definition NodeType_value (t : NodeType) : string :=
  match t with
  | START => "start"
  | END => "end"
  | ANSWER => "answer"
  | LLM => "llm"
  | KNOWLEDGE_RETRIEVAL => "knowledge-retrieval"
  | IF_ELSE => "if-else"
  | CODE => "code"
  | TEMPLATE_TRANSFORM => "template-transform"
  | QUESTION_CLASSIFIER => "question-classifier"
  | HTTP_REQUEST => "http-request"
  | TOOL => "tool"
  | VARIABLE_AGGREGATOR => "variable-aggregator"
  | VARIABLE_ASSIGNER => "variable-assigner"
  | LOOP => "loop"
  | ITERATION => "iteration"
  | ITERATION_START => "iteration-start"
  | PARAMETER_EXTRACTOR => "parameter-extractor"
  | CONVERSATION_VARIABLE_ASSIGNER => "assigner"
  end.

Definition of_node_type (t : NodeType) : pyval := PEnum "NodeType" (NodeType_value t).

(** [NodeRunResult], the fields the conversion reads. *)
Record NodeRunResult : Type := mk_node_run_result {
  nrr_inputs : pyval;
  nrr_process_data : pyval;
  nrr_outputs : pyval;
  nrr_metadata : pyval;
  nrr_error : option string
}.

(** [RouteNodeState], the fields the conversion reads. *)
Record RouteNodeState : Type := mk_route_node_state {
  rns_start_at : Z;
  rns_index : Z;
  node_run_result : option NodeRunResult
}.

Record BaseNodeEvent : Type := mk_base_node_event {
  id : string;
  node_id : string;
  node_type : NodeType;
  node_data : pyval;
  route_node_state : RouteNodeState;
  parallel_id : option string;
  parallel_start_node_id : option string;
  parent_parallel_id : option string;
  parent_parallel_start_node_id : option string;
  in_iteration_id : option string
}.

Record BaseParallelBranchEvent : Type := mk_base_parallel_branch_event {
  pb_parallel_id : string;
  pb_parallel_start_node_id : string;
  pb_parent_parallel_id : option string;
  pb_parent_parallel_start_node_id : option string;
  pb_in_iteration_id : option string
}.

Record BaseIterationEvent : Type := mk_base_iteration_event {
  iteration_id : string;
  iteration_node_id : string;
  iteration_node_type : NodeType;
  iteration_node_data : pyval;
  it_parallel_id : option string;
  it_parallel_start_node_id : option string;
  it_parent_parallel_id : option string;
  it_parent_parallel_start_node_id : option string
}.

Inductive GraphEngineEvent : Type :=
| GraphRunStartedEvent
| GraphRunSucceededEvent (outputs : pyval)
| GraphRunFailedEvent (error : string)
| NodeRunStartedEvent (base : BaseNodeEvent) (predecessor_node_id : option string)
| NodeRunStreamChunkEvent (base : BaseNodeEvent) (chunk_content : string)
                          (from_variable_selector : option (list string))
| NodeRunRetrieverResourceEvent (base : BaseNodeEvent) (retriever_resources : list pyval)
                                (context : string)
| NodeRunSucceededEvent (base : BaseNodeEvent)
| NodeRunFailedEvent (base : BaseNodeEvent) (error : string)
| ParallelBranchRunStartedEvent (base : BaseParallelBranchEvent)
| ParallelBranchRunSucceededEvent (base : BaseParallelBranchEvent)
| ParallelBranchRunFailedEvent (base : BaseParallelBranchEvent) (error : string)
| IterationRunStartedEvent (base : BaseIterationEvent) (start_at : Z)
                           (inputs metadata : pyval) (predecessor_node_id : option string)
| IterationRunNextEvent (base : BaseIterationEvent) (index : Z) (pre_iteration_output : pyval)
| IterationRunSucceededEvent (base : BaseIterationEvent) (start_at : Z)
                             (inputs outputs metadata : pyval) (steps : Z)
| IterationRunFailedEvent (base : BaseIterationEvent) (start_at : Z)
                          (inputs outputs metadata : pyval) (steps : Z) (error : string).

(** What [_handle_event] reads of [workflow_entry.graph_engine]. *)
Record WorkflowEntry : Type := mk_workflow_entry {
  graph_runtime_state : pyval;
  node_run_steps : Z
}.

(** [x.f if node_run_result else {}] *)
Definition result_field (f : NodeRunResult -> pyval) (s : RouteNodeState) : pyval :=
  match node_run_result s with
  | Some r => f r
  | None => PDict []
  end.

(** [r.error if r and r.error else "Unknown error"] *)
Definition result_error (s : RouteNodeState) : string :=
  match node_run_result s with
  | Some r =>
      match nrr_error r with
      | Some e => if String.eqb e "" then "Unknown error" else e
      | None => "Unknown error"
      end
  | None => "Unknown error"
  end.

Definition of_selector (o : option (list string)) : pyval :=
  match o with Some l => PList (map PStr l) | None => PNone end.

(** The queue event [_handle_event] builds for an engine event. *)
Definition to_queue_event (workflow_entry : WorkflowEntry) (event : GraphEngineEvent)
  : AppQueueEvent :=
  match event with
  | GraphRunStartedEvent =>
      mk_event QueueWorkflowStartedEvent
        [("graph_runtime_state", graph_runtime_state workflow_entry)]
  | GraphRunSucceededEvent outputs =>
      mk_event QueueWorkflowSucceededEvent [("outputs", outputs)]
  | GraphRunFailedEvent error =>
      mk_event QueueWorkflowFailedEvent [("error", PStr error)]
  | NodeRunStartedEvent b predecessor_node_id =>
      mk_event QueueNodeStartedEvent
        [("node_execution_id", PStr (id b));
         ("node_id", PStr (node_id b));
         ("node_type", of_node_type (node_type b));
         ("node_data", node_data b);
         ("parallel_id", of_opt_str (parallel_id b));
         ("parallel_start_node_id", of_opt_str (parallel_start_node_id b));
         ("parent_parallel_id", of_opt_str (parent_parallel_id b));
         ("parent_parallel_start_node_id", of_opt_str (parent_parallel_start_node_id b));
         ("start_at", PDatetime (rns_start_at (route_node_state b)));
         ("node_run_index", PInt (rns_index (route_node_state b)));
         ("predecessor_node_id", of_opt_str predecessor_node_id);
         ("in_iteration_id", of_opt_str (in_iteration_id b))]
  | NodeRunSucceededEvent b =>
      mk_event QueueNodeSucceededEvent
        [("node_execution_id", PStr (id b));
         ("node_id", PStr (node_id b));
         ("node_type", of_node_type (node_type b));
         ("node_data", node_data b);
         ("parallel_id", of_opt_str (parallel_id b));
         ("parallel_start_node_id", of_opt_str (parallel_start_node_id b));
         ("parent_parallel_id", of_opt_str (parent_parallel_id b));
         ("parent_parallel_start_node_id", of_opt_str (parent_parallel_start_node_id b));
         ("start_at", PDatetime (rns_start_at (route_node_state b)));
         ("inputs", result_field nrr_inputs (route_node_state b));
         ("process_data", result_field nrr_process_data (route_node_state b));
         ("outputs", result_field nrr_outputs (route_node_state b));
         ("execution_metadata", result_field nrr_metadata (route_node_state b));
         ("in_iteration_id", of_opt_str (in_iteration_id b))]
  | NodeRunFailedEvent b _ =>
      mk_event QueueNodeFailedEvent
        [("node_execution_id", PStr (id b));
         ("node_id", PStr (node_id b));
         ("node_type", of_node_type (node_type b));
         ("node_data", node_data b);
         ("parallel_id", of_opt_str (parallel_id b));
         ("parallel_start_node_id", of_opt_str (parallel_start_node_id b));
         ("parent_parallel_id", of_opt_str (parent_parallel_id b));
         ("parent_parallel_start_node_id", of_opt_str (parent_parallel_start_node_id b));
         ("start_at", PDatetime (rns_start_at (route_node_state b)));
         ("inputs", result_field nrr_inputs (route_node_state b));
         ("process_data", result_field nrr_process_data (route_node_state b));
         ("outputs", result_field nrr_outputs (route_node_state b));
         ("error", PStr (result_error (route_node_state b)));
         ("in_iteration_id", of_opt_str (in_iteration_id b))]
  | NodeRunStreamChunkEvent b chunk_content from_variable_selector =>
      mk_event QueueTextChunkEvent
        [("text", PStr chunk_content);
         ("from_variable_selector", of_selector from_variable_selector);
         ("in_iteration_id", of_opt_str (in_iteration_id b))]
  | NodeRunRetrieverResourceEvent b retriever_resources _ =>
      mk_event QueueRetrieverResourcesEvent
        [("retriever_resources", PList retriever_resources);
         ("in_iteration_id", of_opt_str (in_iteration_id b))]
  | ParallelBranchRunStartedEvent b =>
      mk_event QueueParallelBranchRunStartedEvent
        [("parallel_id", PStr (pb_parallel_id b));
         ("parallel_start_node_id", PStr (pb_parallel_start_node_id b));
         ("parent_parallel_id", of_opt_str (pb_parent_parallel_id b));
         ("parent_parallel_start_node_id", of_opt_str (pb_parent_parallel_start_node_id b));
         ("in_iteration_id", of_opt_str (pb_in_iteration_id b))]
  | ParallelBranchRunSucceededEvent b =>
      mk_event QueueParallelBranchRunSucceededEvent
        [("parallel_id", PStr (pb_parallel_id b));
         ("parallel_start_node_id", PStr (pb_parallel_start_node_id b));
         ("parent_parallel_id", of_opt_str (pb_parent_parallel_id b));
         ("parent_parallel_start_node_id", of_opt_str (pb_parent_parallel_start_node_id b));
         ("in_iteration_id", of_opt_str (pb_in_iteration_id b))]
  | ParallelBranchRunFailedEvent b error =>
      mk_event QueueParallelBranchRunFailedEvent
        [("parallel_id", PStr (pb_parallel_id b));
         ("parallel_start_node_id", PStr (pb_parallel_start_node_id b));
         ("parent_parallel_id", of_opt_str (pb_parent_parallel_id b));
         ("parent_parallel_start_node_id", of_opt_str (pb_parent_parallel_start_node_id b));
         ("in_iteration_id", of_opt_str (pb_in_iteration_id b));
         ("error", PStr error)]
  | IterationRunStartedEvent b start_at inputs metadata predecessor_node_id =>
      mk_event QueueIterationStartEvent
        [("node_execution_id", PStr (iteration_id b));
         ("node_id", PStr (iteration_node_id b));
         ("node_type", of_node_type (iteration_node_type b));
         ("node_data", iteration_node_data b);
         ("parallel_id", of_opt_str (it_parallel_id b));
         ("parallel_start_node_id", of_opt_str (it_parallel_start_node_id b));
         ("parent_parallel_id", of_opt_str (it_parent_parallel_id b));
         ("parent_parallel_start_node_id", of_opt_str (it_parent_parallel_start_node_id b));
         ("start_at", PDatetime start_at);
         ("node_run_index", PInt (node_run_steps workflow_entry));
         ("inputs", inputs);
         ("predecessor_node_id", of_opt_str predecessor_node_id);
         ("metadata", metadata)]
  | IterationRunNextEvent b index pre_iteration_output =>
      mk_event QueueIterationNextEvent
        [("node_execution_id", PStr (iteration_id b));
         ("node_id", PStr (iteration_node_id b));
         ("node_type", of_node_type (iteration_node_type b));
         ("node_data", iteration_node_data b);
         ("parallel_id", of_opt_str (it_parallel_id b));
         ("parallel_start_node_id", of_opt_str (it_parallel_start_node_id b));
         ("parent_parallel_id", of_opt_str (it_parent_parallel_id b));
         ("parent_parallel_start_node_id", of_opt_str (it_parent_parallel_start_node_id b));
         ("index", PInt index);
         ("node_run_index", PInt (node_run_steps workflow_entry));
         ("output", pre_iteration_output)]
  | IterationRunSucceededEvent b start_at inputs outputs metadata steps =>
      mk_event QueueIterationCompletedEvent
        [("node_execution_id", PStr (iteration_id b));
         ("node_id", PStr (iteration_node_id b));
         ("node_type", of_node_type (iteration_node_type b));
         ("node_data", iteration_node_data b);
         ("parallel_id", of_opt_str (it_parallel_id b));
         ("parallel_start_node_id", of_opt_str (it_parallel_start_node_id b));
         ("parent_parallel_id", of_opt_str (it_parent_parallel_id b));
         ("parent_parallel_start_node_id", of_opt_str (it_parent_parallel_start_node_id b));
         ("start_at", PDatetime start_at);
         ("node_run_index", PInt (node_run_steps workflow_entry));
         ("inputs", inputs);
         ("outputs", outputs);
         ("metadata", metadata);
         ("steps", PInt steps);
         ("error", PNone)]
  | IterationRunFailedEvent b start_at inputs outputs metadata steps error =>
      mk_event QueueIterationCompletedEvent
        [("node_execution_id", PStr (iteration_id b));
         ("node_id", PStr (iteration_node_id b));
         ("node_type", of_node_type (iteration_node_type b));
         ("node_data", iteration_node_data b);
         ("parallel_id", of_opt_str (it_parallel_id b));
         ("parallel_start_node_id", of_opt_str (it_parallel_start_node_id b));
         ("parent_parallel_id", of_opt_str (it_parent_parallel_id b));
         ("parent_parallel_start_node_id", of_opt_str (it_parent_parallel_start_node_id b));
         ("start_at", PDatetime start_at);
         ("node_run_index", PInt (node_run_steps workflow_entry));
         ("inputs", inputs);
         ("outputs", outputs);
         ("metadata", metadata);
         ("steps", PInt steps);
         ("error", PStr error)]
  end.

(** [WorkflowBasedAppRunner._publish_event] *)
Definition _publish_event (queue_manager : Manager) (event : AppQueueEvent) : M unit :=
  publish queue_manager event APPLICATION_MANAGER.

(** [WorkflowBasedAppRunner._handle_event] *)
Definition _handle_event (queue_manager : Manager) (workflow_entry : WorkflowEntry)
    (event : GraphEngineEvent) : M unit :=
  _publish_event queue_manager (to_queue_event workflow_entry event).

(** The node-scoped engine events: the subclasses of [BaseNodeEvent]. *)
Definition base_node_event (event : GraphEngineEvent) : option BaseNodeEvent :=
  match event with
  | NodeRunStartedEvent b _ | NodeRunStreamChunkEvent b _ _
  | NodeRunRetrieverResourceEvent b _ _ | NodeRunSucceededEvent b
  | NodeRunFailedEvent b _ => Some b
  | _ => None
  end.

(** The nine fields the specification requires of a node-scoped queue event,
    with the values the engine event holds for them. *)
Definition required_node_fields (b : BaseNodeEvent) : list (string * pyval) :=
  [("node_execution_id", PStr (id b));
   ("node_id", PStr (node_id b));
   ("node_type", of_node_type (node_type b));
   ("start_at", PDatetime (rns_start_at (route_node_state b)));
   ("parallel_id", of_opt_str (parallel_id b));
   ("parallel_start_node_id", of_opt_str (parallel_start_node_id b));
   ("parent_parallel_id", of_opt_str (parent_parallel_id b));
   ("parent_parallel_start_node_id", of_opt_str (parent_parallel_start_node_id b));
   ("in_iteration_id", of_opt_str (in_iteration_id b))].

(** An event carries a field list when each field is among its own, with the
    same value. *)
Definition carries (event : AppQueueEvent) (fields : list (string * pyval)) : Prop :=
  Forall (fun kw => kwarg (fst kw) (ev_fields event) = Some (snd kw)) fields.

(** ** Shape of the queue and of the observed stream *)

(** A message whose event makes [_publish] close the queue. *)
Definition closing (m : MessageQueueMessage) : bool :=
  closes_queue (event_class_of m).

(** [_publish] puts the sentinel behind a closing message.  In a list of
    items that is well formed every closing message is directly followed by
    the sentinel: no other item was put between the two. *)
Fixpoint wf_queue (items : list (option MessageQueueMessage)) : bool :=
  match items with
  | [] => true
  | None :: rest => wf_queue rest
  | Some m :: rest =>
      (if closing m then match rest with None :: _ => true | _ => false end else true)
      && wf_queue rest
  end.

(** What the [finally] block appends to the queue, and the value it leaves
    in [last_ping_time]. *)
Definition finally_items (cfg : DifyConfig) (self : Manager) (loc : Local) (st : State)
  : list (option MessageQueueMessage) :=
  (if stop_condition cfg self loc st
   then [Some (construct_queue_message self stop_event_user_manual); None]
   else [])
  ++ (if last_ping_time loc <? (clock st - start_time loc) / 10
      then [Some (construct_queue_message self ping_event)]
      else []).

Definition finally_ping (loc : Local) (st : State) : Z :=
  if last_ping_time loc <? (clock st - start_time loc) / 10
  then (clock st - start_time loc) / 10
  else last_ping_time loc.

(** The next turn of the generator runs the [finally] block and finds the
    stop condition true: the generator is suspended at its [yield], or it is
    about to wait on an empty queue. *)
Definition stop_observed (cfg : DifyConfig) (self : Manager) (r : Run) : bool :=
  match pc (run_local r) with
  | AtYield => stop_condition cfg self (run_local r) (run_state r)
  | AtGet =>
      match q (run_state r) with
      | [] => stop_condition cfg self (run_local r)
                (set_clock (run_state r) (clock (run_state r) + 1))
      | _ => false
      end
  | Finished => false
  end.

(** Either no closing message was observed, or exactly the last one observed
    is closing, and then the generator has ended or meets the sentinel
    next. *)
Definition observed_ok (r : Run) : Prop :=
  Forall (fun m => closing m = false) (observed r) \/
  exists tr0 m,
    observed r = tr0 ++ [m] /\ Forall (fun m => closing m = false) tr0 /\
    closing m = true /\
    (pc (run_local r) = Finished \/ exists rest, q (run_state r) = None :: rest).

Definition run_inv (r : Run) : Prop :=
  wf_queue (q (run_state r)) = true /\ observed_ok r.

(** ** Runs, one queue operation at a time

    The [finally] block of [listen] publishes as well: it puts the stop
    event, then the sentinel, then a ping, by separate calls, and between them
    other threads may act just as between the two queue operations of a
    producer's publish.  A step-wise run lets the consumer go on by one queue
    operation at a time.  It holds the items the [finally] block of the turn
    under way has still to put, and it keeps the list of all items put on the
    queue so far, in the order of the puts. *)

Record StepRun : Type := mk_step_run {
  step_run : Run;
  pending : list (option MessageQueueMessage);
  put_log : list (option MessageQueueMessage)
}.

(** A turn of the generator up to the first [put] of its [finally] block:
    the [get] with the [yield] or the [break] after it, or the resumption
    after a [yield], and the two tests of the [finally] block, which fix the
    items the block is going to put. *)
Definition begin_turn (cfg : DifyConfig) (self : Manager) (r : Run)
  : Run * list (option MessageQueueMessage) :=
  let st := run_state r in
  let loc := run_local r in
  match pc loc with
  | Finished => (r, [])
  | AtYield =>
      (mk_run st (mk_local AtGet (start_time loc) (finally_ping loc st)) (observed r),
       finally_items cfg self loc st)
  | AtGet =>
      match q st with
      | [] =>
          let st1 := set_clock st (clock st + 1) in
          (mk_run st1 (mk_local AtGet (start_time loc) (finally_ping loc st1)) (observed r),
           finally_items cfg self loc st1)
      | None :: rest =>
          (mk_run (set_q st rest)
                  (mk_local Finished (start_time loc) (finally_ping loc st)) (observed r),
           finally_items cfg self loc st)
      | Some message :: rest =>
          (mk_run (set_q st rest)
                  (mk_local AtYield (start_time loc) (last_ping_time loc))
                  (observed r ++ [message]),
           [])
      end
  end.

(** One action of a step-wise run.  [Resume] lets the consumer go on: it
    puts the next item its [finally] block has still to put or, when there is
    none, begins the next turn of the generator.  The other actions are those
    of the other threads. *)
Definition step_action (cfg : DifyConfig) (self : Manager) (sr : StepRun) (a : Action)
  : StepRun :=
  match a with
  | Resume =>
      match pending sr with
      | item :: rest =>
          let r := step_run sr in
          mk_step_run
            (mk_run (set_q (run_state r) (q (run_state r) ++ [item]))
                    (run_local r) (observed r))
            rest (put_log sr ++ [item])
      | [] =>
          mk_step_run (fst (begin_turn cfg self (step_run sr)))
                      (snd (begin_turn cfg self (step_run sr))) (put_log sr)
      end
  | Put event =>
      mk_step_run (run_action cfg self (step_run sr) a) (pending sr)
        (put_log sr
         ++ (if passes_check event then [Some (construct_queue_message self event)] else []))
  | StopListen =>
      mk_step_run (run_action cfg self (step_run sr) a) (pending sr) (put_log sr ++ [None])
  | SetStopFlag _ _ _ | Sleep _ =>
      mk_step_run (run_action cfg self (step_run sr) a) (pending sr) (put_log sr)
  end.

Definition step_actions (cfg : DifyConfig) (self : Manager) (sr : StepRun)
    (sched : list Action) : StepRun :=
  fold_left (step_action cfg self) sched sr.

(** A step-wise run starts like a run; what the queue holds then was put
    before. *)
Definition start_steps (st : State) : StepRun :=
  mk_step_run (start_run st) [] (q st).

(** The items the consumer has taken from the queue: the messages it
    received and, once the generator has ended, the sentinel. *)
Definition taken (r : Run) : list (option MessageQueueMessage) :=
  map Some (observed r)
  ++ match pc (run_local r) with Finished => [None] | _ => [] end.

(** ** Sample data

    A manager for task [t1] of the console user [u1], the states around it,
    and events that hold a live ORM object. *)

Definition empty_state : State := mk_state ∅ [] 0 [].

Definition sample_manager : Manager :=
  mk_manager "t1" "u1" DEBUGGER "c1" "advanced-chat" "m1".

(** The state right after the manager was constructed. *)
Definition sample_state : State :=
  fst (MessageBasedAppQueueManager_init "t1" "u1" DEBUGGER "c1" "advanced-chat" "m1"
         empty_state).

(** The same after the owner asked to stop the task. *)
Definition stopped_state : State :=
  fst (set_stop_flag "t1" DEBUGGER "u1" sample_state).

(** The same 1200 seconds later, with no stop request. *)
Definition late_state : State := set_clock sample_state 1200.

Definition orm_object : pyobj := mk_pyobj 7 false true.

Definition outputs_event (payload : pyval) : AppQueueEvent :=
  mk_event QueueWorkflowSucceededEvent [("outputs", PDict [(PStr "rows", payload)])].

Definition tuple_event : AppQueueEvent := outputs_event (PTuple [PObj orm_object]).
Definition set_event : AppQueueEvent := outputs_event (PSet [PObj orm_object]).
Definition key_event : AppQueueEvent :=
  outputs_event (PDict [(PObj orm_object, PStr "row")]).
Definition list_event : AppQueueEvent := outputs_event (PList [PObj orm_object]).

Definition answer_event : AppQueueEvent :=
  mk_event QueueWorkflowSucceededEvent [("outputs", PDict [(PStr "answer", PStr "hi")])].

(** The items the [finally] block of [listen] adds to the queue. *)
Definition published_by_finally (cfg : DifyConfig) (self : Manager) (loc : Local)
    (st : State) : list (option MessageQueueMessage) :=
  skipn (length (q st)) (q (fst (listen_finally cfg self loc st))).

(** The reason code of a stop message. *)
Definition stopped_by (m : option (option MessageQueueMessage)) : option pyval :=
  match m with
  | Some (Some msg) => kwarg "stopped_by" (ev_fields (msg_event msg))
  | _ => None
  end.

(** A workflow graph: start, an iteration node [it1] with two inner nodes,
    and an end node.  The edge into the first inner node names no source. *)
Definition node_config (node_id type : string) (iteration : option string) : pyval :=
  PDict [(PStr "id", PStr node_id);
         (PStr "data",
          PDict ((PStr "type", PStr type)
                 :: match iteration with
                    | Some it => [(PStr "iteration_id", PStr it)]
                    | None => []
                    end))].

Definition edge_config (source target : string) : pyval :=
  PDict [(PStr "source", PStr source); (PStr "target", PStr target)].

Definition open_edge : pyval :=
  PDict [(PStr "source", PNone); (PStr "target", PStr "inner1")].

Definition sample_graph_config : list (pyval * pyval) :=
  [(PStr "nodes",
    PList [node_config "start" "start" None;
           node_config "it1" "iteration" None;
           node_config "inner1" "code" (Some "it1");
           node_config "inner2" "code" (Some "it1");
           node_config "end" "end" None]);
   (PStr "edges",
    PList [edge_config "start" "it1";
           open_edge;
           edge_config "inner1" "inner2";
           edge_config "it1" "end"])].

(** A stand-in for [Graph.init] in examples: the graph is the list of its
    nodes, and there is none without a node. *)
Definition sample_graph_init (graph_config : list (pyval * pyval)) (root : option string)
  : result (option (list pyval)) :=
  match dict_get "nodes" PNone graph_config with
  | PList (node :: nodes) => Ok (Some (node :: nodes))
  | _ => Ok None
  end.

(** An edge the edge comprehension can test without raising: an object. *)
Definition edge_ok (edge : pyval) : bool :=
  match edge with PDict _ => true | _ => false end.

(** A test that returned [True]. *)
Definition holds (r : result bool) : bool :=
  match r with Ok true => true | _ => false end.

(** The specification's reading of the edge filter: both endpoints are among
    the retained node ids. *)
Definition endpoints_survive (node_ids : list pyval) (edge : pyval) : bool :=
  match edge with
  | PDict kvs =>
      py_in (dict_get "source" PNone kvs) node_ids
      && py_in (dict_get "target" PNone kvs) node_ids
  | _ => false
  end.

(** A node-scoped engine event and the workflow entry around it. *)
Definition sample_base_node_event : BaseNodeEvent :=
  mk_base_node_event "exec-1" "llm-1" LLM (PDict [(PStr "title", PStr "LLM")])
    (mk_route_node_state 1700000000 3 None)
    (Some "p1") (Some "llm-1") None None (Some "it1").

Definition sample_chunk_event : GraphEngineEvent :=
  NodeRunStreamChunkEvent sample_base_node_event "Hel" (Some ["llm-1"; "text"]).

Definition sample_workflow_entry : WorkflowEntry := mk_workflow_entry (PDict []) 3.

(** The names of the required fields other than [in_iteration_id]. *)
Definition node_identity_fields : list string :=
  ["node_execution_id"; "node_id"; "node_type"; "start_at"; "parallel_id";
   "parallel_start_node_id"; "parent_parallel_id"; "parent_parallel_start_node_id"].

(** ** An idle run

    The consumer waits on a queue nobody fills: [e] seconds after the start
    the generator is back at its [get], has sent a ping for every ten
    seconds gone by, and the task is not stopped. *)
Definition idle_at (self : Manager) (start e : Z) (r : Run) : Prop :=
  pc (run_local r) = AtGet /\
  start_time (run_local r) = start /\
  last_ping_time (run_local r) = e / 10 /\
  q (run_state r) = [] /\
  clock (run_state r) = start + e /\
  redis_kv (run_state r) !! _generate_stopped_cache_key (_task_id self) = None /\
  observed r = repeat (construct_queue_message self ping_event) (Z.to_nat (e / 10)).

(** Data as a JSON document has it, possibly with live objects as values:
    no tuples, no sets, and strings as dictionary keys. *)
Fixpoint json_shaped (data : pyval) : bool :=
  match data with
  | PTuple _ | PSet _ => false
  | PList xs => forallb json_shaped xs
  | PDict kvs =>
      forallb (fun kv => match fst kv with PStr _ => json_shaped (snd kv) | _ => false end) kvs
  | _ => true
  end.

(** ** Enumerations looked up by value *)

(** [for member in cls: if member.value == value: return member] *)
Fixpoint enum_lookup {A} (value_of_member : A -> string) (members : list A) (value : pyval)
  : option A :=
  match members with
  | [] => None
  | member :: rest =>
      if py_eq (PStr (value_of_member member)) value then Some member
      else enum_lookup value_of_member rest value
  end.

(** The members of [NodeType], in the order of the class body. *)
Definition NodeType_members : list NodeType :=
  [START; END; ANSWER; LLM; KNOWLEDGE_RETRIEVAL; IF_ELSE; CODE; TEMPLATE_TRANSFORM;
   QUESTION_CLASSIFIER; HTTP_REQUEST; TOOL; VARIABLE_AGGREGATOR; VARIABLE_ASSIGNER; LOOP;
   ITERATION; ITERATION_START; PARAMETER_EXTRACTOR; CONVERSATION_VARIABLE_ASSIGNER].

(** [UserFrom] of node_entities.py. *)
Inductive UserFrom : Type :=
| ACCOUNT
| END_USER.

Definition UserFrom_value (u : UserFrom) : string :=
  match u with
  | ACCOUNT => "account"
  | END_USER => "end-user"
  end.

Definition UserFrom_members : list UserFrom := [ACCOUNT; END_USER].

Section ValueOf.

(** Python's [str()], which formats the value into the message of the
    exception. *)
Variable py_str : pyval -> string.

(** [NodeType.value_of] *)
Definition NodeType_value_of (value : pyval) : result NodeType :=
  match enum_lookup NodeType_value NodeType_members value with
  | Some node_type => Ok node_type
  | None => Raise (ValueError ("无效的节点类型值 " +:+ py_str value))
  end.

(** [UserFrom.value_of] *)
Definition UserFrom_value_of (value : pyval) : result UserFrom :=
  match enum_lookup UserFrom_value UserFrom_members value with
  | Some item => Ok item
  | None => Raise (ValueError ("无效的值: " +:+ py_str value))
  end.

Variable Graph : Type.
Variable Graph_init : list (pyval * pyval) -> option string -> result (option Graph).

(** [_get_graph_and_variable_pool_of_single_iteration] up to the node type of
    the iteration node, [NodeType.value_of(iteration_node_config.get("data",
    {}).get("type"))]. *)
Definition _get_node_type_of_single_iteration
    (graph_config : list (pyval * pyval)) (node_id : string)
  : result (Graph * list (pyval * pyval) * NodeType) :=
  let? built := _get_graph_of_single_iteration Graph Graph_init graph_config node_id in
  let? iteration_node_config :=
    find_iteration_node_config node_id (list_items (dict_get "nodes" PNone (snd built))) in
  match iteration_node_config with
  | None => Raise (ValueError "iteration node id not found in workflow graph")
  | Some node =>
      let? data := py_get node "data" (PDict []) in
      let? type := py_get data "type" PNone in
      let? node_type := NodeType_value_of type in
      Ok (fst built, snd built, node_type)
  end.

End ValueOf.

(** A node the node comprehension can test without raising: an object whose
    id is [node_id] or whose ["data"], if any, is an object. *)
Definition node_passes (node_id : string) (node : pyval) : bool :=
  match node with
  | PDict kvs =>
      py_eq (dict_get "id" PNone kvs) (PStr node_id)
      || match dict_get "data" (PDict []) kvs with PDict _ => true | _ => false end
  | _ => false
  end.

(** ** AppGenerateResponseConverter

    [api/core/app/apps/base_app_generate_response_converter.py].  A string is
    the sequence of its characters. *)

Definition newline : string := String (Ascii.ascii_of_nat 10) EmptyString.

(** The frame of one chunk of a streamed response:
    [f"event: {chunk}\n\n"] for a ping, [f"data: {chunk}\n\n"] otherwise. *)
Definition sse_frame (chunk : string) : string :=
  if String.eqb chunk "ping"
  then "event: " +:+ chunk +:+ newline +:+ newline
  else "data: " +:+ chunk +:+ newline +:+ newline.

Section Convert.

(** The response classes and the four abstract conversions, which the
    subclasses provide.  A generator is the list of what it yields. *)
Variable BlockingResponse StreamResponse : Type.
Variable convert_blocking_full_response : BlockingResponse -> list (pyval * pyval).
Variable convert_blocking_simple_response : BlockingResponse -> list (pyval * pyval).
Variable convert_stream_full_response : list StreamResponse -> list string.
Variable convert_stream_simple_response : list StreamResponse -> list string.

(** [AppGenerateResponseConverter.convert] *)
Definition convert (response : BlockingResponse + list StreamResponse)
    (invoke_from : InvokeFrom) : list (pyval * pyval) + list string :=
  match invoke_from with
  | DEBUGGER | SERVICE_API =>
      match response with
      | inl blocking => inl (convert_blocking_full_response blocking)
      | inr stream => inr (map sse_frame (convert_stream_full_response stream))
      end
  | _ =>
      match response with
      | inl blocking => inl (convert_blocking_simple_response blocking)
      | inr stream => inr (map sse_frame (convert_stream_simple_response stream))
      end
  end.

End Convert.

(** [del d[key]] on a dictionary that has the key. *)
Fixpoint dict_del (key : string) (kvs : list (pyval * pyval)) : list (pyval * pyval) :=
  match kvs with
  | [] => []
  | (k, v) :: rest =>
      if py_eq (PStr key) k then dict_del key rest else (k, v) :: dict_del key rest
  end.

(** [obj[key]] for a string key. *)
Definition py_getitem (obj : pyval) (key : string) : result pyval :=
  match obj with
  | PDict kvs =>
      match dict_lookup key kvs with
      | Some v => Ok v
      | None => Raise (OtherError "KeyError")
      end
  | _ => Raise (TypeError "object is not subscriptable")
  end.

(** The dictionary the loop of [_get_simple_metadata] builds from one
    resource. *)
Definition simple_resource (resource : pyval) : result pyval :=
  let? segment_id := py_getitem resource "segment_id" in
  let? position := py_getitem resource "position" in
  let? document_name := py_getitem resource "document_name" in
  let? score := py_getitem resource "score" in
  let? content := py_getitem resource "content" in
  Ok (PDict [(PStr "segment_id", segment_id); (PStr "position", position);
             (PStr "document_name", document_name); (PStr "score", score);
             (PStr "content", content)]).

(** [metadata["retriever_resources"].append(x)] *)
Definition append_retriever_resource (x : pyval) (metadata : list (pyval * pyval))
  : list (pyval * pyval) :=
  dict_set "retriever_resources"
    (PList (list_items (dict_get "retriever_resources" PNone metadata) ++ [x])) metadata.

(** The [for] loop over the resources found in the list at its entry. *)
Fixpoint simplify_resources (resources : list pyval) (metadata : list (pyval * pyval))
  : result (list (pyval * pyval)) :=
  match resources with
  | [] => Ok metadata
  | resource :: rest =>
      let? simple := simple_resource resource in
      simplify_resources rest (append_retriever_resource simple metadata)
  end.

(** [AppGenerateResponseConverter._get_simple_metadata]: the list is
    replaced by a new, empty one before the loop runs over it. *)
Definition _get_simple_metadata (metadata : list (pyval * pyval))
  : result (list (pyval * pyval)) :=
  let? metadata1 :=
    if dict_contains "retriever_resources" metadata then
      let emptied := dict_set "retriever_resources" (PList []) metadata in
      simplify_resources (list_items (dict_get "retriever_resources" PNone emptied)) emptied
    else Ok metadata in
  let metadata2 :=
    if dict_contains "annotation_reply" metadata1 then dict_del "annotation_reply" metadata1
    else metadata1 in
  let metadata3 :=
    if dict_contains "usage" metadata2 then dict_del "usage" metadata2 else metadata2 in
  Ok metadata3.

(** The classes [_error_to_stream_response] tests an exception against, in
    the order of its table. *)
Inductive ErrorClass : Type :=
| ValueErrorClass
| ProviderTokenNotInitErrorClass
| QuotaExceededErrorClass
| ModelCurrentlyNotSupportErrorClass
| InvokeErrorClass.

(** An exception as the function looks at it: the classes it is an instance
    of, its [description] attribute if it has one, and [str(e)]. *)
Record PyException : Type := mk_exception {
  exc_isinstance : ErrorClass -> bool;
  exc_description : option pyval;
  exc_str : string
}.

Definition quota_message : string :=
  "Your quota for Dify Hosted Model Provider has been exhausted. Please go to Settings -> Model Provider to complete your own provider credentials.".

(** The table [error_responses], in insertion order. *)
Definition error_responses : list (ErrorClass * list (pyval * pyval)) :=
  [(ValueErrorClass, [(PStr "code", PStr "invalid_param"); (PStr "status", PInt 400)]);
   (ProviderTokenNotInitErrorClass,
    [(PStr "code", PStr "provider_not_initialize"); (PStr "status", PInt 400)]);
   (QuotaExceededErrorClass,
    [(PStr "code", PStr "provider_quota_exceeded"); (PStr "message", PStr quota_message);
     (PStr "status", PInt 400)]);
   (ModelCurrentlyNotSupportErrorClass,
    [(PStr "code", PStr "model_currently_not_support"); (PStr "status", PInt 400)]);
   (InvokeErrorClass,
    [(PStr "code", PStr "completion_request_error"); (PStr "status", PInt 400)])].

(** The loop [for k, v in error_responses.items(): if isinstance(e, k): data = v] *)
Definition matching_response (e : PyException) : option (list (pyval * pyval)) :=
  fold_left (fun data kv => if exc_isinstance e (fst kv) then Some (snd kv) else data)
            error_responses None.

(** [d.setdefault(key, default)] *)
Definition dict_setdefault (key : string) (default : pyval) (kvs : list (pyval * pyval))
  : list (pyval * pyval) :=
  if dict_contains key kvs then kvs else dict_set key default kvs.

(** [AppGenerateResponseConverter._error_to_stream_response]; the call of
    [logging.error] is left out. *)
Definition _error_to_stream_response (e : PyException) : list (pyval * pyval) :=
  match matching_response e with
  | Some data =>
      if truthy (PDict data)
      then dict_setdefault "message"
             (match exc_description e with
              | Some description => description
              | None => PStr (exc_str e)
              end) data
      else [(PStr "code", PStr "internal_server_error");
            (PStr "message", PStr "Internal Server Error, please contact support.");
            (PStr "status", PInt 500)]
  | None =>
      [(PStr "code", PStr "internal_server_error");
       (PStr "message", PStr "Internal Server Error, please contact support.");
       (PStr "status", PInt 500)]
  end.

(** ** BaseAppGenerator: cleaning the inputs of a run

    [api/core/app/apps/base_app_generator.py] *)

(** [value.replace("\x00", "")] *)
Fixpoint remove_nul (s : string) : string :=
  match s with
  | EmptyString => EmptyString
  | String c rest =>
      if Ascii.eqb c Ascii.zero then remove_nul rest else String c (remove_nul rest)
  end.

(** [BaseAppGenerator._sanitize_value] *)
Definition _sanitize_value (value : pyval) : pyval :=
  match value with
  | PStr s => PStr (remove_nul s)
  | _ => value
  end.

(** [c in s] for a character [c]. *)
Fixpoint contains_char (c : Ascii.ascii) (s : string) : bool :=
  match s with
  | EmptyString => false
  | String c' rest => Ascii.eqb c c' || contains_char c rest
  end.

(** The types of [VariableEntityType] that [_validate_input] names; the
    class is defined in core/app/app_config/entities.py, outside the
    sources, and any other member is an [OtherVariableType]. *)
Inductive VariableEntityType : Type :=
| TEXT_INPUT
| SELECT
| PARAGRAPH
| NUMBER
| OtherVariableType (name : string).

(** What [_validate_input] reads of a [VariableEntity]. *)
Record VariableEntity : Type := mk_variable {
  variable : string;
  var_type : VariableEntityType;
  required : bool;
  default : pyval;
  options : pyval;
  max_length : pyval
}.

Definition is_text_type (t : VariableEntityType) : bool :=
  match t with TEXT_INPUT | PARAGRAPH => true | _ => false end.

Definition is_string_type (t : VariableEntityType) : bool :=
  match t with TEXT_INPUT | SELECT | PARAGRAPH => true | _ => false end.

Definition is_str (v : pyval) : bool :=
  match v with PStr _ => true | _ => false end.

(** [x or y] *)
Definition py_or (x y : pyval) : pyval := if truthy x then x else y.

(** A Python string is held as its UTF-8 encoding, one [ascii] for each
    byte.  A character is one byte that is no continuation byte
    ([10xxxxxx]) followed by its continuation bytes, so [len(s)], the number
    of characters, is the number of bytes that are no continuation byte. *)
Definition is_continuation_byte (c : Ascii.ascii) : bool :=
  match c with
  | Ascii.Ascii _ _ _ _ _ _ b6 b7 => b7 && negb b6
  end.

(** [len(s)] for a string [s] *)
Fixpoint py_len (s : string) : nat :=
  match s with
  | EmptyString => 0%nat
  | String c rest => ((if is_continuation_byte c then 0 else 1) + py_len rest)%nat
  end.

(** [t in s] for two strings: [t] occurs in [s]. *)
Definition is_substring (t s : string) : bool :=
  match String.index 0 t s with
  | Some _ => true
  | None => false
  end.

(** Whether [hash(v)] returns: lists, sets and dictionaries are unhashable,
    a tuple is hashable when its items are. *)
Fixpoint hashable (v : pyval) : bool :=
  match v with
  | PList _ | PSet _ | PDict _ => false
  | PTuple xs => forallb hashable xs
  | _ => true
  end.

Definition py_type_name (v : pyval) : string :=
  match v with
  | PNone => "NoneType"
  | PBool _ => "bool"
  | PInt _ => "int"
  | PStr _ => "str"
  | PEnum class _ => class
  | PDatetime _ => "datetime.datetime"
  | PList _ => "list"
  | PTuple _ => "tuple"
  | PSet _ => "set"
  | PDict _ => "dict"
  | PObj _ => "object"
  end.

(** [x in container]: by equality with an item of a list or a tuple, with a
    member of a set (a set asked for in a set is looked up as a frozenset) or
    with a key of a dictionary, as a substring of a string; a value of any
    other kind is not iterable. *)
Definition py_contains (x container : pyval) : result bool :=
  match container with
  | PList xs | PTuple xs => Ok (py_in x xs)
  | PSet xs =>
      match x with
      | PSet _ => Ok (py_in x xs)
      | _ => if hashable x then Ok (py_in x xs)
             else Raise (TypeError ("unhashable type: '" +:+ py_type_name x +:+ "'"))
      end
  | PDict kvs =>
      if hashable x then Ok (py_in x (map fst kvs))
      else Raise (TypeError ("unhashable type: '" +:+ py_type_name x +:+ "'"))
  | PStr s =>
      match x with
      | PStr t => Ok (is_substring t s)
      | _ => Raise (TypeError ("'in <string>' requires string as left operand, not "
                               +:+ py_type_name x))
      end
  | _ => Raise (TypeError ("argument of type '" +:+ py_type_name container
                           +:+ "' is not iterable"))
  end.

Section CleanInputs.

(** Python's [str()], [int()] and [float()]; the two conversions give no
    value where they raise [ValueError]. *)
Variable py_str : pyval -> string.
Variable py_int : string -> option pyval.
Variable py_float : string -> option pyval.

Definition type_name (t : VariableEntityType) : pyval :=
  PEnum "VariableEntityType"
    match t with
    | TEXT_INPUT => "TEXT_INPUT"
    | SELECT => "SELECT"
    | PARAGRAPH => "PARAGRAPH"
    | NUMBER => "NUMBER"
    | OtherVariableType name => name
    end.

(** [len(user_input_value) > var.max_length], reached with a string value
    and a truthy [max_length]. *)
Definition longer_than (v max : pyval) : result bool :=
  match v, as_number max with
  | PStr s, Some n => Ok (n <? Z.of_nat (py_len s))
  | _, _ => Raise (TypeError "unsupported operand")
  end.

(** [BaseAppGenerator._validate_input] *)
Definition _validate_input (inputs : list (pyval * pyval)) (var : VariableEntity)
  : result pyval :=
  let user_input_value := dict_get (variable var) PNone inputs in
  if required var && negb (truthy user_input_value) then
    Raise (ValueError (variable var +:+ " is required in input form"))
  else if negb (required var) && negb (truthy user_input_value) then
    Ok (py_or (default var) (PStr ""))
  else if is_string_type (var_type var) && truthy user_input_value
          && negb (is_str user_input_value) then
    Raise (ValueError ("(type '" +:+ py_str (type_name (var_type var)) +:+ "') "
                       +:+ variable var +:+ " in input form must be a string"))
  else
    match var_type var, user_input_value with
    | NUMBER, PStr s =>
        match (if contains_char (Ascii.ascii_of_nat 46) s then py_float s else py_int s) with
        | Some number => Ok number
        | None => Raise (ValueError (variable var +:+ " in input form must be a valid number"))
        end
    | SELECT, _ =>
        let options := py_or (options var) (PList []) in
        let? found := py_contains user_input_value options in
        if negb found then
          Raise (ValueError (variable var +:+ " in input form must be one of the following: "
                             +:+ py_str options))
        else Ok user_input_value
    | TEXT_INPUT, _ | PARAGRAPH, _ =>
        if truthy (max_length var) && truthy user_input_value then
          let? too_long := longer_than user_input_value (max_length var) in
          if too_long then
            Raise (ValueError (variable var +:+ " in input form must be less than "
                               +:+ py_str (max_length var) +:+ " characters"))
          else Ok user_input_value
        else Ok user_input_value
    | _, _ => Ok user_input_value
    end.

(** The dictionary comprehension
    [{var.variable: self._validate_input(inputs=user_inputs, var=var) for var in variables}] *)
Fixpoint validate_all (inputs : list (pyval * pyval)) (variables : list VariableEntity)
    (filtered : list (pyval * pyval)) : result (list (pyval * pyval)) :=
  match variables with
  | [] => Ok filtered
  | var :: rest =>
      let? value := _validate_input inputs var in
      validate_all inputs rest (dict_set (variable var) value filtered)
  end.

(** [BaseAppGenerator._get_cleaned_inputs]; [user_inputs] is a mapping or
    [None]. *)
Definition _get_cleaned_inputs (user_inputs : option (list (pyval * pyval)))
    (variables : list VariableEntity) : result (list (pyval * pyval)) :=
  let user_inputs :=
    match user_inputs with
    | Some inputs => if truthy (PDict inputs) then inputs else []
    | None => []
    end in
  let? filtered_inputs := validate_all user_inputs variables [] in
  Ok (map (fun kv => (fst kv, _sanitize_value (snd kv))) filtered_inputs).

End CleanInputs.

(** ** AppRunner: the result of a model invocation on the queue

    [api/core/app/apps/base_app_runner.py], with the result classes of
    [api/core/model_runtime/entities/llm_entities.py]. *)

(** An [AssistantPromptMessage], whose class is defined outside the sources:
    its content and its other fields in dumped form. *)
Record AssistantPromptMessage : Type := mk_assistant_message {
  content : pyval;
  message_fields : list (pyval * pyval)
}.

Record LLMResultChunkDelta : Type := mk_delta {
  delta_index : Z;
  delta_message : AssistantPromptMessage;
  delta_usage : option pyval;
  delta_finish_reason : option string
}.

Record LLMResultChunk : Type := mk_chunk {
  chunk_model : string;
  chunk_prompt_messages : list pyval;
  chunk_system_fingerprint : option string;
  chunk_delta : LLMResultChunkDelta
}.

Definition dump_message (m : AssistantPromptMessage) : pyval :=
  PDict ((PStr "content", content m) :: message_fields m).

Definition dump_chunk (c : LLMResultChunk) : pyval :=
  PDict [(PStr "model", PStr (chunk_model c));
         (PStr "prompt_messages", PList (chunk_prompt_messages c));
         (PStr "system_fingerprint", of_opt_str (chunk_system_fingerprint c));
         (PStr "delta",
          PDict [(PStr "index", PInt (delta_index (chunk_delta c)));
                 (PStr "message", dump_message (delta_message (chunk_delta c)));
                 (PStr "usage",
                  match delta_usage (chunk_delta c) with Some u => u | None => PNone end);
                 (PStr "finish_reason",
                  of_opt_str (delta_finish_reason (chunk_delta c)))])].

(** [LLMResult(model=..., prompt_messages=..., message=AssistantPromptMessage(
    content=text), usage=...)] in dumped form; of the message only the
    content it is constructed with is kept, the fields its class fills in by
    default are left out. *)
Definition dump_llm_result (model : string) (prompt_messages : list pyval) (text : string)
    (usage : pyval) : pyval :=
  PDict [(PStr "model", PStr model);
         (PStr "prompt_messages", PList prompt_messages);
         (PStr "message", PDict [(PStr "content", PStr text)]);
         (PStr "usage", usage)].

(** [QueueLLMChunkEvent(chunk=result)] or [QueueAgentMessageEvent(chunk=result)] *)
Definition chunk_event (agent : bool) (result : LLMResultChunk) : AppQueueEvent :=
  mk_event (if agent then QueueAgentMessageEvent else QueueLLMChunkEvent)
           [("chunk", dump_chunk result)].

(** [QueueMessageEndEvent(llm_result=...)] *)
Definition message_end_event (llm_result : pyval) : AppQueueEvent :=
  mk_event QueueMessageEndEvent [("llm_result", llm_result)].

(** [AppRunner._handle_invoke_result_direct] *)
Definition _handle_invoke_result_direct (queue_manager : Manager) (invoke_result : pyval)
  : M unit :=
  publish queue_manager (message_end_event invoke_result) APPLICATION_MANAGER.

(** The local variables of [_handle_invoke_result_stream]. *)
Record StreamVars : Type := mk_stream_vars {
  sv_model : option string;
  sv_prompt_messages : list pyval;
  sv_text : string;
  sv_usage : option pyval
}.

(** [not model] *)
Definition no_model (model : option string) : bool :=
  match model with
  | None => true
  | Some m => String.eqb m ""
  end.

(** The assignments of the loop body after the publish. *)
Definition stream_update (vars : StreamVars) (chunk : LLMResultChunk) : result StreamVars :=
  match content (delta_message (chunk_delta chunk)) with
  | PStr s =>
      Ok {| sv_text := sv_text vars +:+ s;
            sv_model := if no_model (sv_model vars) then Some (chunk_model chunk)
                        else sv_model vars;
            sv_prompt_messages :=
              match sv_prompt_messages vars with
              | [] => chunk_prompt_messages chunk
              | _ => sv_prompt_messages vars
              end;
            sv_usage :=
              match sv_usage vars with
              | None => delta_usage (chunk_delta chunk)
              | Some u => Some u
              end |}
  | _ => Raise (TypeError "can only concatenate str")
  end.

(** The loop [for result in invoke_result]; the generator is the list of
    the chunks it yields. *)
Fixpoint stream_loop (agent : bool) (queue_manager : Manager)
    (invoke_result : list LLMResultChunk) (vars : StreamVars) : M StreamVars :=
  match invoke_result with
  | [] => ret vars
  | result :: rest =>
      publish queue_manager (chunk_event agent result) APPLICATION_MANAGER >>
      match stream_update vars result with
      | Ok vars' => stream_loop agent queue_manager rest vars'
      | Raise e => raise e
      end
  end.

Section InvokeResult.

(** [LLMUsage.empty_usage()] in dumped form; its prices are decimals and its
    latency a float. *)
Variable empty_usage : pyval.

(** The [LLMResult] built after the loop; its [model] must be a string. *)
Definition final_llm_result (vars : StreamVars) : result pyval :=
  match sv_model vars with
  | Some model =>
      Ok (dump_llm_result model (sv_prompt_messages vars) (sv_text vars)
            (match sv_usage vars with Some u => u | None => empty_usage end))
  | None => Raise (OtherError "ValidationError")
  end.

(** [AppRunner._handle_invoke_result_stream] *)
Definition _handle_invoke_result_stream (invoke_result : list LLMResultChunk)
    (queue_manager : Manager) (agent : bool) : M unit :=
  let* vars := stream_loop agent queue_manager invoke_result (mk_stream_vars None [] "" None) in
  match final_llm_result vars with
  | Ok llm_result =>
      publish queue_manager (message_end_event llm_result) APPLICATION_MANAGER
  | Raise e => raise e
  end.

End InvokeResult.

(** What the loop leaves in its variables when every content is a string. *)
Fixpoint stream_vars_after (vars : StreamVars) (invoke_result : list LLMResultChunk)
  : StreamVars :=
  match invoke_result with
  | [] => vars
  | result :: rest =>
      match stream_update vars result with
      | Ok vars' => stream_vars_after vars' rest
      | Raise _ => vars
      end
  end.

(** The text of a chunk, empty for a content that is no string. *)
Definition chunk_text (result : LLMResultChunk) : string :=
  match content (delta_message (chunk_delta result)) with
  | PStr s => s
  | _ => ""
  end.

Definition text_content (result : LLMResultChunk) : bool :=
  is_str (content (delta_message (chunk_delta result))).

(** A chunk of the model [gpt] with a text content. *)
Definition sample_chunk (text : string) : LLMResultChunk :=
  mk_chunk "gpt" [PDict [(PStr "role", PStr "user")]] None
    (mk_delta 0 (mk_assistant_message (PStr text) []) None None).

(** * Properties *)

(** ** The resource-safety check *)

(** The check raises exactly when a live reference sits where it looks, and
    then it raises the [TypeError] of the source. *)
Lemma check_for_sqlalchemy_models_visits (data : pyval) :
  _check_for_sqlalchemy_models data =
  if visited_orm_reference data then Some (TypeError sqlalchemy_message) else None.
Proof.
  induction data using pyval_nested_ind; try reflexivity.
  - cbn. induction H as [|x rest Hx _ IH]; [reflexivity|].
    cbn. rewrite Hx. destruct (visited_orm_reference x); [reflexivity|exact IH].
  - cbn. induction H as [|[k v] rest [_ Hv] _ IH]; [reflexivity|].
    cbn in *. rewrite Hv. destruct (visited_orm_reference v); [reflexivity|exact IH].
Qed.

(** What the check visits is part of what the data contains. *)
Lemma visited_is_contained (data : pyval) :
  visited_orm_reference data = true -> contains_orm_reference data = true.
Proof.
  induction data using pyval_nested_ind; cbn; try congruence.
  - induction H as [|x rest Hx _ IH]; cbn; [congruence|].
    intros [Hv|Hv]%orb_true_iff; apply orb_true_iff; auto.
  - induction H as [|[k v] rest [_ Hv] _ IH]; cbn in *; [congruence|].
    intros [Hc|Hc]%orb_true_iff; apply orb_true_iff; [left|right; auto].
    apply orb_true_iff; auto.
Qed.

(** ** [publish] *)

Lemma is_stopped_set_q (self : Manager) (st : State) q' :
  _is_stopped self (set_q st q') = _is_stopped self st.
Proof. reflexivity. Qed.

(** [_publish] puts the message on the queue, then the sentinel for a closing
    event, and only then looks at the stop flag. *)
Lemma private_publish_spec (self : Manager) (event : AppQueueEvent) (pub_from : PublishFrom)
    (st : State) :
  _publish self event pub_from st =
  (set_q st (q st ++ enqueued_by self event),
   if PublishFrom_eqb pub_from APPLICATION_MANAGER && _is_stopped self st
   then Raise GenerateTaskStoppedError else Ok tt).
Proof.
  unfold _publish, enqueued_by, bind, stop_listen, ret.
  destruct (closes_queue (ev_class event)); cbn [fst snd];
    rewrite ?is_stopped_set_q;
    destruct (PublishFrom_eqb pub_from APPLICATION_MANAGER && _is_stopped self st);
    unfold set_q; cbn; rewrite <- ?app_assoc; reflexivity.
Qed.

(** A publish that passes the check is a [_publish]. *)
Lemma publish_passes (self : Manager) (event : AppQueueEvent) (pub_from : PublishFrom)
    (st : State) :
  _check_for_sqlalchemy_models (model_dump event) = None ->
  publish self event pub_from st =
  (set_q st (q st ++ enqueued_by self event),
   if PublishFrom_eqb pub_from APPLICATION_MANAGER && _is_stopped self st
   then Raise GenerateTaskStoppedError else Ok tt).
Proof.
  intros Hcheck. unfold publish. rewrite Hcheck. apply private_publish_spec.
Qed.

(** A publish that fails the check leaves everything as it was. *)
Lemma publish_rejects (self : Manager) (event : AppQueueEvent) (pub_from : PublishFrom)
    (st : State) e :
  _check_for_sqlalchemy_models (model_dump event) = Some e ->
  publish self event pub_from st = (st, Raise e).
Proof. intros Hcheck. unfold publish. rewrite Hcheck. reflexivity. Qed.

(** ** Publishing after a stop *)

(** C2, as the specification states it, fails: a publish from the task
    pipeline on a stopped task returns normally. *)
Lemma publish_from_pipeline_after_stop :
  _is_stopped sample_manager stopped_state = true /\
  snd (publish sample_manager ping_event TASK_PIPELINE stopped_state) = Ok tt /\
  ~ (forall (event : AppQueueEvent) (pub_from : PublishFrom),
        _is_stopped sample_manager stopped_state = true ->
        snd (publish sample_manager event pub_from stopped_state)
        = Raise GenerateTaskStoppedError).
Proof.
  split; [reflexivity|]. split; [reflexivity|].
  intros Hclaim. specialize (Hclaim ping_event TASK_PIPELINE eq_refl).
  vm_compute in Hclaim. discriminate Hclaim.
Qed.

(** C2 (amended): for every event that passes the resource-safety check, a
    publish from the application manager on a task whose stopped key is
    present raises [GenerateTaskStoppedError]; the same publish from the task
    pipeline returns normally. *)
Theorem publish_after_stop (self : Manager) (event : AppQueueEvent) (st : State) :
  _is_stopped self st = true ->
  _check_for_sqlalchemy_models (model_dump event) = None ->
  snd (publish self event APPLICATION_MANAGER st) = Raise GenerateTaskStoppedError /\
  snd (publish self event TASK_PIPELINE st) = Ok tt.
Proof.
  intros Hstop Hcheck. rewrite !publish_passes by exact Hcheck.
  cbn. rewrite Hstop. split; reflexivity.
Qed.

Lemma publish_after_stop_witness :
  snd (publish sample_manager answer_event APPLICATION_MANAGER stopped_state)
  = Raise GenerateTaskStoppedError /\
  snd (publish sample_manager answer_event TASK_PIPELINE stopped_state) = Ok tt.
Proof.
  apply (publish_after_stop sample_manager answer_event stopped_state); reflexivity.
Defined.

(** ** The stop flag *)

Lemma redis_get_setex_same (key : string) (ttl : Z) (v : string) (st : State) :
  0 < ttl -> redis_get (redis_setex key ttl v st) key = Some v.
Proof.
  intros Httl. unfold redis_get, redis_setex. cbn.
  rewrite lookup_insert_eq. cbn.
  destruct (Z.ltb_spec (clock st) (clock st + ttl)); [reflexivity|lia].
Qed.

(** C3: [set_stop_flag] never raises; it writes the stopped key, with a
    time-to-live of 600 seconds, exactly when the ownership record of the
    task is present and equals the identity string of the requester, the
    string the constructor recorded for the owner; in every other case the
    store is left as it was. *)
Theorem set_stop_flag_owner_only
    (task_id : string) (invoke_from : InvokeFrom) (user_id : string) (st : State) :
  let owner := redis_get st (_generate_task_belong_cache_key task_id) in
  let st' := fst (set_stop_flag task_id invoke_from user_id st) in
  snd (set_stop_flag task_id invoke_from user_id st) = Ok tt /\
  (owner = Some (task_belong_value invoke_from user_id) ->
   st' = redis_setex (_generate_stopped_cache_key task_id) 600 "1" st /\
   redis_log st' = redis_log st ++ [(_generate_stopped_cache_key task_id, 600, "1")] /\
   redis_kv st' !! _generate_stopped_cache_key task_id
   = Some (mk_entry (clock st + 600) "1") /\
   redis_get st' (_generate_stopped_cache_key task_id) = Some "1") /\
  (owner <> Some (task_belong_value invoke_from user_id) -> st' = st) /\
  (forall conversation_id app_mode message_id st0,
     user_id <> "" ->
     redis_get
       (fst (MessageBasedAppQueueManager_init task_id user_id invoke_from
               conversation_id app_mode message_id st0))
       (_generate_task_belong_cache_key task_id)
     = Some (task_belong_value invoke_from user_id)).
Proof.
  cbn zeta. unfold set_stop_flag.
  destruct (redis_get st (_generate_task_belong_cache_key task_id)) as [result|] eqn:Hget.
  - destruct (String.eqb_spec result (task_belong_value invoke_from user_id)) as [->|Hne];
      cbn [negb fst snd].
    + split; [reflexivity|]. split.
      * intros _. split; [reflexivity|]. split; [reflexivity|]. split.
        -- cbn. apply lookup_insert_eq.
        -- apply redis_get_setex_same. lia.
      * split; [congruence|].
        intros conversation_id app_mode message_id st0 Huser.
        unfold MessageBasedAppQueueManager_init.
        destruct (String.eqb_spec user_id ""); [contradiction|].
        cbn [fst]. apply (redis_get_setex_same _ 1800). lia.
    + split; [reflexivity|]. split; [intros [= ->]; contradiction|].
      split; [reflexivity|].
      intros conversation_id app_mode message_id st0 Huser.
      unfold MessageBasedAppQueueManager_init.
      destruct (String.eqb_spec user_id ""); [contradiction|].
      cbn [fst]. apply (redis_get_setex_same _ 1800). lia.
  - cbn [fst snd]. split; [reflexivity|]. split; [discriminate|].
    split; [reflexivity|].
    intros conversation_id app_mode message_id st0 Huser.
    unfold MessageBasedAppQueueManager_init.
    destruct (String.eqb_spec user_id ""); [contradiction|].
    cbn [fst]. apply (redis_get_setex_same _ 1800). lia.
Qed.

Lemma set_stop_flag_owner_only_witness :
  redis_get stopped_state (_generate_stopped_cache_key "t1") = Some "1" /\
  fst (set_stop_flag "t1" WEB_APP "u1" sample_state) = sample_state /\
  redis_get sample_state (_generate_task_belong_cache_key "t1") = Some "account-u1".
Proof.
  pose proof (set_stop_flag_owner_only "t1" DEBUGGER "u1" sample_state) as Howner.
  pose proof (set_stop_flag_owner_only "t1" WEB_APP "u1" sample_state) as Hother.
  cbn zeta in Howner, Hother.
  destruct Howner as (_ & Hwrite & _ & Hinit).
  destruct Hother as (_ & _ & Hnoop & _).
  split; [|split].
  - apply Hwrite. reflexivity.
  - apply Hnoop. vm_compute. discriminate.
  - apply (Hinit "c1" "advanced-chat" "m1" empty_state). discriminate.
Defined.

(** ** Reach of the resource-safety check *)

(** C4 at an event whose outputs hold a live ORM object inside a tuple: the
    data contains the reference, yet [publish] raises nothing and the event is
    put on the queue.  The same object inside a list is rejected, and nothing
    is put on the queue. *)
Theorem publish_accepts_reference_in_tuple :
  contains_orm_reference (model_dump tuple_event) = true /\
  publish sample_manager tuple_event APPLICATION_MANAGER sample_state
  = (set_q sample_state [Some (construct_queue_message sample_manager tuple_event)],
     Ok tt) /\
  publish sample_manager list_event APPLICATION_MANAGER sample_state
  = (sample_state, Raise (TypeError sqlalchemy_message)).
Proof. repeat split. Qed.

(** C10: the check looks into the values of dictionaries and the elements of
    lists and nowhere else: it returns normally exactly when no live reference
    sits there.  A reference held in a tuple, in a set or as a dictionary key
    is contained in the data and passes: for each of these three events, every
    manager in every state puts the event on the queue, and the only
    exception [publish] can raise is the one for a stopped task. *)
Theorem check_is_not_exhaustive :
  (forall data : pyval,
     _check_for_sqlalchemy_models data = None <-> visited_orm_reference data = false) /\
  Forall
    (fun event =>
       contains_orm_reference (model_dump event) = true /\
       visited_orm_reference (model_dump event) = false /\
       forall (self : Manager) (pub_from : PublishFrom) (st : State),
         publish self event pub_from st =
         (set_q st (q st ++ [Some (construct_queue_message self event)]),
          if PublishFrom_eqb pub_from APPLICATION_MANAGER && _is_stopped self st
          then Raise GenerateTaskStoppedError else Ok tt))
    [tuple_event; set_event; key_event].
Proof.
  split.
  - intros data. rewrite check_for_sqlalchemy_models_visits.
    destruct (visited_orm_reference data); split; congruence.
  - repeat constructor; intros self pub_from st;
      rewrite publish_passes by reflexivity; reflexivity.
Qed.

(** ** The stop event of a timeout *)

(** C5, as the specification states it, fails: the stop message [listen]
    publishes when only the time budget is exhausted and the one it publishes
    when only the stop flag is set are the same message, reason code
    included. *)
Lemma timeout_stop_is_not_distinguished :
  let loc := listen_start sample_state in
  (_is_stopped sample_manager late_state = false /\
   APP_MAX_EXECUTION_TIME default_config <= clock late_state - start_time loc) /\
  (_is_stopped sample_manager stopped_state = true /\
   clock stopped_state - start_time loc < APP_MAX_EXECUTION_TIME default_config) /\
  ~ (stopped_by (head (published_by_finally default_config sample_manager loc late_state))
     <> stopped_by (head (published_by_finally default_config sample_manager loc
                            stopped_state))).
Proof.
  cbn zeta. split; [split; [reflexivity|vm_compute; discriminate]|].
  split; [split; reflexivity|].
  intros Hdiff. apply Hdiff. reflexivity.
Qed.

(** The [finally] block never raises; it appends a stop message and the
    sentinel when the stop condition holds, then a ping when one is due. *)
Lemma listen_finally_appends (cfg : DifyConfig) (self : Manager) (loc : Local) (st : State) :
  listen_finally cfg self loc st =
  (set_q st (q st ++ finally_items cfg self loc st), Ok (finally_ping loc st)).
Proof.
  unfold listen_finally, finally_items, finally_ping. cbn zeta.
  destruct (stop_condition cfg self loc st);
    destruct (last_ping_time loc <? (clock st - start_time loc) / 10);
    unfold bind, ret;
    rewrite ?publish_passes by reflexivity; cbn [fst snd andb PublishFrom_eqb];
    rewrite ?publish_passes by reflexivity; cbn [fst snd andb PublishFrom_eqb];
    unfold set_q, enqueued_by; cbn;
    rewrite <- ?app_assoc, ?app_nil_r; reflexivity.
Qed.

(** C5 (amended): whenever the [finally] block of [listen] finds the stop
    condition true, be it through the elapsed time reaching
    APP_MAX_EXECUTION_TIME or through the stop flag, the first thing it
    publishes is the one stop message [QueueStopEvent(stopped_by=USER_MANUAL)],
    followed by the sentinel; a timeout and a manual stop give the same
    event with the same reason code. *)
Theorem timeout_publishes_user_manual_stop
    (cfg : DifyConfig) (self : Manager) (loc : Local) (st : State) :
  (APP_MAX_EXECUTION_TIME cfg <= clock st - start_time loc \/ _is_stopped self st = true) ->
  exists tail,
    published_by_finally cfg self loc st
    = Some (construct_queue_message self stop_event_user_manual) :: None :: tail /\
    stopped_by (head (published_by_finally cfg self loc st))
    = Some (PEnum "QueueStopEvent.StopBy" "USER_MANUAL").
Proof.
  intros Hcond.
  assert (Hstop : stop_condition cfg self loc st = true).
  { unfold stop_condition. apply orb_true_iff.
    destruct Hcond as [Htime|Hflag]; [left; apply Z.leb_le; exact Htime|right; exact Hflag]. }
  unfold published_by_finally. rewrite listen_finally_appends. cbn [fst q set_q].
  rewrite drop_app_length. unfold finally_items. rewrite Hstop. cbn [app].
  eexists. split; reflexivity.
Qed.

Lemma timeout_publishes_user_manual_stop_witness :
  exists tail,
    published_by_finally default_config sample_manager (listen_start sample_state) late_state
    = Some (construct_queue_message sample_manager stop_event_user_manual) :: None :: tail /\
    stopped_by (head (published_by_finally default_config sample_manager
                        (listen_start sample_state) late_state))
    = Some (PEnum "QueueStopEvent.StopBy" "USER_MANUAL").
Proof.
  apply (timeout_publishes_user_manual_stop default_config sample_manager
           (listen_start sample_state) late_state).
  left. vm_compute. discriminate.
Defined.

(** ** The generator, turn by turn *)

Lemma listen_step_resumed (cfg : DifyConfig) (self : Manager) (loc : Local) (st : State) :
  pc loc = AtYield ->
  listen_step cfg self loc st =
  (set_q st (q st ++ finally_items cfg self loc st),
   Ok (None, mk_local AtGet (start_time loc) (finally_ping loc st))).
Proof.
  intros Hpc. unfold listen_step. rewrite Hpc.
  unfold bind, ret. rewrite listen_finally_appends. reflexivity.
Qed.

Lemma listen_step_empty (cfg : DifyConfig) (self : Manager) (loc : Local) (st : State) :
  pc loc = AtGet -> q st = [] ->
  listen_step cfg self loc st =
  (set_q (set_clock st (clock st + 1))
     (finally_items cfg self loc (set_clock st (clock st + 1))),
   Ok (None, mk_local AtGet (start_time loc)
               (finally_ping loc (set_clock st (clock st + 1))))).
Proof.
  intros Hpc Hq. unfold listen_step. rewrite Hpc, Hq.
  unfold bind, ret. rewrite listen_finally_appends. cbn [q set_clock].
  rewrite Hq. reflexivity.
Qed.

Lemma listen_step_sentinel (cfg : DifyConfig) (self : Manager) (loc : Local) (st : State)
    rest :
  pc loc = AtGet -> q st = None :: rest ->
  listen_step cfg self loc st =
  (set_q st (rest ++ finally_items cfg self loc st),
   Ok (None, mk_local Finished (start_time loc) (finally_ping loc st))).
Proof.
  intros Hpc Hq. unfold listen_step. rewrite Hpc, Hq.
  unfold bind, ret. rewrite listen_finally_appends. reflexivity.
Qed.

Lemma listen_step_message (cfg : DifyConfig) (self : Manager) (loc : Local) (st : State)
    m rest :
  pc loc = AtGet -> q st = Some m :: rest ->
  listen_step cfg self loc st =
  (set_q st rest, Ok (Some m, mk_local AtYield (start_time loc) (last_ping_time loc))).
Proof.
  intros Hpc Hq. unfold listen_step. rewrite Hpc, Hq. reflexivity.
Qed.

Lemma listen_step_finished (cfg : DifyConfig) (self : Manager) (loc : Local) (st : State) :
  pc loc = Finished -> listen_step cfg self loc st = (st, Ok (None, loc)).
Proof. intros Hpc. unfold listen_step. rewrite Hpc. reflexivity. Qed.

(** ** Well-formed queues *)

Lemma wf_queue_messages (ms : list MessageQueueMessage) :
  wf_queue (map Some ms) = true -> Forall (fun m => closing m = false) ms.
Proof.
  induction ms as [|m ms IH]; cbn; [constructor|].
  intros [Hhead Hrest]%andb_true_iff. constructor; [|auto].
  destruct (closing m); [|reflexivity].
  destruct ms; discriminate.
Qed.

Lemma wf_queue_suffix (items rest : list (option MessageQueueMessage)) :
  wf_queue (items ++ rest) = true -> wf_queue rest = true.
Proof.
  induction items as [|[m|] items IH]; cbn; [auto|..].
  - intros [_ H]%andb_true_iff. auto.
  - auto.
Qed.

(** In a well-formed list that begins with the messages [tr], a closing
    message of [tr] is its last, and the sentinel comes next. *)
Lemma wf_queue_observed (tr : list MessageQueueMessage)
    (rest : list (option MessageQueueMessage)) :
  wf_queue (map Some tr ++ rest) = true ->
  Forall (fun m => closing m = false) tr \/
  exists tr0 m,
    tr = tr0 ++ [m] /\ Forall (fun m => closing m = false) tr0 /\
    closing m = true /\ exists rest', rest = None :: rest'.
Proof.
  induction tr as [|m tr IH]; cbn; [left; constructor|].
  intros [Hhead Htail]%andb_true_iff.
  destruct (closing m) eqn:Hm.
  - right. exists [], m.
    destruct tr as [|m' tr]; [|discriminate Hhead]. cbn in Hhead.
    destruct rest as [|[m'|] rest']; try discriminate Hhead.
    repeat split; [constructor|exact Hm|]. eexists. reflexivity.
  - destruct (IH Htail) as [Hall|(tr0 & m0 & -> & Htr0 & Hm0 & Hrest)].
    + left. constructor; assumption.
    + right. exists (m :: tr0), m0. repeat split; [constructor; assumption|exact Hm0|exact Hrest].
Qed.

Lemma set_stop_flag_queue (task_id : string) (invoke_from : InvokeFrom) (user_id : string)
    (st : State) :
  q (fst (set_stop_flag task_id invoke_from user_id st)) = q st.
Proof.
  unfold set_stop_flag.
  destruct (redis_get st _) as [result|]; [|reflexivity].
  destruct (negb _); reflexivity.
Qed.

Lemma put_message_queue (self : Manager) (event : AppQueueEvent) (st : State) :
  q (fst (put_message self event st))
  = q st ++ (if passes_check event then [Some (construct_queue_message self event)] else []).
Proof.
  unfold put_message, passes_check.
  destruct (_check_for_sqlalchemy_models (model_dump event)); cbn;
    [rewrite app_nil_r|]; reflexivity.
Qed.

(** The queue operations of a publish, with nothing in between, leave the
    state the call of [publish] leaves. *)
Lemma publish_in_steps (cfg : DifyConfig) (self : Manager) (event : AppQueueEvent)
    (pub_from : PublishFrom) (r : Run) :
  run_state (run_actions cfg self r (publish_steps event))
  = fst (publish self event pub_from (run_state r)).
Proof.
  destruct (_check_for_sqlalchemy_models (model_dump event)) as [e|] eqn:Hcheck.
  - rewrite (publish_rejects _ _ _ _ e Hcheck).
    unfold publish_steps, passes_check. rewrite Hcheck, andb_false_r.
    cbn. unfold put_message. rewrite Hcheck. reflexivity.
  - rewrite (publish_passes _ _ _ _ Hcheck).
    unfold publish_steps, passes_check, enqueued_by. rewrite Hcheck, andb_true_r.
    destruct (closes_queue (ev_class event)); cbn; unfold put_message; rewrite Hcheck;
      cbn; [rewrite <- app_assoc|]; reflexivity.
Qed.

(** ** The order of the puts is the order of the gets *)

(** The items put so far are those the consumer has taken, in that order,
    followed by those the queue still holds. *)
Lemma step_action_log (cfg : DifyConfig) (self : Manager) (sr : StepRun) (a : Action) :
  put_log sr = taken (step_run sr) ++ q (run_state (step_run sr)) ->
  put_log (step_action cfg self sr a)
  = taken (step_run (step_action cfg self sr a))
    ++ q (run_state (step_run (step_action cfg self sr a))).
Proof.
  intros Hlog. destruct sr as [[st loc tr] items log]. unfold taken in *.
  cbn [step_run pending put_log run_state run_local observed] in *.
  destruct a as [event| |task_id invoke_from user_id|seconds|];
    cbn [step_action step_run pending put_log run_action run_state run_local observed].
  - rewrite put_message_queue, Hlog, !app_assoc. reflexivity.
  - cbn. rewrite Hlog, !app_assoc. reflexivity.
  - rewrite set_stop_flag_queue. exact Hlog.
  - exact Hlog.
  - destruct items as [|item items];
      cbn [step_run pending put_log run_state run_local observed].
    + unfold begin_turn. cbn [run_state run_local observed].
      destruct (pc loc) eqn:Hpc.
      * destruct (q st) as [|[m|] rest] eqn:Hq; cbn.
        -- rewrite Hlog, Hq. reflexivity.
        -- rewrite Hlog, map_app, <- !app_assoc. reflexivity.
        -- rewrite Hlog, <- !app_assoc. reflexivity.
      * cbn. exact Hlog.
      * cbn [fst snd run_state run_local observed]. rewrite Hpc. exact Hlog.
    + cbn. rewrite Hlog, !app_assoc. reflexivity.
Qed.

Lemma step_actions_log (cfg : DifyConfig) (self : Manager) (sched : list Action) :
  forall sr,
    put_log sr = taken (step_run sr) ++ q (run_state (step_run sr)) ->
    put_log (step_actions cfg self sr sched)
    = taken (step_run (step_actions cfg self sr sched))
      ++ q (run_state (step_run (step_actions cfg self sr sched))).
Proof.
  induction sched as [|a sched IH]; intros sr Hlog; [exact Hlog|].
  cbn [step_actions fold_left]. apply IH, step_action_log, Hlog.
Qed.

(** When the puts are well formed, the run is: the queue is well formed and
    a closing message, if one was received, was the last received. *)
Lemma step_run_inv (sr : StepRun) :
  put_log sr = taken (step_run sr) ++ q (run_state (step_run sr)) ->
  wf_queue (put_log sr) = true -> run_inv (step_run sr).
Proof.
  intros Hlog Hwf. rewrite Hlog in Hwf. split.
  - eapply wf_queue_suffix. exact Hwf.
  - unfold taken in Hwf. rewrite <- app_assoc in Hwf.
    destruct (wf_queue_observed _ _ Hwf) as [Hall|(tr0 & m & Hobs & Htr0 & Hm & rest & Hrest)];
      [left; exact Hall|].
    right. exists tr0, m. repeat split; [exact Hobs|exact Htr0|exact Hm|].
    destruct (pc (run_local (step_run sr))) eqn:Hpc; cbn in Hrest.
    + right. eexists. exact Hrest.
    + right. eexists. exact Hrest.
    + left. reflexivity.
Qed.

(** The steps of a turn of the generator, with nothing in between, are the
    turn: the steps refine the turns of a run. *)
Lemma flush_pending (cfg : DifyConfig) (self : Manager)
    (items : list (option MessageQueueMessage)) :
  forall st loc tr log,
    step_actions cfg self (mk_step_run (mk_run st loc tr) items log)
      (repeat Resume (length items))
    = mk_step_run (mk_run (set_q st (q st ++ items)) loc tr) [] (log ++ items).
Proof.
  induction items as [|item items IH]; intros st loc tr log.
  - cbn. rewrite !app_nil_r. reflexivity.
  - cbn [length repeat step_actions fold_left step_action step_run pending put_log
         run_state run_local observed].
    change (fold_left (step_action cfg self) (repeat Resume (length items)) ?x)
      with (step_actions cfg self x (repeat Resume (length items))).
    rewrite IH. cbn [q set_q]. rewrite <- !app_assoc. reflexivity.
Qed.

Lemma resume_in_steps (cfg : DifyConfig) (self : Manager) (r : Run)
    (log : list (option MessageQueueMessage)) :
  let items := snd (begin_turn cfg self r) in
  step_actions cfg self (mk_step_run r [] log) (repeat Resume (S (length items)))
  = mk_step_run (run_action cfg self r Resume) [] (log ++ items).
Proof.
  cbn zeta. destruct r as [st loc tr].
  cbn [repeat step_actions fold_left step_action pending step_run put_log].
  change (fold_left (step_action cfg self) (repeat Resume ?n) ?x)
    with (step_actions cfg self x (repeat Resume n)).
  unfold begin_turn. cbn [run_action run_state run_local observed].
  destruct (pc loc) eqn:Hpc.
  - destruct (q st) as [|[m|] rest] eqn:Hq; cbn [fst snd].
    + rewrite flush_pending, (listen_step_empty _ _ _ _ Hpc Hq). cbn [q set_clock].
      rewrite Hq. reflexivity.
    + rewrite (listen_step_message _ _ _ _ _ _ Hpc Hq). cbn. rewrite app_nil_r.
      reflexivity.
    + rewrite flush_pending, (listen_step_sentinel _ _ _ _ _ Hpc Hq). reflexivity.
  - cbn [fst snd]. rewrite flush_pending, (listen_step_resumed _ _ _ _ Hpc). reflexivity.
  - cbn [fst snd]. rewrite (listen_step_finished _ _ _ _ Hpc). cbn. rewrite app_nil_r.
    reflexivity.
Qed.

(** ** Draining the queue *)

Lemma consume_S (cfg : DifyConfig) (self : Manager) (n : nat) (r : Run) :
  consume cfg self (S n) r = consume cfg self n (run_action cfg self r Resume).
Proof. reflexivity. Qed.

Lemma consume_add (cfg : DifyConfig) (self : Manager) (n k : nat) (r : Run) :
  consume cfg self (n + k) r = consume cfg self k (consume cfg self n r).
Proof.
  unfold consume, run_actions. rewrite repeat_app, fold_left_app. reflexivity.
Qed.

(** The consumer alone, step by step, goes through the turns of [consume]. *)
Lemma consume_in_steps (cfg : DifyConfig) (self : Manager) (k : nat) :
  forall r log,
    exists n log',
      step_actions cfg self (mk_step_run r [] log) (repeat Resume n)
      = mk_step_run (consume cfg self k r) [] log'.
Proof.
  induction k as [|k IH]; intros r log.
  - exists 0%nat, log. reflexivity.
  - rewrite consume_S.
    destruct (IH (run_action cfg self r Resume)
                 (log ++ snd (begin_turn cfg self r))) as (n & log' & Hrest).
    exists (S (length (snd (begin_turn cfg self r))) + n)%nat, log'.
    unfold step_actions in *. rewrite repeat_app, fold_left_app.
    change (fold_left (step_action cfg self)
              (repeat Resume (S (length (snd (begin_turn cfg self r)))))
              (mk_step_run r [] log))
      with (step_actions cfg self (mk_step_run r [] log)
              (repeat Resume (S (length (snd (begin_turn cfg self r)))))).
    rewrite (resume_in_steps cfg self r log). exact Hrest.
Qed.

(** With the consumer alone at work, the messages ahead of the rest of the
    queue are handed over one by one, two turns each. *)
Lemma consume_messages (cfg : DifyConfig) (self : Manager) (ms : list MessageQueueMessage) :
  forall st loc tr rest,
    pc loc = AtGet -> q st = map Some ms ++ rest ->
    exists st' loc',
      consume cfg self (2 * length ms) (mk_run st loc tr) = mk_run st' loc' (tr ++ ms) /\
      pc loc' = AtGet /\ exists ext, q st' = rest ++ ext.
Proof.
  induction ms as [|m ms IH]; intros st loc tr rest Hpc Hq.
  - exists st, loc. rewrite app_nil_r. repeat split; [exact Hpc|].
    exists []. rewrite app_nil_r. exact Hq.
  - replace (2 * length (m :: ms))%nat with (S (S (2 * length ms))) by (cbn; lia).
    rewrite !consume_S. cbn [run_action run_state run_local observed].
    rewrite (listen_step_message _ _ _ _ _ _ Hpc Hq).
    cbn [run_action run_state run_local observed].
    rewrite listen_step_resumed by reflexivity.
    match goal with
    | |- context [consume cfg self _ (mk_run ?s ?l ?t)] =>
        destruct (IH s l t
                    (rest ++ finally_items cfg self
                               (mk_local AtYield (start_time loc) (last_ping_time loc))
                               (set_q st (map Some ms ++ rest))))
          as (st' & loc' & Hrun & Hpc' & ext & Hext)
    end.
    + reflexivity.
    + cbn. rewrite <- app_assoc. reflexivity.
    + exists st', loc'. split; [|split; [exact Hpc'|]].
      * rewrite Hrun, <- app_assoc. reflexivity.
      * eexists. rewrite Hext, <- app_assoc. reflexivity.
Qed.

(** Once the [finally] block has seen the stop condition on a queue of
    pending messages, the consumer receives these, then the stop message, and
    the generator ends. *)
Lemma stop_observed_ends (cfg : DifyConfig) (self : Manager) (r : Run)
    (ms : list MessageQueueMessage) :
  stop_observed cfg self r = true -> q (run_state r) = map Some ms ->
  pc (run_local (consume cfg self (2 * length ms + 4) r)) = Finished /\
  observed (consume cfg self (2 * length ms + 4) r)
  = observed r ++ ms ++ [construct_queue_message self stop_event_user_manual].
Proof.
  intros Hstop Hq. destruct r as [st loc tr]. cbn [run_state run_local observed] in *.
  set (stop := construct_queue_message self stop_event_user_manual).
  assert (Hfirst : exists st1 loc1 tail,
             run_action cfg self (mk_run st loc tr) Resume = mk_run st1 loc1 tr /\
             pc loc1 = AtGet /\ q st1 = map Some (ms ++ [stop]) ++ None :: tail).
  { unfold stop_observed in Hstop. cbn [run_state run_local] in Hstop.
    cbn [run_action run_state run_local observed].
    destruct (pc loc) eqn:Hpc; [| |discriminate].
    - destruct (q st) eqn:Hq'; [|discriminate].
      destruct ms; [|discriminate].
      rewrite (listen_step_empty _ _ _ _ Hpc Hq'). unfold finally_items. rewrite Hstop.
      do 3 eexists. split; [reflexivity|]. split; reflexivity.
    - rewrite (listen_step_resumed _ _ _ _ Hpc). unfold finally_items. rewrite Hstop.
      do 3 eexists. split; [reflexivity|]. split; [reflexivity|].
      cbn [q set_q]. rewrite Hq, map_app, <- app_assoc. reflexivity. }
  destruct Hfirst as (st1 & loc1 & tail & Hrun1 & Hpc1 & Hq1).
  replace (2 * length ms + 4)%nat with (S (2 * length (ms ++ [stop]) + 1))
    by (rewrite length_app; cbn; lia).
  rewrite consume_S, Hrun1, consume_add.
  destruct (consume_messages cfg self (ms ++ [stop]) st1 loc1 tr (None :: tail) Hpc1 Hq1)
    as (st2 & loc2 & Hrun2 & Hpc2 & ext & Hq2).
  rewrite Hrun2. cbn [consume run_actions repeat fold_left run_action run_state run_local
                        observed].
  rewrite (listen_step_sentinel _ _ _ _ (tail ++ ext) Hpc2 Hq2).
  cbn. split; reflexivity.
Qed.

(** ** Counting *)

Lemma count_class_app (p : QueueEventClass -> bool) (a b : list MessageQueueMessage) :
  count_class p (a ++ b) = (count_class p a + count_class p b)%nat.
Proof. unfold count_class. rewrite List.filter_app, length_app. reflexivity. Qed.

Lemma count_class_none (p : QueueEventClass -> bool) (tr : list MessageQueueMessage) :
  Forall (fun m => p (event_class_of m) = false) tr -> count_class p tr = 0%nat.
Proof.
  unfold count_class. induction 1 as [|m tr Hm _ IH]; [reflexivity|].
  cbn. rewrite Hm. exact IH.
Qed.

Lemma not_closing_not_stop (tr : list MessageQueueMessage) :
  Forall (fun m => closing m = false) tr ->
  Forall (fun m => is_stop (event_class_of m) = false) tr.
Proof.
  intros Hall. eapply Forall_impl; [exact Hall|].
  intros m. unfold closing. destruct (event_class_of m); cbn; congruence.
Qed.

Lemma observed_ok_last (r : Run) :
  observed_ok r ->
  forall tr0 m tr1, observed r = tr0 ++ m :: tr1 -> closing m = true -> tr1 = [].
Proof.
  intros [Hall|(t0 & m0 & Hobs & Ht0 & _)] tr0 m tr1 Heq Hm.
  - rewrite Heq in Hall. apply Forall_app in Hall as [_ Hall].
    apply Forall_cons in Hall as [Hm' _]. congruence.
  - destruct tr1 as [|x tr1] using rev_ind; [reflexivity|]. clear IHtr1.
    rewrite Hobs in Heq.
    change (t0 ++ [m0] = tr0 ++ (m :: tr1) ++ [x]) in Heq.
    rewrite app_assoc in Heq. apply app_inj_tail in Heq as [-> _].
    apply Forall_app in Ht0 as [_ Ht0].
    apply Forall_cons in Ht0 as [Hm' _]. congruence.
Qed.

Lemma observed_ok_count (r : Run) :
  observed_ok r -> (count_class closes_queue (observed r) <= 1)%nat.
Proof.
  intros [Hall|(t0 & m0 & Hobs & Ht0 & Hm0 & _)].
  - rewrite count_class_none; [lia|exact Hall].
  - rewrite Hobs, count_class_app, count_class_none by exact Ht0.
    unfold count_class. cbn. destruct (closes_queue (event_class_of m0)); cbn; lia.
Qed.

(** ** The observed stream *)

(** C1, as the specification states it, fails, in three ways.  The workflow
    succeeds, the owner asks to stop, and the consumer receives the success
    event and then a stop event, two terminal events, before the generator
    ends.  A closing event is not always the only one: on a stopped task a
    producer puts the message-end event, and the [finally] block of the
    consumer publishes the stop event before the producer reaches its
    [stop_listen]; the consumer receives the message end and then the stop
    event.  And a closing event is not always the last: a producer puts an
    event between the stop event and the sentinel the [finally] block puts,
    and the consumer receives it after the stop event. *)
Lemma two_terminal_events_observed :
  (let sr := step_actions default_config sample_manager (start_steps sample_state)
               [Put answer_event; SetStopFlag "t1" DEBUGGER "u1";
                Resume; Resume; Resume; Resume; Resume; Resume; Resume; Resume; Resume] in
   wf_queue (put_log sr) = true /\
   pc (run_local (step_run sr)) = Finished /\
   map event_class_of (observed (step_run sr))
   = [QueueWorkflowSucceededEvent; QueueStopEvent] /\
   ~ single_terminal_event (observed (step_run sr))) /\
  (let sr := step_actions default_config sample_manager (start_steps sample_state)
               [SetStopFlag "t1" DEBUGGER "u1"; Put (message_end_event PNone);
                Resume; Resume; Resume; Resume; StopListen;
                Resume; Resume; Resume; Resume; Resume] in
   map (option_map event_class_of) (firstn 4 (put_log sr))
   = [Some QueueMessageEndEvent; Some QueueStopEvent; None; None] /\
   pc (run_local (step_run sr)) = Finished /\
   map event_class_of (observed (step_run sr)) = [QueueMessageEndEvent; QueueStopEvent] /\
   count_class closes_queue (observed (step_run sr)) = 2%nat) /\
  (let sr := step_actions default_config sample_manager (start_steps sample_state)
               [SetStopFlag "t1" DEBUGGER "u1"; Resume; Resume; Put answer_event; Resume;
                Resume; Resume; Resume; Resume; Resume] in
   map (option_map event_class_of) (firstn 3 (put_log sr))
   = [Some QueueStopEvent; Some QueueWorkflowSucceededEvent; None] /\
   map event_class_of (observed (step_run sr))
   = [QueueStopEvent; QueueWorkflowSucceededEvent]).
Proof.
  split; [|split]; cbn zeta.
  - split; [reflexivity|]. split; [reflexivity|]. split; [reflexivity|].
    intros [Hcount _]. vm_compute in Hcount. discriminate Hcount.
  - repeat split; reflexivity.
  - split; reflexivity.
Qed.

(** C1 (amended): in any run in which every queue-closing event
    (QueueStopEvent, QueueErrorEvent, QueueMessageEndEvent or
    QueueAdvancedChatMessageEndEvent) is put on the queue with its sentinel
    directly behind it, no put of another thread falling between the two, the
    consumer of [listen()] observes at most one queue-closing event and
    nothing after it; the workflow succeeded and failed events close nothing.
    When the consumer is between two turns, its [finally] block is about to
    find the stop flag set or the time budget spent, the queue holds pending
    messages only, and the consumer alone goes on, it receives the pending
    messages, then one QueueStopEvent, the only one of the stream, and the
    generator ends. *)
Theorem listen_single_closing_event
    (cfg : DifyConfig) (self : Manager) (st : State) (sched : list Action) :
  let sr := step_actions cfg self (start_steps st) sched in
  let r := step_run sr in
  wf_queue (put_log sr) = true ->
  (forall tr0 m tr1, observed r = tr0 ++ m :: tr1 -> closing m = true -> tr1 = []) /\
  (count_class closes_queue (observed r) <= 1)%nat /\
  (forall ms,
     pending sr = [] ->
     stop_observed cfg self r = true -> q (run_state r) = map Some ms ->
     exists n,
       let r' := step_run (step_actions cfg self sr (repeat Resume n)) in
       pc (run_local r') = Finished /\
       observed r'
       = observed r ++ ms ++ [construct_queue_message self stop_event_user_manual] /\
       count_class is_stop (observed r') = 1%nat).
Proof.
  intros sr r Hwf.
  assert (Hinv : run_inv r).
  { apply step_run_inv; [|exact Hwf]. apply step_actions_log. reflexivity. }
  destruct Hinv as [Hwf_r Hobs]. split; [apply observed_ok_last; exact Hobs|].
  split; [apply observed_ok_count; exact Hobs|].
  intros ms Hpending Hstop Hq.
  destruct (stop_observed_ends cfg self r ms Hstop Hq) as [Hpc Hobserved].
  destruct (consume_in_steps cfg self (2 * length ms + 4) r (put_log sr))
    as (n & log' & Hsteps).
  exists n. cbn zeta.
  replace sr with (mk_step_run r [] (put_log sr))
    by (subst r; destruct sr as [r0 items log]; cbn in *; rewrite Hpending; reflexivity).
  rewrite Hsteps. cbn [step_run].
  split; [exact Hpc|]. split; [exact Hobserved|].
  rewrite Hobserved, !count_class_app.
  assert (Hms : Forall (fun m => closing m = false) ms).
  { apply wf_queue_messages. rewrite <- Hq. exact Hwf_r. }
  assert (Hbefore : Forall (fun m => closing m = false) (observed r)).
  { destruct Hobs as [Hall|(t0 & m0 & _ & _ & _ & [Hfin|[rest Hrest]])]; [exact Hall| |].
    - unfold stop_observed in Hstop. rewrite Hfin in Hstop. discriminate.
    - rewrite Hrest in Hq. destruct ms; discriminate. }
  rewrite !count_class_none by (apply not_closing_not_stop; assumption).
  reflexivity.
Qed.

Lemma listen_single_closing_event_witness :
  let sr := step_actions default_config sample_manager (start_steps sample_state)
              [Put answer_event; Put (message_end_event PNone); StopListen;
               SetStopFlag "t1" DEBUGGER "u1";
               Resume; Resume; Resume; Resume; Resume; Resume; Resume; Resume; Resume] in
  (count_class closes_queue (observed (step_run sr)) <= 1)%nat /\
  map event_class_of (observed (step_run sr))
  = [QueueWorkflowSucceededEvent; QueueMessageEndEvent] /\
  let sr1 := step_actions default_config sample_manager (start_steps sample_state)
               [Put answer_event; Resume; SetStopFlag "t1" DEBUGGER "u1"] in
  exists n,
    let r' := step_run (step_actions default_config sample_manager sr1 (repeat Resume n)) in
    pc (run_local r') = Finished /\
    map event_class_of (observed r') = [QueueWorkflowSucceededEvent; QueueStopEvent].
Proof.
  cbn zeta. split; [|split; [reflexivity|]].
  - exact (proj1 (proj2 (listen_single_closing_event default_config sample_manager
                           sample_state
                           [Put answer_event; Put (message_end_event PNone); StopListen;
                            SetStopFlag "t1" DEBUGGER "u1";
                            Resume; Resume; Resume; Resume; Resume; Resume; Resume; Resume;
                            Resume]
                           eq_refl))).
  - pose proof (listen_single_closing_event default_config sample_manager sample_state
                  [Put answer_event; Resume; SetStopFlag "t1" DEBUGGER "u1"]
                  eq_refl) as Hrun.
    cbn zeta in Hrun. destruct Hrun as (_ & _ & Hlive).
    destruct (Hlive [] eq_refl eq_refl eq_refl) as (n & Hpc & Hobs & _).
    exists n. cbn zeta. split; [exact Hpc|]. rewrite Hobs. reflexivity.
Defined.

(** ** A publish that fails on a stopped task *)

(** C9: when [_publish] raises [GenerateTaskStoppedError], the publish came
    from the application manager on a stopped task, and the queue already
    holds the message, followed by the sentinel if the event is a closing one;
    nothing is taken back.  The consumer still receives the message: on a
    queue that held pending messages only, [listen()] hands them over and then
    the message of the failed publish. *)
Theorem failed_publish_is_enqueued
    (self : Manager) (event : AppQueueEvent) (pub_from : PublishFrom) (st : State) :
  snd (_publish self event pub_from st) = Raise GenerateTaskStoppedError ->
  let st' := fst (_publish self event pub_from st) in
  pub_from = APPLICATION_MANAGER /\
  _is_stopped self st = true /\
  q st' = q st ++ Some (construct_queue_message self event)
               :: (if closes_queue (ev_class event) then [None] else []) /\
  forall (cfg : DifyConfig) (ms : list MessageQueueMessage),
    q st = map Some ms ->
    observed (consume cfg self (2 * length ms + 2) (start_run st'))
    = ms ++ [construct_queue_message self event].
Proof.
  rewrite private_publish_spec. cbn [fst snd]. intros Hraise.
  destruct pub_from; cbn [PublishFrom_eqb andb] in Hraise; [|discriminate].
  destruct (_is_stopped self st) eqn:Hstop; [|discriminate].
  split; [reflexivity|]. split; [reflexivity|]. split; [reflexivity|].
  intros cfg ms Hq.
  set (message := construct_queue_message self event).
  destruct (consume_messages cfg self (ms ++ [message])
              (set_q st (q st ++ enqueued_by self event))
              (listen_start (set_q st (q st ++ enqueued_by self event))) []
              (if closes_queue (ev_class event) then [None] else []))
    as (st2 & loc2 & Hrun & _).
  - reflexivity.
  - cbn [q set_q]. rewrite Hq, map_app, <- app_assoc. reflexivity.
  - replace (2 * length ms + 2)%nat with (2 * length (ms ++ [message]))%nat
      by (rewrite length_app; cbn; lia).
    unfold start_run. rewrite Hrun. reflexivity.
Qed.

Lemma failed_publish_is_enqueued_witness :
  q (fst (_publish sample_manager stop_event_user_manual APPLICATION_MANAGER stopped_state))
  = [Some (construct_queue_message sample_manager stop_event_user_manual); None] /\
  observed (consume default_config sample_manager 2
              (start_run (fst (_publish sample_manager stop_event_user_manual
                                 APPLICATION_MANAGER stopped_state))))
  = [construct_queue_message sample_manager stop_event_user_manual].
Proof.
  pose proof (failed_publish_is_enqueued sample_manager stop_event_user_manual
                APPLICATION_MANAGER stopped_state eq_refl) as Hfailed.
  cbn zeta in Hfailed. destruct Hfailed as (_ & _ & Hq & Hseen).
  split; [exact Hq|]. exact (Hseen default_config [] eq_refl).
Defined.

(** ** Graph construction *)

Section GraphConstructionProperties.

Variable Graph : Type.
Variable Graph_init : list (pyval * pyval) -> option string -> result (option Graph).

(** C6: [_init_graph] raises a [ValueError] when ["nodes"] or ["edges"] is
    missing from the configuration or is not a list, and when [Graph.init]
    returns no graph; an exception of [Graph.init] passes through; and for a
    configuration with both lists for which [Graph.init] returns a graph it
    returns that graph.  It is a function of the configuration alone: it
    touches neither the configuration nor the store or the queue. *)
Theorem init_graph_spec (graph_config : list (pyval * pyval)) :
  let well_formed :=
    dict_contains "nodes" graph_config && dict_contains "edges" graph_config
    && is_list (dict_get "nodes" PNone graph_config)
    && is_list (dict_get "edges" PNone graph_config) in
  (well_formed = false ->
   exists msg, _init_graph Graph Graph_init graph_config = Raise (ValueError msg)) /\
  (well_formed = true ->
   match Graph_init graph_config None with
   | Ok (Some g) => _init_graph Graph Graph_init graph_config = Ok g
   | Ok None =>
       _init_graph Graph Graph_init graph_config
       = Raise (ValueError "graph not found in workflow")
   | Raise e => _init_graph Graph Graph_init graph_config = Raise e
   end) /\
  (forall g, _init_graph Graph Graph_init graph_config = Ok g ->
             well_formed = true /\ Graph_init graph_config None = Ok (Some g)).
Proof.
  cbn zeta. unfold _init_graph, check_nodes_and_edges.
  destruct (dict_contains "nodes" graph_config);
    destruct (dict_contains "edges" graph_config);
    destruct (is_list (dict_get "nodes" PNone graph_config));
    destruct (is_list (dict_get "edges" PNone graph_config));
    cbn [negb orb andb rbind];
    (split; [intros H; try discriminate H; eexists; reflexivity|]);
    (split; [intros H; try discriminate H|]);
    try (intros g Hg; discriminate Hg).
  - destruct (Graph_init graph_config None) as [[g|]|e]; reflexivity.
  - intros g Hg. split; [reflexivity|].
    destruct (Graph_init graph_config None) as [[g'|]|e]; cbn in Hg; congruence.
Qed.

End GraphConstructionProperties.

Lemma init_graph_spec_witness :
  (exists msg,
     _init_graph (list pyval) sample_graph_init [(PStr "nodes", PList [])]
     = Raise (ValueError msg)) /\
  _init_graph (list pyval) sample_graph_init [(PStr "nodes", PList []); (PStr "edges", PList [])]
  = Raise (ValueError "graph not found in workflow") /\
  _init_graph (list pyval) sample_graph_init sample_graph_config
  = Ok (list_items (dict_get "nodes" PNone sample_graph_config)).
Proof.
  split; [|split].
  - apply (init_graph_spec (list pyval) sample_graph_init [(PStr "nodes", PList [])]).
    reflexivity.
  - apply (init_graph_spec (list pyval) sample_graph_init
             [(PStr "nodes", PList []); (PStr "edges", PList [])]).
    reflexivity.
  - pose proof (init_graph_spec (list pyval) sample_graph_init sample_graph_config)
      as (_ & Hbuilt & _).
    exact (Hbuilt eq_refl).
Defined.

(** ** The queue events of node-scoped engine events *)

(** C8, as the specification states it, fails: the queue event built for a
    stream chunk has no [node_id] field (nor any of the other identity
    fields). *)
Lemma chunk_event_lacks_node_id :
  base_node_event sample_chunk_event = Some sample_base_node_event /\
  kwarg "node_id" (ev_fields (to_queue_event sample_workflow_entry sample_chunk_event)) = None /\
  ~ carries (to_queue_event sample_workflow_entry sample_chunk_event)
      (required_node_fields sample_base_node_event).
Proof.
  split; [reflexivity|]. split; [reflexivity|].
  unfold carries. intros Hall.
  apply Forall_cons in Hall as [Hfirst _]. vm_compute in Hfirst. discriminate Hfirst.
Qed.

(** C8 (amended): the queue events built for node started, node succeeded
    and node failed engine events carry [node_execution_id], [node_id],
    [node_type], [start_at], [parallel_id], [parallel_start_node_id],
    [parent_parallel_id], [parent_parallel_start_node_id] and
    [in_iteration_id], each copied from the engine event; the queue events
    built for stream-chunk and retriever-resources events carry
    [in_iteration_id] only, none of the other eight. *)
Theorem node_events_carry_fields
    (workflow_entry : WorkflowEntry) (event : GraphEngineEvent) (b : BaseNodeEvent) :
  base_node_event event = Some b ->
  match event with
  | NodeRunStreamChunkEvent _ _ _ | NodeRunRetrieverResourceEvent _ _ _ =>
      carries (to_queue_event workflow_entry event)
              [("in_iteration_id", of_opt_str (in_iteration_id b))] /\
      Forall (fun name => kwarg name (ev_fields (to_queue_event workflow_entry event)) = None)
             node_identity_fields
  | _ => carries (to_queue_event workflow_entry event) (required_node_fields b)
  end.
Proof.
  destruct event; cbn [base_node_event]; intros [= <-];
    unfold carries, required_node_fields, node_identity_fields;
    try split; repeat constructor.
Qed.

Lemma node_events_carry_fields_witness :
  carries (to_queue_event sample_workflow_entry (NodeRunSucceededEvent sample_base_node_event))
          (required_node_fields sample_base_node_event) /\
  Forall (fun name =>
            kwarg name (ev_fields (to_queue_event sample_workflow_entry sample_chunk_event))
            = None)
         node_identity_fields.
Proof.
  split.
  - exact (node_events_carry_fields sample_workflow_entry
             (NodeRunSucceededEvent sample_base_node_event) sample_base_node_event eq_refl).
  - exact (proj2 (node_events_carry_fields sample_workflow_entry sample_chunk_event
                    sample_base_node_event eq_refl)).
Defined.

(** ** The single-iteration subgraph *)

Lemma py_eq_str_l (s : string) (v : pyval) : py_eq (PStr s) v = true <-> v = PStr s.
Proof.
  destruct v; cbn; split; try discriminate.
  - intros H%String.eqb_eq. congruence.
  - intros [= ->]. apply String.eqb_refl.
Qed.

Lemma py_eq_str_r (s : string) (v : pyval) : py_eq v (PStr s) = true <-> v = PStr s.
Proof.
  destruct v; cbn; split; try discriminate.
  - intros H%String.eqb_eq. congruence.
  - intros [= ->]. apply String.eqb_refl.
Qed.

Lemma dict_lookup_set_same (key : string) (v : pyval) (kvs : list (pyval * pyval)) :
  dict_lookup key (dict_set key v kvs) = Some v.
Proof.
  induction kvs as [|[k v0] rest IH]; cbn [dict_set].
  - cbn. rewrite String.eqb_refl. reflexivity.
  - destruct (py_eq (PStr key) k) eqn:Hk; cbn [dict_lookup]; rewrite Hk; auto.
Qed.

Lemma dict_lookup_set_other (key key' : string) (v : pyval) (kvs : list (pyval * pyval)) :
  key <> key' -> dict_lookup key' (dict_set key v kvs) = dict_lookup key' kvs.
Proof.
  intros Hne. induction kvs as [|[k v0] rest IH]; cbn [dict_set].
  - cbn. destruct (String.eqb_spec key' key); [congruence|reflexivity].
  - destruct (py_eq (PStr key) k) eqn:Hk; cbn [dict_lookup].
    + apply py_eq_str_l in Hk as ->. cbn.
      destruct (String.eqb_spec key' key); [congruence|reflexivity].
    + rewrite IH. reflexivity.
Qed.

(** A comprehension whose test raises on no element is a filter. *)
Lemma comprehension_if_filter {A} (keep : A -> result bool) (xs ys : list A) :
  comprehension_if keep xs = Ok ys -> ys = List.filter (fun x => holds (keep x)) xs.
Proof.
  revert ys. induction xs as [|x rest IH]; cbn; intros ys Hys; [congruence|].
  destruct (keep x) as [b|e]; cbn in Hys; [|discriminate].
  destruct (comprehension_if keep rest) as [rest'|e]; cbn in Hys; [|discriminate].
  injection Hys as <-. rewrite (IH rest' eq_refl). destruct b; reflexivity.
Qed.

Lemma comprehension_if_total {A} (keep : A -> result bool) (xs : list A) :
  Forall (fun x => is_ok (keep x) = true) xs ->
  comprehension_if keep xs = Ok (List.filter (fun x => holds (keep x)) xs).
Proof.
  induction 1 as [|x rest Hx _ IH]; cbn; [reflexivity|].
  destruct (keep x) as [b|e]; [|discriminate]. cbn. rewrite IH. cbn.
  destruct b; reflexivity.
Qed.

Lemma comprehension_map_total {A B} (f : A -> result B) (xs : list A) :
  Forall (fun x => is_ok (f x) = true) xs -> is_ok (comprehension_map f xs) = true.
Proof.
  induction 1 as [|x rest Hx _ IH]; cbn; [reflexivity|].
  destruct (f x); [|discriminate]. cbn.
  destruct (comprehension_map f rest); [reflexivity|discriminate].
Qed.

Lemma node_in_iteration_total (node_id : string) (node : pyval) :
  node_passes node_id node = true -> is_ok (node_in_iteration node_id node) = true.
Proof.
  destruct node; try discriminate. cbn. intros Hdata.
  destruct (py_eq (dict_get "id" PNone kvs) (PStr node_id)); [reflexivity|].
  destruct (dict_get "data" (PDict []) kvs); try discriminate. reflexivity.
Qed.

Lemma edge_in_iteration_total (node_ids : list pyval) (edge : pyval) :
  edge_ok edge = true -> is_ok (edge_in_iteration node_ids edge) = true.
Proof.
  destruct edge; try discriminate. cbn. intros _.
  destruct (is_none (dict_get "source" PNone kvs) || py_in (dict_get "source" PNone kvs) node_ids);
    reflexivity.
Qed.

(** The node test holds of the objects whose id is [node_id] or whose data
    names [node_id] as their iteration. *)
Lemma node_in_iteration_holds (node_id : string) (node : pyval) :
  holds (node_in_iteration node_id node) = true <->
  exists kvs, node = PDict kvs /\
    (dict_get "id" PNone kvs = PStr node_id \/
     exists data, dict_get "data" (PDict []) kvs = PDict data /\
                  dict_get "iteration_id" (PStr "") data = PStr node_id).
Proof.
  split.
  - destruct node; try discriminate. cbn. intros Hholds. exists kvs. split; [reflexivity|].
    destruct (py_eq (dict_get "id" PNone kvs) (PStr node_id)) eqn:Hid.
    + left. apply py_eq_str_r. exact Hid.
    + right. destruct (dict_get "data" (PDict []) kvs); try discriminate.
      eexists. split; [reflexivity|]. cbn in Hholds.
      apply py_eq_str_r.
      destruct (py_eq (dict_get "iteration_id" (PStr "") kvs0) (PStr node_id));
        [reflexivity|discriminate].
  - intros (kvs & -> & [Hid|(data & Hdata & Hit)]); cbn.
    + apply py_eq_str_r in Hid. rewrite Hid. reflexivity.
    + destruct (py_eq (dict_get "id" PNone kvs) (PStr node_id)); [reflexivity|].
      rewrite Hdata. cbn. apply py_eq_str_r in Hit. rewrite Hit. reflexivity.
Qed.

(** The edge test holds of the objects each of whose endpoints is [None]
    (or absent) or among the node ids. *)
Lemma edge_in_iteration_holds (node_ids : list pyval) (edge : pyval) :
  holds (edge_in_iteration node_ids edge) = true <->
  exists kvs, edge = PDict kvs /\
    (dict_get "source" PNone kvs = PNone \/ py_in (dict_get "source" PNone kvs) node_ids = true) /\
    (dict_get "target" PNone kvs = PNone \/ py_in (dict_get "target" PNone kvs) node_ids = true).
Proof.
  assert (Hnone : forall v, is_none v = true <-> v = PNone).
  { intros v. destruct v; cbn; split; congruence. }
  split.
  - destruct edge; try discriminate. cbn. intros Hholds. exists kvs. split; [reflexivity|].
    destruct (is_none (dict_get "source" PNone kvs)
              || py_in (dict_get "source" PNone kvs) node_ids) eqn:Hsource;
      [|discriminate].
    cbn in Hholds.
    destruct (is_none (dict_get "target" PNone kvs)
              || py_in (dict_get "target" PNone kvs) node_ids) eqn:Htarget;
      [|discriminate].
    apply orb_true_iff in Hsource, Htarget. rewrite !Hnone in *. tauto.
  - intros (kvs & -> & Hsource & Htarget). cbn.
    rewrite <- !Hnone, <- !orb_true_iff in *. rewrite Hsource. cbn. rewrite Htarget.
    reflexivity.
Qed.

Lemma check_nodes_and_edges_ok (graph_config : list (pyval * pyval)) :
  check_nodes_and_edges graph_config = Ok tt <->
  exists nodes edges,
    dict_lookup "nodes" graph_config = Some (PList nodes) /\
    dict_lookup "edges" graph_config = Some (PList edges).
Proof.
  unfold check_nodes_and_edges, dict_contains, dict_get. split.
  - destruct (dict_lookup "nodes" graph_config) as [nodes|]; [|discriminate].
    destruct (dict_lookup "edges" graph_config) as [edges|]; [|discriminate].
    cbn. destruct nodes; try discriminate. destruct edges; try discriminate.
    intros _. eauto.
  - intros (nodes & edges & -> & ->). reflexivity.
Qed.

Lemma Forall_list_filter {A} (P : A -> Prop) (f : A -> bool) (xs : list A) :
  Forall P xs -> Forall P (List.filter f xs).
Proof.
  induction 1 as [|x rest Hx _ IH]; cbn; [constructor|].
  destruct (f x); [constructor; assumption|assumption].
Qed.

(** C7, as the specification states it, fails: for the iteration [it1] of the
    sample graph the subgraph keeps the edge whose source is [None], although
    that source is not the id of a retained node. *)
Lemma open_edge_retained :
  single_iteration_graph_config sample_graph_config "it1"
  = Ok [(PStr "nodes",
         PList [node_config "it1" "iteration" None;
                node_config "inner1" "code" (Some "it1");
                node_config "inner2" "code" (Some "it1")]);
        (PStr "edges", PList [open_edge; edge_config "inner1" "inner2"])] /\
  endpoints_survive [PStr "it1"; PStr "inner1"; PStr "inner2"] open_edge = false /\
  ~ (forall edge,
       In edge [open_edge; edge_config "inner1" "inner2"] ->
       endpoints_survive [PStr "it1"; PStr "inner1"; PStr "inner2"] edge = true).
Proof.
  split; [reflexivity|]. split; [reflexivity|].
  intros Hclaim. specialize (Hclaim open_edge (or_introl eq_refl)).
  vm_compute in Hclaim. discriminate Hclaim.
Qed.

(** C7 (amended): when the single-iteration configuration is built, its
    nodes are exactly the nodes of the workflow graph, in their order, whose
    id equals [node_id] or whose data names [node_id] as [iteration_id]; its
    edges are exactly the edges, in their order, each of whose endpoints is
    [None] (or absent) or among the ids of the retained nodes; every other key
    is as it was.  It is built for every graph whose nodes and edges are
    lists of objects in which every node with another id than [node_id] has
    an object as its data, or no data. *)
Theorem single_iteration_subgraph (graph_config : list (pyval * pyval)) (node_id : string) :
  (forall graph_config',
     single_iteration_graph_config graph_config node_id = Ok graph_config' ->
     exists nodes edges node_ids,
       dict_lookup "nodes" graph_config = Some (PList nodes) /\
       dict_lookup "edges" graph_config = Some (PList edges) /\
       comprehension_map (fun node => py_get node "id" PNone)
         (List.filter (fun node => holds (node_in_iteration node_id node)) nodes)
       = Ok node_ids /\
       dict_lookup "nodes" graph_config'
       = Some (PList (List.filter (fun node => holds (node_in_iteration node_id node)) nodes)) /\
       dict_lookup "edges" graph_config'
       = Some (PList (List.filter (fun edge => holds (edge_in_iteration node_ids edge)) edges)) /\
       forall key, key <> "nodes" -> key <> "edges" ->
                   dict_lookup key graph_config' = dict_lookup key graph_config) /\
  (forall nodes edges,
     dict_lookup "nodes" graph_config = Some (PList nodes) ->
     dict_lookup "edges" graph_config = Some (PList edges) ->
     Forall (fun node => node_passes node_id node = true) nodes ->
     Forall (fun edge => edge_ok edge = true) edges ->
     is_ok (single_iteration_graph_config graph_config node_id) = true) /\
  (forall node,
     holds (node_in_iteration node_id node) = true <->
     exists kvs, node = PDict kvs /\
       (dict_get "id" PNone kvs = PStr node_id \/
        exists data, dict_get "data" (PDict []) kvs = PDict data /\
                     dict_get "iteration_id" (PStr "") data = PStr node_id)) /\
  (forall node_ids edge,
     holds (edge_in_iteration node_ids edge) = true <->
     exists kvs, edge = PDict kvs /\
       (dict_get "source" PNone kvs = PNone \/
        py_in (dict_get "source" PNone kvs) node_ids = true) /\
       (dict_get "target" PNone kvs = PNone \/
        py_in (dict_get "target" PNone kvs) node_ids = true)).
Proof.
  split; [|split; [|split; [apply node_in_iteration_holds|apply edge_in_iteration_holds]]].
  - intros graph_config' Hrun. unfold single_iteration_graph_config in Hrun.
    destruct (truthy (PDict graph_config)); [|discriminate]. cbn [negb] in Hrun.
    destruct (check_nodes_and_edges graph_config) as [[]|e] eqn:Hcheck; [|discriminate].
    apply check_nodes_and_edges_ok in Hcheck as (nodes & edges & Hnodes & Hedges).
    cbn [rbind] in Hrun. unfold dict_get at 1 in Hrun. rewrite Hnodes in Hrun.
    cbn [list_items] in Hrun.
    destruct (comprehension_if (node_in_iteration node_id) nodes) as [node_configs|e]
      eqn:Hnode_configs; [|discriminate].
    apply comprehension_if_filter in Hnode_configs as ->. cbn [rbind] in Hrun.
    destruct (comprehension_map _ _) as [node_ids|e] eqn:Hids; [|discriminate].
    cbn [rbind] in Hrun. unfold dict_get at 1 in Hrun.
    rewrite dict_lookup_set_other, Hedges in Hrun by discriminate.
    cbn [list_items] in Hrun.
    destruct (comprehension_if (edge_in_iteration node_ids) edges) as [edge_configs|e]
      eqn:Hedge_configs; [|discriminate].
    apply comprehension_if_filter in Hedge_configs as ->. cbn [rbind] in Hrun.
    injection Hrun as <-. exists nodes, edges, node_ids.
    split; [exact Hnodes|]. split; [exact Hedges|]. split; [exact Hids|].
    split; [|split].
    + rewrite dict_lookup_set_other by discriminate. apply dict_lookup_set_same.
    + apply dict_lookup_set_same.
    + intros key Hn He. rewrite !dict_lookup_set_other by congruence. reflexivity.
  - intros nodes edges Hnodes Hedges Hnodes_pass Hedge_ok.
    unfold single_iteration_graph_config.
    assert (Htruthy : truthy (PDict graph_config) = true).
    { destruct graph_config; [discriminate|reflexivity]. }
    rewrite Htruthy. cbn [negb].
    assert (Hcheck : check_nodes_and_edges graph_config = Ok tt).
    { apply check_nodes_and_edges_ok. eauto. }
    rewrite Hcheck. cbn [rbind]. unfold dict_get at 1. rewrite Hnodes. cbn [list_items].
    rewrite comprehension_if_total.
    2:{ eapply Forall_impl; [exact Hnodes_pass|]. intros node. apply node_in_iteration_total. }
    cbn [rbind].
    destruct (comprehension_map _ _) as [node_ids|e] eqn:Hids.
    2:{ assert (Hok : is_ok (comprehension_map (fun node => py_get node "id" PNone)
                        (List.filter (fun node => holds (node_in_iteration node_id node)) nodes))
                      = true).
        { apply comprehension_map_total, Forall_list_filter.
          eapply Forall_impl; [exact Hnodes_pass|]. intros node. destruct node; cbn; congruence. }
        rewrite Hids in Hok. discriminate Hok. }
    cbn [rbind]. unfold dict_get at 1.
    rewrite dict_lookup_set_other, Hedges by discriminate. cbn [list_items].
    rewrite comprehension_if_total.
    2:{ eapply Forall_impl; [exact Hedge_ok|]. intros edge. apply edge_in_iteration_total. }
    reflexivity.
Qed.

Lemma single_iteration_subgraph_witness :
  is_ok (single_iteration_graph_config sample_graph_config "it1") = true /\
  exists nodes edges node_ids,
    dict_lookup "nodes" sample_graph_config = Some (PList nodes) /\
    dict_lookup "edges" sample_graph_config = Some (PList edges) /\
    node_ids = [PStr "it1"; PStr "inner1"; PStr "inner2"].
Proof.
  pose proof (single_iteration_subgraph sample_graph_config "it1")
    as (Hshape & Hbuilt & _).
  split.
  - eapply Hbuilt; [reflexivity|reflexivity| |]; repeat constructor.
  - destruct (Hshape _ eq_refl) as (nodes & edges & node_ids & Hn & He & Hids & _).
    exists nodes, edges, node_ids. split; [exact Hn|]. split; [exact He|].
    injection Hn as <-. vm_compute in Hids. congruence.
Defined.

(** * Further properties of the queue manager *)

(** ** Keys and identities *)

Lemma stopped_key_inj (a b : string) :
  _generate_stopped_cache_key a = _generate_stopped_cache_key b -> a = b.
Proof. unfold _generate_stopped_cache_key. cbv [String.append]. congruence. Qed.

Lemma belong_key_inj (a b : string) :
  _generate_task_belong_cache_key a = _generate_task_belong_cache_key b -> a = b.
Proof. unfold _generate_task_belong_cache_key. cbv [String.append]. congruence. Qed.

Lemma belong_key_not_stopped_key (a b : string) :
  _generate_task_belong_cache_key a <> _generate_stopped_cache_key b.
Proof.
  unfold _generate_task_belong_cache_key, _generate_stopped_cache_key.
  cbv [String.append]. congruence.
Qed.

Lemma task_belong_value_inj (i i' : InvokeFrom) (u u' : string) :
  task_belong_value i u = task_belong_value i' u' <->
  user_prefix i = user_prefix i' /\ u = u'.
Proof.
  unfold task_belong_value. split.
  - destruct i, i'; cbv [user_prefix String.append]; intros H; try discriminate H;
      split; congruence.
  - intros [-> ->]. reflexivity.
Qed.

Lemma not_stopped_of_lookup (self : Manager) (st : State) :
  redis_kv st !! _generate_stopped_cache_key (_task_id self) = None ->
  _is_stopped self st = false.
Proof. intros H. unfold _is_stopped, redis_get. rewrite H. reflexivity. Qed.

(** ** The stop flag over time and across tasks *)

(** X2: once the owner's stop request is accepted, the task counts as
    stopped for the next 600 seconds and no longer: read at time [t], the flag
    is seen exactly when [t] is before the acceptance time plus 600. *)
Theorem stop_flag_lapses
    (self : Manager) (invoke_from : InvokeFrom) (user_id : string) (st : State) (t : Z) :
  redis_get st (_generate_task_belong_cache_key (_task_id self))
  = Some (task_belong_value invoke_from user_id) ->
  _is_stopped self (set_clock (fst (set_stop_flag (_task_id self) invoke_from user_id st)) t)
  = (t <? clock st + 600).
Proof.
  intros Howner. unfold set_stop_flag. rewrite Howner, String.eqb_refl. cbn [negb fst].
  unfold _is_stopped, redis_get, redis_setex, set_clock. cbn.
  rewrite lookup_insert_eq. cbn. destruct (t <? clock st + 600); reflexivity.
Qed.

Lemma stop_flag_lapses_witness :
  _is_stopped sample_manager (set_clock stopped_state 599) = true /\
  _is_stopped sample_manager (set_clock stopped_state 600) = false.
Proof.
  split.
  - exact (stop_flag_lapses sample_manager DEBUGGER "u1" sample_state 599 eq_refl).
  - exact (stop_flag_lapses sample_manager DEBUGGER "u1" sample_state 600 eq_refl).
Defined.

(** X3: the ownership record written by the constructor lives for 1800
    seconds.  Before that the owner's stop request sets the flag; from then on
    every stop request, the owner's included, leaves the store as it is. *)
Theorem stop_request_needs_live_ownership
    (task_id user_id : string) (invoke_from : InvokeFrom)
    (conversation_id app_mode message_id : string) (st0 : State) (t : Z) :
  user_id <> "" ->
  let st1 := fst (MessageBasedAppQueueManager_init task_id user_id invoke_from
                    conversation_id app_mode message_id st0) in
  (t < clock st0 + 1800 ->
   redis_get (fst (set_stop_flag task_id invoke_from user_id (set_clock st1 t)))
     (_generate_stopped_cache_key task_id) = Some "1") /\
  (clock st0 + 1800 <= t ->
   forall invoke_from' user_id',
     set_stop_flag task_id invoke_from' user_id' (set_clock st1 t)
     = (set_clock st1 t, Ok tt)).
Proof.
  intros Huser st1. subst st1. unfold MessageBasedAppQueueManager_init.
  destruct (String.eqb_spec user_id ""); [contradiction|]. cbn [fst].
  assert (Hget : redis_get
            (set_clock (set_q (redis_setex (_generate_task_belong_cache_key task_id) 1800
                                 (task_belong_value invoke_from user_id) st0) []) t)
            (_generate_task_belong_cache_key task_id)
          = if t <? clock st0 + 1800 then Some (task_belong_value invoke_from user_id)
            else None).
  { unfold redis_get, redis_setex, set_clock, set_q. cbn. rewrite lookup_insert_eq. reflexivity. }
  split.
  - intros Ht. unfold set_stop_flag. rewrite Hget.
    destruct (Z.ltb_spec t (clock st0 + 1800)); [|lia].
    rewrite String.eqb_refl. cbn [negb fst].
    apply redis_get_setex_same. lia.
  - intros Ht invoke_from' user_id'. unfold set_stop_flag. rewrite Hget.
    destruct (Z.ltb_spec t (clock st0 + 1800)); [lia|reflexivity].
Qed.

Lemma stop_request_needs_live_ownership_witness :
  redis_get (fst (set_stop_flag "t1" DEBUGGER "u1" (set_clock sample_state 1799)))
    (_generate_stopped_cache_key "t1") = Some "1" /\
  set_stop_flag "t1" DEBUGGER "u1" (set_clock sample_state 1800)
  = (set_clock sample_state 1800, Ok tt).
Proof.
  pose proof (stop_request_needs_live_ownership "t1" "u1" DEBUGGER "c1" "advanced-chat" "m1"
                empty_state 1799) as Hearly.
  pose proof (stop_request_needs_live_ownership "t1" "u1" DEBUGGER "c1" "advanced-chat" "m1"
                empty_state 1800) as Hlate.
  cbn zeta in Hearly, Hlate. split.
  - apply Hearly; [discriminate|reflexivity].
  - apply Hlate; [discriminate|discriminate].
Defined.

(** X4: a stop request for one task leaves every other task alone: a manager
    of another task sees its stop flag as before, no ownership record
    changes, and neither the queue nor the clock is touched. *)
Theorem set_stop_flag_other_tasks
    (task_id : string) (invoke_from : InvokeFrom) (user_id : string) (st : State)
    (other : Manager) :
  _task_id other <> task_id ->
  let st' := fst (set_stop_flag task_id invoke_from user_id st) in
  _is_stopped other st' = _is_stopped other st /\
  (forall t, redis_get st' (_generate_task_belong_cache_key t)
             = redis_get st (_generate_task_belong_cache_key t)) /\
  q st' = q st /\ clock st' = clock st.
Proof.
  intros Hother. cbn zeta. unfold set_stop_flag.
  destruct (redis_get st (_generate_task_belong_cache_key task_id)) as [result|];
    [|repeat split].
  destruct (negb (result =? task_belong_value invoke_from user_id)%string);
    [repeat split|]. cbn [fst].
  split; [|split; [|split; reflexivity]].
  - unfold _is_stopped, redis_get, redis_setex. cbn.
    rewrite lookup_insert_ne; [reflexivity|].
    intros Hkey. apply stopped_key_inj in Hkey. congruence.
  - intros t. unfold redis_get, redis_setex. cbn.
    rewrite lookup_insert_ne; [reflexivity|].
    intros Hkey. symmetry in Hkey. exact (belong_key_not_stopped_key _ _ Hkey).
Qed.

Lemma set_stop_flag_other_tasks_witness :
  _is_stopped (mk_manager "t2" "u1" DEBUGGER "c2" "chat" "m2") stopped_state = false /\
  q stopped_state = q sample_state.
Proof.
  pose proof (set_stop_flag_other_tasks "t1" DEBUGGER "u1" sample_state
                (mk_manager "t2" "u1" DEBUGGER "c2" "chat" "m2")) as Hother.
  cbn zeta in Hother. destruct Hother as (Hstop & _ & Hq & _); [discriminate|].
  split; [exact (eq_trans Hstop eq_refl)|exact Hq].
Defined.

(** X5: on the state the constructor leaves, a stop request is accepted
    exactly when it names the owner's user id and comes from the owner's class
    of caller (EXPLORE and DEBUGGER count as one class, all other origins as
    the other); any other request changes nothing. *)
Theorem only_the_owner_stops
    (task_id owner : string) (invoke_from0 : InvokeFrom)
    (conversation_id app_mode message_id : string) (st0 : State)
    (invoke_from : InvokeFrom) (user_id : string) :
  owner <> "" ->
  let st1 := fst (MessageBasedAppQueueManager_init task_id owner invoke_from0
                    conversation_id app_mode message_id st0) in
  (user_id = owner /\ user_prefix invoke_from = user_prefix invoke_from0 ->
   fst (set_stop_flag task_id invoke_from user_id st1)
   = redis_setex (_generate_stopped_cache_key task_id) 600 "1" st1) /\
  (~ (user_id = owner /\ user_prefix invoke_from = user_prefix invoke_from0) ->
   fst (set_stop_flag task_id invoke_from user_id st1) = st1).
Proof.
  intros Howner st1.
  assert (Hget : redis_get st1 (_generate_task_belong_cache_key task_id)
                 = Some (task_belong_value invoke_from0 owner)).
  { subst st1. unfold MessageBasedAppQueueManager_init.
    destruct (String.eqb_spec owner ""); [contradiction|]. cbn [fst].
    apply (redis_get_setex_same _ 1800). lia. }
  unfold set_stop_flag. rewrite Hget.
  destruct (String.eqb_spec (task_belong_value invoke_from0 owner)
              (task_belong_value invoke_from user_id)) as [Heq|Hne]; cbn [negb fst].
  - apply task_belong_value_inj in Heq as [Hprefix ->]. split; [reflexivity|].
    intros Hnot. exfalso. apply Hnot. split; congruence.
  - split; [|reflexivity]. intros [-> Hprefix]. exfalso. apply Hne.
    apply task_belong_value_inj. split; congruence.
Qed.

Lemma only_the_owner_stops_witness :
  fst (set_stop_flag "t1" EXPLORE "u1" sample_state)
  = redis_setex (_generate_stopped_cache_key "t1") 600 "1" sample_state /\
  fst (set_stop_flag "t1" SERVICE_API "u1" sample_state) = sample_state /\
  fst (set_stop_flag "t1" DEBUGGER "u2" sample_state) = sample_state.
Proof.
  pose proof (only_the_owner_stops "t1" "u1" DEBUGGER "c1" "advanced-chat" "m1" empty_state)
    as Howner.
  cbn zeta in Howner. split; [|split].
  - apply (Howner EXPLORE "u1"); [discriminate|]. split; reflexivity.
  - apply (Howner SERVICE_API "u1"); [discriminate|]. intros [_ H]. discriminate H.
  - apply (Howner DEBUGGER "u2"); [discriminate|]. intros [H _]. discriminate H.
Defined.

(** ** An idle run ends by itself *)

Lemma finally_items_quiet (cfg : DifyConfig) (self : Manager) (loc : Local) (st : State) :
  redis_kv st !! _generate_stopped_cache_key (_task_id self) = None ->
  clock st - start_time loc < APP_MAX_EXECUTION_TIME cfg ->
  finally_items cfg self loc st
  = if last_ping_time loc <? (clock st - start_time loc) / 10
    then [Some (construct_queue_message self ping_event)] else [].
Proof.
  intros Hkey Htime. unfold finally_items, stop_condition.
  rewrite (not_stopped_of_lookup _ _ Hkey).
  destruct (Z.leb_spec (APP_MAX_EXECUTION_TIME cfg) (clock st - start_time loc)); [lia|].
  reflexivity.
Qed.

Lemma idle_turn (cfg : DifyConfig) (self : Manager) (start e : Z) (r : Run) :
  0 <= e -> e + 1 < APP_MAX_EXECUTION_TIME cfg ->
  idle_at self start e r ->
  exists n, idle_at self start (e + 1) (consume cfg self n r).
Proof.
  intros He Htime (Hpc & Hstart & Hping & Hq & Hclock & Hkey & Hobs).
  destruct r as [st loc tr]. cbn [run_state run_local observed] in *.
  assert (Hel : clock (set_clock st (clock st + 1)) - start_time loc = e + 1)
    by (cbn; lia).
  assert (Hmono : e / 10 <= (e + 1) / 10) by (apply Z.div_le_mono; lia).
  assert (Hnext : (e + 1) / 10 <= e / 10 + 1).
  { replace (e / 10 + 1) with ((e + 1 * 10) / 10) by (rewrite Z.div_add; lia).
    apply Z.div_le_mono; lia. }
  assert (Hdiv : 0 <= e / 10) by (apply Z.div_pos; lia).
  destruct (Z.ltb_spec (e / 10) ((e + 1) / 10)) as [Hdue|Hnot].
  - exists 3%nat. rewrite consume_S.
    cbn [run_action run_state run_local observed].
    rewrite (listen_step_empty _ _ _ _ Hpc Hq).
    rewrite finally_items_quiet by (cbn; first [exact Hkey|lia]).
    rewrite Hel. unfold finally_ping. rewrite Hel, Hping.
    destruct (Z.ltb_spec (e / 10) ((e + 1) / 10)); [|lia].
    rewrite consume_S. cbn [run_action run_state run_local observed].
    rewrite (listen_step_message _ _ _ _ (construct_queue_message self ping_event) [])
      by reflexivity.
    rewrite consume_S. cbn [run_action run_state run_local observed].
    rewrite listen_step_resumed by reflexivity.
    rewrite finally_items_quiet by (cbn; first [exact Hkey|lia]).
    unfold finally_ping. cbn [start_time last_ping_time clock set_q set_clock].
    replace (clock st + 1 - start_time loc) with (e + 1) by lia.
    rewrite Z.ltb_irrefl.
    repeat split; cbn; try assumption; try lia.
    rewrite Hobs. replace ((e + 1) / 10) with (e / 10 + 1) by lia.
    rewrite Z2Nat.inj_add by lia. rewrite repeat_app. reflexivity.
  - exists 1%nat. rewrite consume_S.
    cbn [run_action run_state run_local observed].
    rewrite (listen_step_empty _ _ _ _ Hpc Hq).
    rewrite finally_items_quiet by (cbn; first [exact Hkey|lia]).
    rewrite Hel. unfold finally_ping. rewrite Hel, Hping.
    destruct (Z.ltb_spec (e / 10) ((e + 1) / 10)); [lia|].
    repeat split; cbn; try assumption; try lia.
    rewrite Hobs. replace ((e + 1) / 10) with (e / 10) by lia. reflexivity.
Qed.

(** X1: a run in which nobody publishes and nobody asks to stop ends by
    itself: with a time budget of at least one second the consumer receives
    one ping for every full ten seconds before the budget is spent, then the
    stop message, and the generator ends. *)
Theorem idle_listen_times_out (cfg : DifyConfig) (self : Manager) (st : State) :
  1 <= APP_MAX_EXECUTION_TIME cfg ->
  q st = [] ->
  redis_kv st !! _generate_stopped_cache_key (_task_id self) = None ->
  exists n,
    pc (run_local (consume cfg self n (start_run st))) = Finished /\
    observed (consume cfg self n (start_run st))
    = repeat (construct_queue_message self ping_event)
        (Z.to_nat ((APP_MAX_EXECUTION_TIME cfg - 1) / 10))
      ++ [construct_queue_message self stop_event_user_manual].
Proof.
  intros Hbudget Hq Hkey.
  assert (Hloop : forall (k : nat) (e : Z) (r : Run),
             e = APP_MAX_EXECUTION_TIME cfg - 1 - Z.of_nat k -> 0 <= e ->
             idle_at self (clock st) e r ->
             exists n,
               pc (run_local (consume cfg self n r)) = Finished /\
               observed (consume cfg self n r)
               = repeat (construct_queue_message self ping_event)
                   (Z.to_nat ((APP_MAX_EXECUTION_TIME cfg - 1) / 10))
                 ++ [construct_queue_message self stop_event_user_manual]).
  { induction k as [|k IH]; intros e r He Hpos Hidle.
    - exists 4%nat.
      destruct Hidle as (Hpc & Hstart & Hping & Hq' & Hclock & Hkey' & Hobs).
      destruct (stop_observed_ends cfg self r [] ) as [Hfin Hseen].
      + unfold stop_observed. rewrite Hpc, Hq'. unfold stop_condition.
        apply orb_true_iff. left. apply Z.leb_le. cbn. lia.
      + exact Hq'.
      + cbn [length Nat.mul Nat.add] in Hfin, Hseen. split; [exact Hfin|].
        rewrite Hseen, Hobs. replace e with (APP_MAX_EXECUTION_TIME cfg - 1) by lia.
        reflexivity.
    - destruct (idle_turn cfg self (clock st) e r Hpos ltac:(lia) Hidle) as [n1 Hidle'].
      destruct (IH (e + 1) (consume cfg self n1 r) ltac:(lia) ltac:(lia) Hidle')
        as (n2 & Hfin & Hseen).
      exists (n1 + n2)%nat. rewrite consume_add. split; assumption. }
  apply (Hloop (Z.to_nat (APP_MAX_EXECUTION_TIME cfg - 1)) 0); [lia|lia|].
  unfold idle_at, start_run, listen_start. cbn. repeat split; try assumption; lia.
Qed.

Lemma idle_listen_times_out_witness :
  exists n,
    pc (run_local (consume (mk_config 25) sample_manager n (start_run sample_state)))
    = Finished /\
    observed (consume (mk_config 25) sample_manager n (start_run sample_state))
    = [construct_queue_message sample_manager ping_event;
       construct_queue_message sample_manager ping_event;
       construct_queue_message sample_manager stop_event_user_manual].
Proof.
  apply (idle_listen_times_out (mk_config 25) sample_manager sample_state);
    [cbn; lia|reflexivity|reflexivity].
Defined.

(** ** Closing the stream *)

(** X6: a closing event (stop, error, message end, advanced-chat message end)
    that passes the check ends the stream, whoever publishes it and whether
    or not the publish raises: from a queue of pending messages the consumer
    receives these in the order they were put, then the closing event, and
    the generator ends. *)
Theorem closing_event_ends_stream
    (cfg : DifyConfig) (self : Manager) (event : AppQueueEvent) (pub_from : PublishFrom)
    (st : State) (ms : list MessageQueueMessage) :
  closes_queue (ev_class event) = true ->
  _check_for_sqlalchemy_models (model_dump event) = None ->
  q st = map Some ms ->
  let r := consume cfg self (2 * length ms + 3)
             (start_run (fst (publish self event pub_from st))) in
  pc (run_local r) = Finished /\
  observed r = ms ++ [construct_queue_message self event].
Proof.
  intros Hclosing Hcheck Hq. cbn zeta.
  rewrite (publish_passes _ _ _ _ Hcheck). cbn [fst].
  set (message := construct_queue_message self event).
  destruct (consume_messages cfg self (ms ++ [message])
              (set_q st (q st ++ enqueued_by self event))
              (listen_start (set_q st (q st ++ enqueued_by self event))) [] [None])
    as (st2 & loc2 & Hrun & Hpc2 & ext & Hq2).
  - reflexivity.
  - cbn [q set_q]. unfold enqueued_by. rewrite Hclosing, Hq, map_app, <- app_assoc.
    reflexivity.
  - replace (2 * length ms + 3)%nat with (2 * length (ms ++ [message]) + 1)%nat
      by (rewrite length_app; cbn; lia).
    rewrite consume_add. unfold start_run. rewrite Hrun.
    cbn [consume run_actions repeat fold_left run_action run_state run_local observed].
    rewrite (listen_step_sentinel _ _ _ _ ext Hpc2 Hq2). cbn. split; reflexivity.
Qed.

Lemma closing_event_ends_stream_witness :
  observed (consume default_config sample_manager 3
              (start_run (fst (publish_error sample_manager (mk_pyobj 1 false false)
                                 APPLICATION_MANAGER stopped_state))))
  = [construct_queue_message sample_manager
       (mk_event QueueErrorEvent [("error", PObj (mk_pyobj 1 false false))])].
Proof.
  exact (proj2 (closing_event_ends_stream default_config sample_manager
                  (mk_event QueueErrorEvent [("error", PObj (mk_pyobj 1 false false))])
                  APPLICATION_MANAGER stopped_state [] eq_refl eq_refl eq_refl)).
Defined.

Lemma finished_run_stays (cfg : DifyConfig) (self : Manager) (sched : list Action) :
  forall r,
    pc (run_local r) = Finished ->
    pc (run_local (run_actions cfg self r sched)) = Finished /\
    observed (run_actions cfg self r sched) = observed r.
Proof.
  induction sched as [|a sched IH]; intros r Hpc; [split; [exact Hpc|reflexivity]|].
  cbn [run_actions fold_left].
  assert (Hstep : pc (run_local (run_action cfg self r a)) = Finished /\
                  observed (run_action cfg self r a) = observed r).
  { destruct a; cbn; try (split; [exact Hpc|reflexivity]).
    rewrite (listen_step_finished _ _ _ _ Hpc). split; [exact Hpc|reflexivity]. }
  destruct Hstep as [Hpc' Hobs'].
  destruct (IH _ Hpc') as [Hfin Hobs]. split; [exact Hfin|].
  unfold run_actions in Hobs. rewrite Hobs. exact Hobs'.
Qed.

(** X7: the generator ends at the first sentinel it takes from the queue.
    The consumer receives the messages put before that sentinel, in their
    order; the items behind it, a second closing event for instance, and
    whatever is put, requested or resumed afterwards never reach the
    consumer. *)
Theorem nothing_after_the_end
    (cfg : DifyConfig) (self : Manager) (st : State) (ms : list MessageQueueMessage)
    (rest : list (option MessageQueueMessage)) (sched : list Action) :
  q st = map Some ms ++ None :: rest ->
  let r := consume cfg self (2 * length ms + 1) (start_run st) in
  pc (run_local r) = Finished /\
  observed r = ms /\
  pc (run_local (run_actions cfg self r sched)) = Finished /\
  observed (run_actions cfg self r sched) = ms.
Proof.
  intros Hq. cbn zeta.
  destruct (consume_messages cfg self ms st (listen_start st) [] (None :: rest) eq_refl Hq)
    as (st2 & loc2 & Hconsume & Hpc2 & ext & Hq2).
  assert (Hrun : pc (run_local (consume cfg self (2 * length ms + 1) (start_run st)))
                 = Finished /\
                 observed (consume cfg self (2 * length ms + 1) (start_run st)) = ms).
  { rewrite consume_add. unfold start_run. rewrite Hconsume.
    cbn [consume run_actions repeat fold_left run_action run_state run_local observed].
    rewrite (listen_step_sentinel _ _ _ _ (rest ++ ext) Hpc2 Hq2). cbn. split; reflexivity. }
  destruct Hrun as [Hpc Hobs]. split; [exact Hpc|]. split; [exact Hobs|].
  destruct (finished_run_stays cfg self sched _ Hpc) as [Hpc' Hobs'].
  split; [exact Hpc'|]. rewrite Hobs'. exact Hobs.
Qed.

Lemma nothing_after_the_end_witness :
  let st := fst (publish sample_manager answer_event TASK_PIPELINE
                   (fst (publish sample_manager stop_event_user_manual TASK_PIPELINE
                           sample_state))) in
  observed (run_actions default_config sample_manager
              (consume default_config sample_manager 3 (start_run st))
              [Put answer_event; Resume; Resume])
  = [construct_queue_message sample_manager stop_event_user_manual].
Proof.
  cbn zeta.
  exact (proj2 (proj2 (proj2
           (nothing_after_the_end default_config sample_manager
              (fst (publish sample_manager answer_event TASK_PIPELINE
                      (fst (publish sample_manager stop_event_user_manual TASK_PIPELINE
                              sample_state))))
              [construct_queue_message sample_manager stop_event_user_manual]
              [Some (construct_queue_message sample_manager answer_event)]
              [Put answer_event; Resume; Resume] eq_refl)))).
Defined.

(** ** The check on data shaped like JSON *)

Lemma json_shaped_visited (data : pyval) :
  json_shaped data = true -> contains_orm_reference data = visited_orm_reference data.
Proof.
  induction data using pyval_nested_ind; cbn; try reflexivity; try discriminate.
  - induction H as [|x rest Hx _ IH]; cbn; [reflexivity|].
    intros [Hshape Hrest]%andb_true_iff. rewrite (Hx Hshape). f_equal. exact (IH Hrest).
  - induction H as [|[k v] rest [_ Hv] _ IH]; cbn in *; [reflexivity|].
    intros [Hshape Hrest]%andb_true_iff.
    destruct k; try discriminate. cbn. rewrite (Hv Hshape). f_equal. exact (IH Hrest).
Qed.

(** X8: the check never raises without cause, and on data shaped like JSON
    (lists, dictionaries with string keys, scalars and objects, no tuples or
    sets) it misses nothing: [publish] raises the [TypeError] only if the
    dumped event contains a live ORM reference, it then leaves the state
    untouched, and for JSON-shaped data it raises whenever there is one. *)
Theorem check_exact_on_json
    (self : Manager) (event : AppQueueEvent) (pub_from : PublishFrom) (st : State) :
  (forall msg, snd (publish self event pub_from st) = Raise (TypeError msg) ->
     contains_orm_reference (model_dump event) = true /\
     fst (publish self event pub_from st) = st) /\
  (json_shaped (model_dump event) = true ->
   contains_orm_reference (model_dump event) = true ->
   publish self event pub_from st = (st, Raise (TypeError sqlalchemy_message))).
Proof.
  split.
  - intros msg Hraise.
    destruct (_check_for_sqlalchemy_models (model_dump event)) as [e|] eqn:Hcheck.
    + rewrite (publish_rejects _ _ _ _ e Hcheck). split; [|reflexivity].
      apply visited_is_contained.
      rewrite check_for_sqlalchemy_models_visits in Hcheck.
      destruct (visited_orm_reference (model_dump event)); [reflexivity|discriminate].
    + rewrite (publish_passes _ _ _ _ Hcheck) in Hraise. cbn [snd] in Hraise.
      destruct (PublishFrom_eqb pub_from APPLICATION_MANAGER && _is_stopped self st);
        discriminate.
  - intros Hshape Hcontains. apply publish_rejects.
    rewrite check_for_sqlalchemy_models_visits, <- (json_shaped_visited _ Hshape), Hcontains.
    reflexivity.
Qed.

Lemma check_exact_on_json_witness :
  publish sample_manager list_event TASK_PIPELINE sample_state
  = (sample_state, Raise (TypeError sqlalchemy_message)).
Proof.
  apply (check_exact_on_json sample_manager list_event TASK_PIPELINE sample_state);
    reflexivity.
Defined.

(** * Further properties of the workflow runner *)

(** ** Events of the engine on the queue *)

(** X9: no engine event is turned into a closing queue event, so the runner
    never ends the stream by handling one; when the queue event passes the
    check, [_handle_event] puts exactly its message on the queue, without a
    sentinel, and raises [GenerateTaskStoppedError], after that, exactly when
    the task is stopped. *)
Theorem handle_event_keeps_stream_open
    (queue_manager : Manager) (workflow_entry : WorkflowEntry) (event : GraphEngineEvent)
    (st : State) :
  closes_queue (ev_class (to_queue_event workflow_entry event)) = false /\
  (_check_for_sqlalchemy_models (model_dump (to_queue_event workflow_entry event)) = None ->
   _handle_event queue_manager workflow_entry event st
   = (set_q st (q st ++ [Some (construct_queue_message queue_manager
                                 (to_queue_event workflow_entry event))]),
      if _is_stopped queue_manager st then Raise GenerateTaskStoppedError else Ok tt)).
Proof.
  assert (Hopen : closes_queue (ev_class (to_queue_event workflow_entry event)) = false)
    by (destruct event; reflexivity).
  split; [exact Hopen|].
  intros Hcheck. unfold _handle_event, _publish_event.
  rewrite (publish_passes _ _ _ _ Hcheck). unfold enqueued_by. rewrite Hopen. reflexivity.
Qed.

Lemma handle_event_keeps_stream_open_witness :
  _handle_event sample_manager sample_workflow_entry sample_chunk_event stopped_state
  = (set_q stopped_state
       [Some (construct_queue_message sample_manager
                (to_queue_event sample_workflow_entry sample_chunk_event))],
     Raise GenerateTaskStoppedError).
Proof.
  exact (proj2 (handle_event_keeps_stream_open sample_manager sample_workflow_entry
                  sample_chunk_event stopped_state) eq_refl).
Defined.

(** X10: the error text of the queue event for a failed node.  When the
    node's run result carries a non-empty error, the queue event carries
    exactly that error; when there is no run result, or its error is missing
    or empty, it carries "Unknown error".  The text is therefore never empty,
    and the error field of the engine event itself plays no part. *)
Theorem node_failed_error_text
    (workflow_entry : WorkflowEntry) (b : BaseNodeEvent) (error : string) :
  let queue_event := to_queue_event workflow_entry (NodeRunFailedEvent b error) in
  (forall r e,
     node_run_result (route_node_state b) = Some r -> nrr_error r = Some e -> e <> "" ->
     kwarg "error" (ev_fields queue_event) = Some (PStr e)) /\
  (node_run_result (route_node_state b) = None \/
   (exists r, node_run_result (route_node_state b) = Some r /\
              (nrr_error r = None \/ nrr_error r = Some "")) ->
   kwarg "error" (ev_fields queue_event) = Some (PStr "Unknown error")) /\
  (exists text, kwarg "error" (ev_fields queue_event) = Some (PStr text) /\ text <> "") /\
  forall error', to_queue_event workflow_entry (NodeRunFailedEvent b error') = queue_event.
Proof.
  cbn zeta.
  assert (Hfield : kwarg "error"
                     (ev_fields (to_queue_event workflow_entry (NodeRunFailedEvent b error)))
                   = Some (PStr (result_error (route_node_state b)))) by reflexivity.
  rewrite Hfield. unfold result_error. split; [|split; [|split]].
  - intros r e -> -> Hne. destruct (String.eqb_spec e ""); [contradiction|reflexivity].
  - intros [->|(r & -> & [->| ->])]; reflexivity.
  - destruct (node_run_result (route_node_state b)) as [r|];
      [destruct (nrr_error r) as [e|]; [destruct (String.eqb_spec e "")|]|];
      eexists; (split; [reflexivity|]); first [assumption|discriminate].
  - intros error'. reflexivity.
Qed.

Lemma node_failed_error_text_witness :
  let b := mk_base_node_event "exec-1" "llm-1" LLM (PDict [])
             (mk_route_node_state 1700000000 3
                (Some (mk_node_run_result (PDict []) (PDict []) (PDict []) (PDict [])
                         (Some "rate limit exceeded"))))
             None None None None None in
  kwarg "error"
    (ev_fields (to_queue_event sample_workflow_entry (NodeRunFailedEvent b "engine error")))
  = Some (PStr "rate limit exceeded").
Proof.
  cbn zeta.
  refine (proj1 (node_failed_error_text sample_workflow_entry
                   (mk_base_node_event "exec-1" "llm-1" LLM (PDict [])
                      (mk_route_node_state 1700000000 3
                         (Some (mk_node_run_result (PDict []) (PDict []) (PDict [])
                                  (PDict []) (Some "rate limit exceeded"))))
                      None None None None None)
                   "engine error")
            (mk_node_run_result (PDict []) (PDict []) (PDict []) (PDict [])
               (Some "rate limit exceeded"))
            "rate limit exceeded" eq_refl eq_refl _).
  discriminate.
Defined.

(** ** Node types by value *)

Lemma enum_lookup_found {A} (value_of_member : A -> string) (members : list A)
    (value : pyval) (member : A) :
  enum_lookup value_of_member members value = Some member ->
  value = PStr (value_of_member member) /\ In member members.
Proof.
  induction members as [|m rest IH]; cbn [enum_lookup]; [discriminate|].
  destruct (py_eq (PStr (value_of_member m)) value) eqn:Heq.
  - intros [= <-]. apply py_eq_str_l in Heq. split; [exact Heq|left; reflexivity].
  - intros Hrest. destruct (IH Hrest) as [Hvalue Hin]. split; [exact Hvalue|right; exact Hin].
Qed.

Section ValueOfProperties.

Variable py_str : pyval -> string.

(** X11: [NodeType.value_of] is the inverse of [.value]: it returns the
    member for each of the eighteen values, distinct values belong to
    distinct members, and for anything else, [None] and non-strings included,
    it raises a [ValueError]. *)
Theorem node_type_value_of_inverse (value : pyval) :
  (forall t, NodeType_value_of py_str (PStr (NodeType_value t)) = Ok t) /\
  (forall t, NodeType_value_of py_str value = Ok t <-> value = PStr (NodeType_value t)) /\
  ((forall t, value <> PStr (NodeType_value t)) ->
   exists msg, NodeType_value_of py_str value = Raise (ValueError msg)).
Proof.
  assert (Hround : forall t, NodeType_value_of py_str (PStr (NodeType_value t)) = Ok t)
    by (intros t; destruct t; reflexivity).
  assert (Hfound : forall t, NodeType_value_of py_str value = Ok t ->
                             value = PStr (NodeType_value t)).
  { intros t. unfold NodeType_value_of.
    destruct (enum_lookup NodeType_value NodeType_members value) as [t'|] eqn:Hlookup;
      [|discriminate].
    intros [= ->]. exact (proj1 (enum_lookup_found _ _ _ _ Hlookup)). }
  split; [exact Hround|]. split.
  - intros t. split; [apply Hfound|]. intros ->. apply Hround.
  - intros Hnone. unfold NodeType_value_of.
    destruct (enum_lookup NodeType_value NodeType_members value) as [t|] eqn:Hlookup;
      [|eexists; reflexivity].
    exfalso. apply (Hnone t). apply Hfound. unfold NodeType_value_of. rewrite Hlookup.
    reflexivity.
Qed.

(** X12: [UserFrom.value_of] is the inverse of [.value], and the prefix the
    queue manager derives for a caller is always the value of a member:
    "account" for EXPLORE and DEBUGGER, "end-user" for the others. *)
Theorem user_from_value_of_inverse :
  (forall u, UserFrom_value_of py_str (PStr (UserFrom_value u)) = Ok u) /\
  (forall value u, UserFrom_value_of py_str value = Ok u -> value = PStr (UserFrom_value u)) /\
  (forall invoke_from,
     UserFrom_value_of py_str (PStr (user_prefix invoke_from))
     = Ok (match invoke_from with EXPLORE | DEBUGGER => ACCOUNT | _ => END_USER end)).
Proof.
  split; [intros u; destruct u; reflexivity|]. split.
  - intros value u. unfold UserFrom_value_of.
    destruct (enum_lookup UserFrom_value UserFrom_members value) as [u'|] eqn:Hlookup;
      [|discriminate].
    intros [= ->]. exact (proj1 (enum_lookup_found _ _ _ _ Hlookup)).
  - intros invoke_from. destruct invoke_from; reflexivity.
Qed.

End ValueOfProperties.

(** ** The single-iteration configuration: errors, repetition, the node *)

Lemma single_iteration_config_shape (graph_config graph_config' : list (pyval * pyval))
    (node_id : string) :
  single_iteration_graph_config graph_config node_id = Ok graph_config' ->
  exists nodes edges node_ids,
    dict_lookup "nodes" graph_config = Some (PList nodes) /\
    dict_lookup "edges" graph_config = Some (PList edges) /\
    comprehension_map (fun node => py_get node "id" PNone)
      (List.filter (fun node => holds (node_in_iteration node_id node)) nodes)
    = Ok node_ids /\
    graph_config'
    = dict_set "edges"
        (PList (List.filter (fun edge => holds (edge_in_iteration node_ids edge)) edges))
        (dict_set "nodes"
           (PList (List.filter (fun node => holds (node_in_iteration node_id node)) nodes))
           graph_config).
Proof.
  intros Hrun. unfold single_iteration_graph_config in Hrun.
  destruct (truthy (PDict graph_config)); [|discriminate]. cbn [negb] in Hrun.
  destruct (check_nodes_and_edges graph_config) as [[]|e] eqn:Hcheck; [|discriminate].
  apply check_nodes_and_edges_ok in Hcheck as (nodes & edges & Hnodes & Hedges).
  cbn [rbind] in Hrun. unfold dict_get at 1 in Hrun. rewrite Hnodes in Hrun.
  cbn [list_items] in Hrun.
  destruct (comprehension_if (node_in_iteration node_id) nodes) as [node_configs|e]
    eqn:Hnode_configs; [|discriminate].
  apply comprehension_if_filter in Hnode_configs as ->. cbn [rbind] in Hrun.
  destruct (comprehension_map _ _) as [node_ids|e] eqn:Hids; [|discriminate].
  cbn [rbind] in Hrun. unfold dict_get at 1 in Hrun.
  rewrite dict_lookup_set_other, Hedges in Hrun by discriminate.
  cbn [list_items] in Hrun.
  destruct (comprehension_if (edge_in_iteration node_ids) edges) as [edge_configs|e]
    eqn:Hedge_configs; [|discriminate].
  apply comprehension_if_filter in Hedge_configs as ->. cbn [rbind] in Hrun.
  injection Hrun as <-. exists nodes, edges, node_ids. auto.
Qed.

Lemma dict_set_same_value (key : string) (v : pyval) (kvs : list (pyval * pyval)) :
  dict_lookup key kvs = Some v -> dict_set key v kvs = kvs.
Proof.
  induction kvs as [|[k v0] rest IH]; cbn [dict_lookup dict_set]; [discriminate|].
  destruct (py_eq (PStr key) k).
  - intros [= ->]. reflexivity.
  - intros Hrest. rewrite (IH Hrest). reflexivity.
Qed.

Lemma list_filter_twice {A} (f : A -> bool) (xs : list A) :
  List.filter f (List.filter f xs) = List.filter f xs.
Proof.
  induction xs as [|x rest IH]; [reflexivity|]. cbn.
  destruct (f x) eqn:Hx; [|exact IH]. cbn. rewrite Hx, IH. reflexivity.
Qed.

Lemma Forall_filter_holds {A} (keep : A -> result bool) (xs : list A) :
  Forall (fun x => is_ok (keep x) = true) (List.filter (fun x => holds (keep x)) xs).
Proof.
  induction xs as [|x rest IH]; cbn; [constructor|].
  destruct (keep x) as [[]|e] eqn:Hx; cbn; [|exact IH|exact IH].
  constructor; [rewrite Hx; reflexivity|exact IH].
Qed.

(** X13: building the single-iteration configuration is idempotent: built
    again from its own result, for the same node, it returns that result
    unchanged. *)
Theorem single_iteration_config_idempotent
    (graph_config graph_config' : list (pyval * pyval)) (node_id : string) :
  single_iteration_graph_config graph_config node_id = Ok graph_config' ->
  single_iteration_graph_config graph_config' node_id = Ok graph_config'.
Proof.
  intros Hrun.
  destruct (single_iteration_config_shape _ _ _ Hrun)
    as (nodes & edges & node_ids & Hnodes & Hedges & Hids & Hshape).
  set (nodes' := List.filter (fun node => holds (node_in_iteration node_id node)) nodes) in *.
  set (edges' := List.filter (fun edge => holds (edge_in_iteration node_ids edge)) edges) in *.
  assert (Hnodes' : dict_lookup "nodes" graph_config' = Some (PList nodes')).
  { rewrite Hshape, dict_lookup_set_other by discriminate. apply dict_lookup_set_same. }
  assert (Hedges' : dict_lookup "edges" graph_config' = Some (PList edges')).
  { rewrite Hshape. apply dict_lookup_set_same. }
  unfold single_iteration_graph_config.
  assert (Htruthy : truthy (PDict graph_config') = true).
  { destruct graph_config'; [discriminate|reflexivity]. }
  rewrite Htruthy. cbn [negb].
  assert (Hcheck : check_nodes_and_edges graph_config' = Ok tt).
  { apply check_nodes_and_edges_ok. eauto. }
  rewrite Hcheck. cbn [rbind]. unfold dict_get at 1. rewrite Hnodes'. cbn [list_items].
  rewrite comprehension_if_total by apply Forall_filter_holds.
  subst nodes'. rewrite list_filter_twice.
  set (nodes' := List.filter (fun node => holds (node_in_iteration node_id node)) nodes) in *.
  cbn [rbind]. rewrite (dict_set_same_value _ _ _ Hnodes'), Hids. cbn [rbind].
  unfold dict_get at 1. rewrite Hedges'. cbn [list_items].
  rewrite comprehension_if_total by apply Forall_filter_holds.
  subst edges'. rewrite list_filter_twice. cbn [rbind].
  rewrite (dict_set_same_value _ _ _ Hedges'). reflexivity.
Qed.

Lemma single_iteration_config_idempotent_witness :
  single_iteration_graph_config
    [(PStr "nodes",
      PList [node_config "it1" "iteration" None;
             node_config "inner1" "code" (Some "it1");
             node_config "inner2" "code" (Some "it1")]);
     (PStr "edges", PList [open_edge; edge_config "inner1" "inner2"])] "it1"
  = Ok [(PStr "nodes",
         PList [node_config "it1" "iteration" None;
                node_config "inner1" "code" (Some "it1");
                node_config "inner2" "code" (Some "it1")]);
        (PStr "edges", PList [open_edge; edge_config "inner1" "inner2"])].
Proof.
  apply (single_iteration_config_idempotent sample_graph_config _ "it1"). reflexivity.
Defined.

Lemma node_in_iteration_is_ok (node_id : string) (node : pyval) :
  is_ok (node_in_iteration node_id node) = node_passes node_id node.
Proof.
  destruct node; try reflexivity. cbn.
  destruct (py_eq (dict_get "id" PNone kvs) (PStr node_id)); [reflexivity|].
  destruct (dict_get "data" (PDict []) kvs); reflexivity.
Qed.

Lemma edge_in_iteration_is_ok (node_ids : list pyval) (edge : pyval) :
  is_ok (edge_in_iteration node_ids edge) = edge_ok edge.
Proof.
  destruct edge; try reflexivity. cbn.
  destruct (is_none (dict_get "source" PNone kvs) || py_in (dict_get "source" PNone kvs) node_ids);
    reflexivity.
Qed.

Lemma node_in_iteration_raises (node_id : string) (node : pyval) e :
  node_in_iteration node_id node = Raise e -> e = AttributeError.
Proof.
  destruct node; cbn; try congruence.
  destruct (py_eq (dict_get "id" PNone kvs) (PStr node_id)); [discriminate|].
  destruct (dict_get "data" (PDict []) kvs); cbn; congruence.
Qed.

Lemma edge_in_iteration_raises (node_ids : list pyval) (edge : pyval) e :
  edge_in_iteration node_ids edge = Raise e -> e = AttributeError.
Proof.
  destruct edge; cbn; try congruence.
  destruct (is_none (dict_get "source" PNone kvs) || py_in (dict_get "source" PNone kvs) node_ids);
    discriminate.
Qed.

(** A comprehension raises what the test raises on its first failing
    element, and only then. *)
Lemma comprehension_if_outcome {A} (keep : A -> result bool) (xs : list A) :
  match comprehension_if keep xs with
  | Ok _ => forallb (fun x => is_ok (keep x)) xs = true
  | Raise e => forallb (fun x => is_ok (keep x)) xs = false /\
               exists x, In x xs /\ keep x = Raise e
  end.
Proof.
  induction xs as [|x rest IH]; cbn; [reflexivity|].
  destruct (keep x) as [b|e] eqn:Hx; cbn.
  - destruct (comprehension_if keep rest) as [rest'|e]; cbn; [exact IH|].
    destruct IH as [Hall (y & Hin & Hy)]. split; [exact Hall|]. exists y. auto.
  - split; [reflexivity|]. exists x. auto.
Qed.

Lemma check_nodes_and_edges_raises (graph_config : list (pyval * pyval)) e :
  check_nodes_and_edges graph_config = Raise e -> exists msg, e = ValueError msg.
Proof.
  unfold check_nodes_and_edges.
  destruct (negb (dict_contains "nodes" graph_config) || negb (dict_contains "edges" graph_config));
    [intros [= <-]; eauto|].
  destruct (negb (is_list (dict_get "nodes" PNone graph_config))); [intros [= <-]; eauto|].
  destruct (negb (is_list (dict_get "edges" PNone graph_config))); [intros [= <-]; eauto|].
  discriminate.
Qed.

Lemma forallb_pointwise {A} (f g : A -> bool) (xs : list A) :
  (forall x, f x = g x) -> forallb f xs = forallb g xs.
Proof.
  intros Hfg. induction xs as [|x rest IH]; [reflexivity|]. cbn. rewrite Hfg, IH. reflexivity.
Qed.

Lemma forallb_filter_weaken {A} (f g : A -> bool) (xs : list A) :
  forallb f xs = true -> forallb f (List.filter g xs) = true.
Proof.
  induction xs as [|x rest IH]; cbn; [reflexivity|].
  intros [Hx Hrest]%andb_true_iff. destruct (g x); cbn; [rewrite Hx|]; auto.
Qed.

(** X14: how the single-iteration configuration fails.  It raises a
    [ValueError] exactly when the graph has no list of nodes or no list of
    edges (an empty graph included); with both lists it raises an
    [AttributeError] exactly when some node is not an object, or is an object
    with another id whose ["data"] is not an object, or some edge is not an
    object; in every other case it is built.  It raises nothing else. *)
Theorem single_iteration_config_errors
    (graph_config : list (pyval * pyval)) (node_id : string) :
  let has_lists :=
    exists nodes edges,
      dict_lookup "nodes" graph_config = Some (PList nodes) /\
      dict_lookup "edges" graph_config = Some (PList edges) in
  match single_iteration_graph_config graph_config node_id with
  | Ok _ =>
      exists nodes edges,
        dict_lookup "nodes" graph_config = Some (PList nodes) /\
        dict_lookup "edges" graph_config = Some (PList edges) /\
        forallb (node_passes node_id) nodes = true /\ forallb edge_ok edges = true
  | Raise (ValueError _) => ~ has_lists
  | Raise AttributeError =>
      exists nodes edges,
        dict_lookup "nodes" graph_config = Some (PList nodes) /\
        dict_lookup "edges" graph_config = Some (PList edges) /\
        forallb (node_passes node_id) nodes && forallb edge_ok edges = false
  | Raise _ => False
  end.
Proof.
  cbn zeta. unfold single_iteration_graph_config.
  destruct graph_config as [|item rest] eqn:Hconfig.
  { cbn. intros (nodes & edges & Hnodes & _). discriminate Hnodes. }
  rewrite <- Hconfig. assert (Htruthy : truthy (PDict graph_config) = true)
    by (rewrite Hconfig; reflexivity).
  rewrite Htruthy. cbn [negb]. clear Htruthy Hconfig item rest.
  destruct (check_nodes_and_edges graph_config) as [[]|e] eqn:Hcheck.
  2:{ cbn [rbind]. destruct (check_nodes_and_edges_raises _ _ Hcheck) as [msg ->].
      intros Hlists. apply check_nodes_and_edges_ok in Hlists. congruence. }
  apply check_nodes_and_edges_ok in Hcheck as (nodes & edges & Hnodes & Hedges).
  cbn [rbind]. unfold dict_get at 1. rewrite Hnodes. cbn [list_items].
  pose proof (comprehension_if_outcome (node_in_iteration node_id) nodes) as Hnode_outcome.
  destruct (comprehension_if (node_in_iteration node_id) nodes) as [node_configs|e]
    eqn:Hnode_configs.
  2:{ cbn [rbind]. destruct Hnode_outcome as [Hfails (node & _ & Hraise)].
      rewrite (node_in_iteration_raises _ _ _ Hraise).
      exists nodes, edges. split; [first [exact Hnodes|reflexivity]|]. split; [first [exact Hedges|reflexivity]|].
      rewrite (forallb_pointwise _ _ _ (node_in_iteration_is_ok node_id)) in Hfails.
      rewrite Hfails. reflexivity. }
  rewrite (forallb_pointwise _ _ _ (node_in_iteration_is_ok node_id)) in Hnode_outcome.
  apply comprehension_if_filter in Hnode_configs as ->. cbn [rbind].
  destruct (comprehension_map _ _) as [node_ids|e] eqn:Hids.
  2:{ exfalso.
      assert (Hok : is_ok (comprehension_map (fun node => py_get node "id" PNone)
                      (List.filter (fun node => holds (node_in_iteration node_id node)) nodes))
                    = true).
      { apply comprehension_map_total. apply List.Forall_forall. intros node Hin.
        apply filter_In in Hin as [Hin _].
        rewrite forallb_forall in Hnode_outcome. specialize (Hnode_outcome node Hin).
        destruct node; try discriminate. reflexivity. }
      rewrite Hids in Hok. discriminate Hok. }
  cbn [rbind]. unfold dict_get at 1.
  rewrite dict_lookup_set_other, Hedges by discriminate. cbn [list_items].
  pose proof (comprehension_if_outcome (edge_in_iteration node_ids) edges) as Hedge_outcome.
  destruct (comprehension_if (edge_in_iteration node_ids) edges) as [edge_configs|e];
    cbn [rbind].
  - rewrite (forallb_pointwise _ _ _ (edge_in_iteration_is_ok node_ids)) in Hedge_outcome.
    exists nodes, edges. auto.
  - destruct Hedge_outcome as [Hfails (edge & _ & Hraise)].
    rewrite (edge_in_iteration_raises _ _ _ Hraise).
    exists nodes, edges. split; [first [exact Hnodes|reflexivity]|]. split; [first [exact Hedges|reflexivity]|].
    rewrite (forallb_pointwise _ _ _ (edge_in_iteration_is_ok node_ids)) in Hfails.
    rewrite Hfails. apply andb_false_r.
Qed.

Lemma find_iteration_node_config_found (node_id : string) (node_configs : list pyval)
    (node : pyval) :
  find_iteration_node_config node_id node_configs = Ok (Some node) ->
  In node node_configs /\
  exists kvs, node = PDict kvs /\ dict_get "id" PNone kvs = PStr node_id.
Proof.
  induction node_configs as [|n rest IH]; cbn; [discriminate|].
  destruct n; cbn; try discriminate.
  destruct (py_eq (dict_get "id" PNone kvs) (PStr node_id)) eqn:Hid.
  - intros [= <-]. split; [left; reflexivity|]. exists kvs. split; [reflexivity|].
    apply py_eq_str_r. exact Hid.
  - intros Hrest. destruct (IH Hrest) as [Hin Hnode]. split; [right; exact Hin|exact Hnode].
Qed.

Section SingleIterationNode.

Variable py_str : pyval -> string.
Variable Graph : Type.
Variable Graph_init : list (pyval * pyval) -> option string -> result (option Graph).

(** X15: the single-iteration path gets as far as a node type only if the
    workflow graph has a node whose id is [node_id]: that node is retained in
    the configuration the graph is built from with [node_id] as its root, its
    ["data"] is an object, and the ["type"] in it is the value of the node
    type returned. *)
Theorem single_iteration_needs_its_node
    (graph_config graph_config' : list (pyval * pyval)) (node_id : string)
    (g : Graph) (t : NodeType) :
  _get_node_type_of_single_iteration py_str Graph Graph_init graph_config node_id
  = Ok (g, graph_config', t) ->
  single_iteration_graph_config graph_config node_id = Ok graph_config' /\
  Graph_init graph_config' (Some node_id) = Ok (Some g) /\
  exists nodes nodes' kvs data,
    dict_lookup "nodes" graph_config = Some (PList nodes) /\
    dict_lookup "nodes" graph_config' = Some (PList nodes') /\
    In (PDict kvs) nodes /\ In (PDict kvs) nodes' /\
    dict_get "id" PNone kvs = PStr node_id /\
    dict_get "data" (PDict []) kvs = PDict data /\
    dict_get "type" PNone data = PStr (NodeType_value t).
Proof.
  unfold _get_node_type_of_single_iteration, _get_graph_of_single_iteration.
  destruct (single_iteration_graph_config graph_config node_id) as [config|e] eqn:Hconfig;
    [|discriminate]. cbn [rbind].
  destruct (Graph_init config (Some node_id)) as [[graph|]|e] eqn:Hgraph;
    cbn [rbind]; try discriminate.
  destruct (find_iteration_node_config node_id (list_items (dict_get "nodes" PNone config)))
    as [[node|]|e] eqn:Hfind; cbn [rbind fst snd]; try discriminate.
  rewrite Hfind. cbn [rbind].
  destruct (find_iteration_node_config_found _ _ _ Hfind) as [Hin (kvs & -> & Hid)].
  cbn [py_get rbind].
  destruct (dict_get "data" (PDict []) kvs) as [| | | | | | | | |data|] eqn:Hdata;
    cbn [py_get rbind]; try discriminate.
  destruct (NodeType_value_of py_str (dict_get "type" PNone data)) as [t'|e] eqn:Htype;
    cbn [rbind]; [|discriminate].
  intros [= <- <- <-].
  destruct (single_iteration_config_shape _ _ _ Hconfig)
    as (nodes & edges & node_ids & Hnodes & Hedges & Hids & Hshape).
  assert (Hnodes' : dict_lookup "nodes" config
                    = Some (PList (List.filter
                                     (fun node => holds (node_in_iteration node_id node)) nodes))).
  { rewrite Hshape, dict_lookup_set_other by discriminate. apply dict_lookup_set_same. }
  unfold dict_get at 1 in Hin. rewrite Hnodes' in Hin. cbn [list_items] in Hin.
  split; [first [reflexivity|exact Hconfig]|]. split; [first [reflexivity|exact Hgraph]|].
  exists nodes, (List.filter (fun node => holds (node_in_iteration node_id node)) nodes),
    kvs, data.
  split; [exact Hnodes|]. split; [exact Hnodes'|].
  split; [apply filter_In in Hin as [Hin _]; exact Hin|].
  split; [exact Hin|]. split; [exact Hid|]. split; [first [reflexivity|exact Hdata]|].
  unfold NodeType_value_of in Htype.
  destruct (enum_lookup NodeType_value NodeType_members (dict_get "type" PNone data))
    as [t''|] eqn:Hlookup; [|discriminate].
  injection Htype as ->. exact (proj1 (enum_lookup_found _ _ _ _ Hlookup)).
Qed.

End SingleIterationNode.

Lemma single_iteration_needs_its_node_witness :
  exists nodes nodes' kvs data,
    dict_lookup "nodes" sample_graph_config = Some (PList nodes) /\
    dict_lookup "nodes"
      [(PStr "nodes",
        PList [node_config "it1" "iteration" None;
               node_config "inner1" "code" (Some "it1");
               node_config "inner2" "code" (Some "it1")]);
       (PStr "edges", PList [open_edge; edge_config "inner1" "inner2"])]
    = Some (PList nodes') /\
    In (PDict kvs) nodes /\ In (PDict kvs) nodes' /\
    dict_get "id" PNone kvs = PStr "it1" /\
    dict_get "data" (PDict []) kvs = PDict data /\
    dict_get "type" PNone data = PStr (NodeType_value ITERATION).
Proof.
  apply (single_iteration_needs_its_node (fun _ => "") (list pyval) sample_graph_init
           sample_graph_config _ "it1"
           [node_config "it1" "iteration" None;
            node_config "inner1" "code" (Some "it1");
            node_config "inner2" "code" (Some "it1")]
           ITERATION).
  reflexivity.
Defined.

Lemma node_type_value_of_inverse_witness :
  exists msg, NodeType_value_of (fun _ => "?") PNone = Raise (ValueError msg).
Proof.
  apply (node_type_value_of_inverse (fun _ => "?") PNone).
  intros t. discriminate.
Defined.

Lemma user_from_value_of_inverse_witness :
  PStr "account" = PStr (UserFrom_value ACCOUNT).
Proof.
  apply (user_from_value_of_inverse (fun _ => "?")). reflexivity.
Defined.

(** * Properties of the response converter *)

Lemma append_cons (c : Ascii.ascii) (a b : string) : String c a +:+ b = String c (a +:+ b).
Proof. reflexivity. Qed.

Lemma string_length_append (a b : string) :
  String.length (a +:+ b) = (String.length a + String.length b)%nat.
Proof.
  induction a as [|c a IH]; [reflexivity|]. rewrite append_cons. cbn. rewrite IH. reflexivity.
Qed.

Lemma append_inj_r (a b s : string) : a +:+ s = b +:+ s -> a = b.
Proof.
  revert b. induction a as [|c a IH]; intros [|c' b] Heq; [reflexivity| | |].
  - apply (f_equal String.length) in Heq. rewrite !string_length_append in Heq.
    cbn in Heq. lia.
  - apply (f_equal String.length) in Heq. rewrite !string_length_append in Heq.
    cbn in Heq. lia.
  - rewrite !append_cons in Heq. injection Heq as -> Heq. rewrite (IH _ Heq). reflexivity.
Qed.

Lemma sse_frame_inj (a b : string) : sse_frame a = sse_frame b -> a = b.
Proof.
  unfold sse_frame.
  destruct (String.eqb_spec a "ping") as [->|Ha];
    destruct (String.eqb_spec b "ping") as [->|Hb]; [reflexivity| | |].
  - cbv [String.append]. discriminate.
  - cbv [String.append]. discriminate.
  - intros Heq. apply (String.app_inj "data: ") in Heq. apply append_inj_r in Heq. exact Heq.
Qed.

Section ConvertProperties.

Variable BlockingResponse StreamResponse : Type.
Variable convert_blocking_full_response : BlockingResponse -> list (pyval * pyval).
Variable convert_blocking_simple_response : BlockingResponse -> list (pyval * pyval).
Variable convert_stream_full_response : list StreamResponse -> list string.
Variable convert_stream_simple_response : list StreamResponse -> list string.

(** X16: a streamed response is converted chunk by chunk, in order: the
    full conversion for callers from the debugger or the service API, the
    simple one for all others; a ping becomes an [event:] frame, every other
    chunk a [data:] frame, each closed by an empty line.  The framing loses
    nothing: two chunk sequences with the same frames are the same. *)
Theorem convert_stream_frames (stream : list StreamResponse) (invoke_from : InvokeFrom) :
  let chunks :=
    match invoke_from with
    | DEBUGGER | SERVICE_API => convert_stream_full_response stream
    | _ => convert_stream_simple_response stream
    end in
  convert BlockingResponse StreamResponse convert_blocking_full_response
    convert_blocking_simple_response convert_stream_full_response
    convert_stream_simple_response (inr stream) invoke_from
  = inr (map sse_frame chunks) /\
  Forall2 (fun chunk frame =>
             frame = (if String.eqb chunk "ping" then "event: ping" else "data: " +:+ chunk)
                     +:+ newline +:+ newline)
          chunks (map sse_frame chunks) /\
  forall chunks', map sse_frame chunks' = map sse_frame chunks -> chunks' = chunks.
Proof.
  cbn zeta. split; [destruct invoke_from; reflexivity|]. split.
  - match goal with |- Forall2 _ ?l _ => induction l as [|chunk rest IH] end;
      cbn [map]; constructor; [|exact IH].
    unfold sse_frame. destruct (String.eqb_spec chunk "ping") as [->|_].
    + reflexivity.
    + cbv [String.append]. reflexivity.
  - match goal with |- forall _, _ = map _ ?l -> _ => generalize l end.
    intros chunks chunks'. revert chunks.
    induction chunks' as [|c' rest' IH]; intros [|c rest]; cbn [map]; try discriminate;
      [reflexivity|].
    intros [= Hframe Hrest]. apply sse_frame_inj in Hframe as ->.
    rewrite (IH _ Hrest). reflexivity.
Qed.

End ConvertProperties.

Lemma dict_lookup_del_same (key : string) (kvs : list (pyval * pyval)) :
  dict_lookup key (dict_del key kvs) = None.
Proof.
  induction kvs as [|[k v] rest IH]; [reflexivity|]. cbn [dict_del].
  destruct (py_eq (PStr key) k) eqn:Hk; [exact IH|]. cbn [dict_lookup]. rewrite Hk. exact IH.
Qed.

Lemma dict_lookup_del_other (key key' : string) (kvs : list (pyval * pyval)) :
  key <> key' -> dict_lookup key' (dict_del key kvs) = dict_lookup key' kvs.
Proof.
  intros Hne. induction kvs as [|[k v] rest IH]; [reflexivity|]. cbn [dict_del].
  destruct (py_eq (PStr key) k) eqn:Hk; cbn [dict_lookup].
  - apply py_eq_str_l in Hk as ->. cbn.
    destruct (String.eqb_spec key' key); [congruence|exact IH].
  - rewrite IH. reflexivity.
Qed.

(** X17: [_get_simple_metadata] never raises; in its result the retriever
    resources, if the key was there, are the empty list whatever they were
    (the loop runs over the list after it was emptied), the annotation reply
    and the usage are gone, and every other entry is as it was. *)
Theorem get_simple_metadata_spec (metadata : list (pyval * pyval)) :
  exists simple,
    _get_simple_metadata metadata = Ok simple /\
    dict_lookup "retriever_resources" simple
    = (if dict_contains "retriever_resources" metadata then Some (PList []) else None) /\
    dict_lookup "annotation_reply" simple = None /\
    dict_lookup "usage" simple = None /\
    forall key, key <> "retriever_resources" -> key <> "annotation_reply" -> key <> "usage" ->
                dict_lookup key simple = dict_lookup key metadata.
Proof.
  unfold _get_simple_metadata.
  set (metadata1 := if dict_contains "retriever_resources" metadata
                    then dict_set "retriever_resources" (PList []) metadata else metadata).
  assert (Hfirst : (if dict_contains "retriever_resources" metadata
                    then simplify_resources
                           (list_items (dict_get "retriever_resources" PNone
                                          (dict_set "retriever_resources" (PList []) metadata)))
                           (dict_set "retriever_resources" (PList []) metadata)
                    else Ok metadata) = Ok metadata1).
  { subst metadata1. destruct (dict_contains "retriever_resources" metadata); [|reflexivity].
    unfold dict_get. rewrite dict_lookup_set_same. reflexivity. }
  rewrite Hfirst. cbn [rbind].
  assert (Hresources : dict_lookup "retriever_resources" metadata1
                       = if dict_contains "retriever_resources" metadata
                         then Some (PList []) else None).
  { subst metadata1. unfold dict_contains.
    destruct (dict_lookup "retriever_resources" metadata) eqn:Hlookup;
      [apply dict_lookup_set_same|exact Hlookup]. }
  assert (Hothers : forall key, key <> "retriever_resources" ->
                                dict_lookup key metadata1 = dict_lookup key metadata).
  { intros key Hkey. subst metadata1.
    destruct (dict_contains "retriever_resources" metadata); [|reflexivity].
    apply dict_lookup_set_other. congruence. }
  eexists. split; [reflexivity|].
  assert (Hdel : forall key kvs,
             dict_lookup key (if dict_contains key kvs then dict_del key kvs else kvs) = None).
  { intros key kvs. unfold dict_contains.
    destruct (dict_lookup key kvs) eqn:Hlookup; [apply dict_lookup_del_same|exact Hlookup]. }
  assert (Hkeep : forall key key' kvs, key <> key' ->
             dict_lookup key' (if dict_contains key kvs then dict_del key kvs else kvs)
             = dict_lookup key' kvs).
  { intros key key' kvs Hne. destruct (dict_contains key kvs); [|reflexivity].
    apply dict_lookup_del_other. exact Hne. }
  split; [|split; [|split]].
  - rewrite !Hkeep by discriminate. exact Hresources.
  - rewrite Hkeep by discriminate. apply Hdel.
  - apply Hdel.
  - intros key Hr Ha Hu. rewrite !Hkeep by congruence. apply Hothers. exact Hr.
Qed.

(** X18: [_error_to_stream_response] always answers with a code, a message
    and a status.  The status is 400 when the exception is an instance of
    one of the five classes of the table and 500 otherwise; an exception of
    none of them gets the fixed internal-error answer, which tells nothing
    of the exception; of several matching classes the last of the table
    decides, so an invoke error is always a completion request error; a
    quota error that is no invoke error and no unsupported-model error keeps
    the fixed quota message, and every other match takes the description of
    the exception, or its text when it has none. *)
Theorem error_to_stream_response_spec (e : PyException) :
  let data := _error_to_stream_response e in
  let known :=
    exc_isinstance e ValueErrorClass || exc_isinstance e ProviderTokenNotInitErrorClass
    || exc_isinstance e QuotaExceededErrorClass
    || exc_isinstance e ModelCurrentlyNotSupportErrorClass
    || exc_isinstance e InvokeErrorClass in
  let described :=
    match exc_description e with Some d => d | None => PStr (exc_str e) end in
  dict_lookup "status" data = Some (PInt (if known then 400 else 500)) /\
  (exists code message,
     dict_lookup "code" data = Some (PStr code) /\ dict_lookup "message" data = Some message) /\
  (known = false ->
   data = [(PStr "code", PStr "internal_server_error");
           (PStr "message", PStr "Internal Server Error, please contact support.");
           (PStr "status", PInt 500)]) /\
  (exc_isinstance e InvokeErrorClass = true ->
   dict_lookup "code" data = Some (PStr "completion_request_error") /\
   dict_lookup "message" data = Some described) /\
  (exc_isinstance e QuotaExceededErrorClass = true ->
   exc_isinstance e ModelCurrentlyNotSupportErrorClass = false ->
   exc_isinstance e InvokeErrorClass = false ->
   dict_lookup "code" data = Some (PStr "provider_quota_exceeded") /\
   dict_lookup "message" data = Some (PStr quota_message)).
Proof.
  cbn zeta. unfold _error_to_stream_response, matching_response, error_responses.
  cbn [fold_left fst snd].
  destruct (exc_isinstance e ValueErrorClass);
    destruct (exc_isinstance e ProviderTokenNotInitErrorClass);
    destruct (exc_isinstance e QuotaExceededErrorClass);
    destruct (exc_isinstance e ModelCurrentlyNotSupportErrorClass);
    destruct (exc_isinstance e InvokeErrorClass);
    cbn [orb];
    (split; [reflexivity|]);
    (split; [do 2 eexists; split; reflexivity|]);
    (split; [intros H; first [discriminate H|reflexivity]|]);
    (split; [intros H; first [discriminate H|split; reflexivity]|]);
    intros H1 H2 H3; first [discriminate|split; reflexivity].
Qed.

Lemma error_to_stream_response_spec_witness :
  let e := mk_exception (fun c => match c with QuotaExceededErrorClass => true | _ => false end)
             (Some (PStr "quota used up")) "QuotaExceededError()" in
  dict_lookup "message" (_error_to_stream_response e) = Some (PStr quota_message) /\
  _error_to_stream_response (mk_exception (fun _ => false) None "boom")
  = [(PStr "code", PStr "internal_server_error");
     (PStr "message", PStr "Internal Server Error, please contact support.");
     (PStr "status", PInt 500)].
Proof.
  cbn zeta. split.
  - apply (error_to_stream_response_spec
             (mk_exception (fun c => match c with QuotaExceededErrorClass => true | _ => false end)
                (Some (PStr "quota used up")) "QuotaExceededError()")); reflexivity.
  - apply (error_to_stream_response_spec (mk_exception (fun _ => false) None "boom")).
    reflexivity.
Defined.

(** * Properties of the input cleaning *)

Lemma remove_nul_clean (s : string) : contains_char Ascii.zero (remove_nul s) = false.
Proof.
  induction s as [|c s IH]; [reflexivity|]. cbn [remove_nul].
  destruct (Ascii.eqb c Ascii.zero) eqn:Hc; [exact IH|].
  cbn [contains_char]. rewrite Ascii.eqb_sym, Hc. exact IH.
Qed.

Lemma remove_nul_id (s : string) : contains_char Ascii.zero s = false -> remove_nul s = s.
Proof.
  induction s as [|c s IH]; [reflexivity|]. cbn [contains_char remove_nul].
  intros [Hc Hs]%orb_false_iff. rewrite Ascii.eqb_sym, Hc, (IH Hs). reflexivity.
Qed.

Lemma remove_nul_keeps (c : Ascii.ascii) (s : string) :
  c <> Ascii.zero -> contains_char c (remove_nul s) = contains_char c s.
Proof.
  intros Hc. induction s as [|c' s IH]; [reflexivity|]. cbn [remove_nul contains_char].
  destruct (Ascii.eqb_spec c' Ascii.zero) as [->|Hc'].
  - destruct (Ascii.eqb_spec c Ascii.zero); [contradiction|]. exact IH.
  - cbn [contains_char]. rewrite IH. reflexivity.
Qed.

(** X19: [_sanitize_value] takes every NUL character out of a string and
    nothing else: the result holds no NUL, every other character occurs in it
    exactly if it occurred before, a string without NUL and a value that is
    no string come back unchanged, and sanitizing twice is sanitizing
    once. *)
Theorem sanitize_value_removes_nul (value : pyval) :
  (forall s, _sanitize_value value = PStr s -> contains_char Ascii.zero s = false) /\
  (forall s s' c, value = PStr s -> _sanitize_value value = PStr s' -> c <> Ascii.zero ->
                  contains_char c s' = contains_char c s) /\
  (forall s, value = PStr s -> contains_char Ascii.zero s = false ->
             _sanitize_value value = value) /\
  (is_str value = false -> _sanitize_value value = value) /\
  _sanitize_value (_sanitize_value value) = _sanitize_value value.
Proof.
  split; [|split; [|split; [|split]]].
  - intros s. destruct value; cbn; try discriminate. intros [= <-]. apply remove_nul_clean.
  - intros s s' c -> [= <-] Hc. apply remove_nul_keeps. exact Hc.
  - intros s -> Hclean. cbn. rewrite (remove_nul_id _ Hclean). reflexivity.
  - destruct value; try reflexivity. discriminate.
  - destruct value; try reflexivity. cbn.
    rewrite (remove_nul_id _ (remove_nul_clean s)). reflexivity.
Qed.

Lemma sanitize_value_removes_nul_witness :
  _sanitize_value (PStr (String Ascii.zero "a" +:+ String Ascii.zero "b")) = PStr "ab" /\
  _sanitize_value (PInt 7) = PInt 7.
Proof.
  split; [reflexivity|].
  destruct (sanitize_value_removes_nul (PInt 7)) as (_ & _ & _ & Hother & _).
  apply Hother. reflexivity.
Defined.

Section CleanInputsProperties.

Variable py_str : pyval -> string.
Variable py_int : string -> option pyval.
Variable py_float : string -> option pyval.

(** X20: what [_validate_input] does with one variable.  A required
    variable with no or a falsy input raises "<variable> is required in input
    form"; an optional one then gets its default, or the empty string when
    the default is falsy too.  When it returns for a truthy input, a select
    variable has a string that is in its options, and a text or paragraph
    variable has a string of no more characters than a non-zero
    [max_length]; both are returned as given.  For a text or paragraph
    variable with a non-empty string and an integer [max_length] the outcome
    is decided by the number of characters alone: the string is returned when
    [max_length] is zero or the string has at most that many characters, and
    "must be less than ... characters" is raised otherwise. *)
Theorem validate_input_spec (inputs : list (pyval * pyval)) (var : VariableEntity) :
  let value := dict_get (variable var) PNone inputs in
  (truthy value = false ->
   _validate_input py_str py_int py_float inputs var
   = if required var
     then Raise (ValueError (variable var +:+ " is required in input form"))
     else Ok (if truthy (default var) then default var else PStr "")) /\
  (forall r,
     truthy value = true ->
     _validate_input py_str py_int py_float inputs var = Ok r ->
     (var_type var = SELECT ->
      r = value /\ is_str value = true /\
      py_contains value (py_or (options var) (PList [])) = Ok true) /\
     (is_text_type (var_type var) = true ->
      r = value /\
      exists s, value = PStr s /\
        forall n, as_number (max_length var) = Some n -> n <> 0 ->
                  Z.of_nat (py_len s) <= n)) /\
  (forall s n,
     value = PStr s -> s <> "" -> is_text_type (var_type var) = true ->
     max_length var = PInt n ->
     _validate_input py_str py_int py_float inputs var
     = if (n =? 0) || (Z.of_nat (py_len s) <=? n) then Ok value
       else Raise (ValueError (variable var +:+ " in input form must be less than "
                               +:+ py_str (max_length var) +:+ " characters"))).
Proof.
  cbn zeta. unfold _validate_input. split; [|split].
  - intros ->. destruct (required var); reflexivity.
  - intros r Htruthy Hrun. rewrite Htruthy in Hrun. rewrite !andb_false_r in Hrun.
    cbn [negb andb] in Hrun. rewrite andb_true_r in Hrun.
    remember (dict_get (variable var) PNone inputs) as value eqn:Hvalue in *.
    clear Hvalue. split.
    + intros Htype. rewrite Htype in Hrun. cbn [is_string_type andb] in Hrun.
      destruct (is_str value) eqn:Hstr; cbn [negb] in Hrun; [|discriminate].
      destruct (py_contains value (py_or (options var) (PList []))) as [found|e] eqn:Hin;
        cbn [rbind] in Hrun; [|discriminate].
      destruct found; cbn [negb] in Hrun; [|discriminate].
      injection Hrun as <-. auto.
    + intros Htext.
      assert (Hstring : is_string_type (var_type var) = true)
        by (destruct (var_type var); try discriminate; reflexivity).
      rewrite Hstring in Hrun. cbn [andb] in Hrun.
      destruct value as [| | |s| | | | | | |]; cbn [is_str negb] in Hrun; try discriminate.
      destruct (var_type var); try discriminate Htext;
        rewrite andb_true_r in Hrun;
        (destruct (truthy (max_length var)) eqn:Hmax;
         [unfold longer_than in Hrun;
          destruct (as_number (max_length var)) as [n|]; [|discriminate];
          cbn [rbind] in Hrun;
          destruct (Z.ltb_spec n (Z.of_nat (py_len s))); [discriminate|];
          injection Hrun as <-; split; [reflexivity|]; exists s; split; [reflexivity|];
          intros n' [= <-] _; lia
         |injection Hrun as <-; split; [reflexivity|]; exists s; split; [reflexivity|];
          intros n Hn Hnz; exfalso;
          destruct (max_length var) as [|b|z| | | | | | | |]; cbn in Hn, Hmax;
          try discriminate;
          [injection Hn as <-; destruct b; [discriminate|]; apply Hnz; reflexivity
          |injection Hn as <-; apply Hnz; apply Z.eqb_eq;
           destruct (z =? 0); [reflexivity|discriminate]]]).
  - intros s n -> Hne Htext ->.
    assert (Htruthy : truthy (PStr s) = true).
    { cbn. destruct (String.eqb_spec s ""); [contradiction|reflexivity]. }
    rewrite Htruthy. rewrite !andb_false_r. cbn [is_str negb andb].
    rewrite ?andb_false_r, ?andb_true_r.
    cbn [truthy longer_than as_number rbind].
    destruct (var_type var); try discriminate Htext;
      (destruct (Z.eqb_spec n 0) as [->|Hn]; cbn [negb orb];
       [reflexivity|];
       rewrite Z.ltb_antisym; destruct (Z.of_nat (py_len s) <=? n); reflexivity).
Qed.

End CleanInputsProperties.

Lemma validate_input_spec_witness :
  _validate_input (fun _ => "") (fun _ => None) (fun _ => None)
    [(PStr "name", PStr "日本語")]
    (mk_variable "name" TEXT_INPUT true PNone PNone (PInt 3))
  = Ok (PStr "日本語") /\
  _validate_input (fun _ => "3") (fun _ => None) (fun _ => None)
    [(PStr "name", PStr "abcd")]
    (mk_variable "name" TEXT_INPUT true PNone PNone (PInt 3))
  = Raise (ValueError "name in input form must be less than 3 characters") /\
  _validate_input (fun _ => "") (fun _ => None) (fun _ => None) []
    (mk_variable "name" TEXT_INPUT true PNone PNone (PInt 8))
  = Raise (ValueError "name is required in input form").
Proof.
  split; [|split].
  - refine (proj2 (proj2 (validate_input_spec (fun _ => "") (fun _ => None) (fun _ => None)
                            [(PStr "name", PStr "日本語")]
                            (mk_variable "name" TEXT_INPUT true PNone PNone (PInt 3))))
              "日本語" 3 eq_refl _ eq_refl eq_refl).
    discriminate.
  - refine (proj2 (proj2 (validate_input_spec (fun _ => "3") (fun _ => None) (fun _ => None)
                            [(PStr "name", PStr "abcd")]
                            (mk_variable "name" TEXT_INPUT true PNone PNone (PInt 3))))
              "abcd" 3 eq_refl _ eq_refl eq_refl).
    discriminate.
  - apply (validate_input_spec (fun _ => "") (fun _ => None) (fun _ => None) []
             (mk_variable "name" TEXT_INPUT true PNone PNone (PInt 8))).
    reflexivity.
Defined.

Lemma dict_contains_set (key key' : string) (v : pyval) (kvs : list (pyval * pyval)) :
  dict_contains key' (dict_set key v kvs) = String.eqb key key' || dict_contains key' kvs.
Proof.
  unfold dict_contains. destruct (String.eqb_spec key key') as [->|Hne].
  - rewrite dict_lookup_set_same. reflexivity.
  - rewrite dict_lookup_set_other by exact Hne. reflexivity.
Qed.

Lemma dict_lookup_map_values (f : pyval -> pyval) (key : string) (kvs : list (pyval * pyval)) :
  dict_lookup key (map (fun kv => (fst kv, f (snd kv))) kvs)
  = option_map f (dict_lookup key kvs).
Proof.
  induction kvs as [|[k v] rest IH]; [reflexivity|]. cbn [map fst snd dict_lookup].
  destruct (py_eq (PStr key) k); [reflexivity|exact IH].
Qed.

Section CleanedInputs.

Variable py_str : pyval -> string.
Variable py_int : string -> option pyval.
Variable py_float : string -> option pyval.

Lemma validate_all_outcome (inputs : list (pyval * pyval)) (variables : list VariableEntity) :
  forall filtered,
    match validate_all py_str py_int py_float inputs variables filtered with
    | Ok cleaned =>
        Forall (fun var => is_ok (_validate_input py_str py_int py_float inputs var) = true)
               variables /\
        forall key,
          dict_contains key cleaned = true <->
          dict_contains key filtered = true \/
          exists var, In var variables /\ variable var = key
    | Raise e =>
        exists var, In var variables /\
                    _validate_input py_str py_int py_float inputs var = Raise e
    end.
Proof.
  induction variables as [|var rest IH]; intros filtered; cbn [validate_all].
  - split; [constructor|]. intros key. split; [auto|].
    intros [H|(var & [] & _)]. exact H.
  - destruct (_validate_input py_str py_int py_float inputs var) as [value|e] eqn:Hvar;
      cbn [rbind]; [|exists var; split; [left; reflexivity|exact Hvar]].
    specialize (IH (dict_set (variable var) value filtered)).
    destruct (validate_all py_str py_int py_float inputs rest
                (dict_set (variable var) value filtered)) as [cleaned|e].
    + destruct IH as [Hall Hkeys]. split.
      * constructor; [rewrite Hvar; reflexivity|exact Hall].
      * intros key. rewrite Hkeys, dict_contains_set. split.
        -- intros [[Hkey|Hold]%orb_true_iff|(v & Hin & Hv)].
           ++ right. exists var. split; [left; reflexivity|].
              apply String.eqb_eq. exact Hkey.
           ++ left. exact Hold.
           ++ right. exists v. split; [right; exact Hin|exact Hv].
        -- intros [Hold|(v & [<-|Hin] & Hv)].
           ++ left. rewrite Hold. apply orb_true_r.
           ++ left. rewrite <- Hv, String.eqb_refl. reflexivity.
           ++ right. exists v. auto.
    + destruct IH as (v & Hin & Hv). exists v. split; [right; exact Hin|exact Hv].
Qed.

(** X21: [_get_cleaned_inputs] succeeds exactly when every declared
    variable validates, and otherwise raises what the validation of one
    of them raises.  On success the keys of the result are exactly the names
    of the declared variables, so an input the configuration does not declare
    is dropped, and no string value holds a NUL character. *)
Theorem cleaned_inputs_spec
    (user_inputs : option (list (pyval * pyval))) (variables : list VariableEntity) :
  let inputs := match user_inputs with Some inputs => inputs | None => [] end in
  match _get_cleaned_inputs py_str py_int py_float user_inputs variables with
  | Ok cleaned =>
      Forall (fun var => is_ok (_validate_input py_str py_int py_float inputs var) = true)
             variables /\
      (forall key,
         dict_contains key cleaned = true <->
         exists var, In var variables /\ variable var = key) /\
      (forall key s, dict_lookup key cleaned = Some (PStr s) ->
                     contains_char Ascii.zero s = false)
  | Raise e =>
      exists var, In var variables /\
                  _validate_input py_str py_int py_float inputs var = Raise e
  end.
Proof.
  cbn zeta. unfold _get_cleaned_inputs.
  assert (Hinputs : match user_inputs with
                    | Some inputs => if truthy (PDict inputs) then inputs else []
                    | None => []
                    end
                    = match user_inputs with Some inputs => inputs | None => [] end).
  { destruct user_inputs as [[|item rest]|]; reflexivity. }
  rewrite Hinputs.
  pose proof (validate_all_outcome
                (match user_inputs with Some inputs => inputs | None => [] end)
                variables []) as Houtcome.
  destruct (validate_all py_str py_int py_float _ variables []) as [filtered|e];
    cbn [rbind]; [|exact Houtcome].
  destruct Houtcome as [Hall Hkeys]. split; [exact Hall|]. split.
  - intros key. unfold dict_contains in *. rewrite dict_lookup_map_values.
    specialize (Hkeys key). destruct (dict_lookup key filtered); cbn [option_map].
    + rewrite Hkeys. split; [intros [H|H]; [discriminate H|exact H]|auto].
    + rewrite Hkeys. split; [intros [H|H]; [discriminate H|exact H]|auto].
  - intros key s. rewrite dict_lookup_map_values.
    destruct (dict_lookup key filtered) as [v|]; cbn [option_map]; [|discriminate].
    intros [= Hs]. destruct v; cbn in Hs; try discriminate.
    injection Hs as <-. apply remove_nul_clean.
Qed.

End CleanedInputs.

(** * Properties of the runner's result handling *)

Lemma string_append_assoc (a b c : string) : (a +:+ b) +:+ c = a +:+ (b +:+ c).
Proof.
  induction a as [|x a IH]; [reflexivity|]. rewrite !append_cons, IH. reflexivity.
Qed.

Lemma string_append_nil_r (a : string) : a +:+ "" = a.
Proof. induction a as [|x a IH]; [reflexivity|]. rewrite append_cons, IH. reflexivity. Qed.

Lemma stream_vars_after_text (invoke_result : list LLMResultChunk) :
  forall vars,
    Forall (fun c => text_content c = true) invoke_result ->
    sv_text (stream_vars_after vars invoke_result)
    = sv_text vars +:+ String.concat "" (map chunk_text invoke_result).
Proof.
  induction invoke_result as [|c rest IH]; intros vars Htext.
  - cbn. rewrite string_append_nil_r. reflexivity.
  - apply Forall_cons in Htext as [Hc Hrest]. cbn [stream_vars_after map].
    unfold stream_update, text_content, chunk_text in *.
    destruct (content (delta_message (chunk_delta c))) as [| | |s| | | | | | |];
      try discriminate Hc.
    rewrite (IH _ Hrest). cbn [sv_text].
    assert (Hconcat : forall (x : string) (l : list string),
               String.concat "" (x :: l) = x +:+ String.concat "" l).
    { intros x [|y l]; cbn [String.concat]; [rewrite string_append_nil_r|]; reflexivity. }
    rewrite Hconcat, string_append_assoc. reflexivity.
Qed.

Lemma stream_loop_published (agent : bool) (self : Manager)
    (invoke_result : list LLMResultChunk) :
  forall vars st,
    _is_stopped self st = false ->
    Forall (fun c => text_content c = true) invoke_result ->
    Forall (fun c => _check_for_sqlalchemy_models (model_dump (chunk_event agent c)) = None)
           invoke_result ->
    stream_loop agent self invoke_result vars st
    = (set_q st (q st ++ map (fun c => Some (construct_queue_message self (chunk_event agent c)))
                           invoke_result),
       Ok (stream_vars_after vars invoke_result)).
Proof.
  induction invoke_result as [|c rest IH]; intros vars st Hstop Htext Hcheck.
  - cbn. rewrite app_nil_r. reflexivity.
  - apply Forall_cons in Htext as [Hc Htext]. apply Forall_cons in Hcheck as [Hcc Hcheck].
    cbn [stream_loop stream_vars_after map]. unfold bind.
    rewrite (publish_passes _ _ _ _ Hcc), Hstop. cbn [andb PublishFrom_eqb].
    assert (Hopen : enqueued_by self (chunk_event agent c)
                    = [Some (construct_queue_message self (chunk_event agent c))])
      by (destruct agent; reflexivity).
    rewrite Hopen.
    unfold text_content in Hc. unfold stream_update.
    destruct (content (delta_message (chunk_delta c))) as [| | |s| | | | | | |];
      try discriminate Hc.
    rewrite IH by (try assumption; rewrite is_stopped_set_q; exact Hstop).
    cbn [q set_q]. rewrite <- app_assoc. reflexivity.
Qed.

Section InvokeResultProperties.

Variable empty_usage : pyval.

(** X22: [_handle_invoke_result_stream] on a task that is not stopped, for
    chunks with text contents whose events pass the check: one chunk message
    per chunk is put on the queue, in order, of the agent class or the LLM
    class as asked, then the message-end event with the sentinel; the text of
    the final result is the concatenation of the chunk texts and its model
    that of the first chunk if that is not empty.  A consumer that found
    pending messages only receives them, the chunks and the message end, and
    its generator ends. *)
Theorem invoke_result_stream_published
    (cfg : DifyConfig) (self : Manager) (agent : bool) (invoke_result : list LLMResultChunk)
    (st : State) (llm_result : pyval) (ms : list MessageQueueMessage) :
  _is_stopped self st = false ->
  Forall (fun c => text_content c = true) invoke_result ->
  Forall (fun c => _check_for_sqlalchemy_models (model_dump (chunk_event agent c)) = None)
         invoke_result ->
  final_llm_result empty_usage
    (stream_vars_after (mk_stream_vars None [] "" None) invoke_result) = Ok llm_result ->
  _check_for_sqlalchemy_models (model_dump (message_end_event llm_result)) = None ->
  q st = map Some ms ->
  let chunk_messages :=
    map (fun c => construct_queue_message self (chunk_event agent c)) invoke_result in
  let end_message := construct_queue_message self (message_end_event llm_result) in
  let st' := fst (_handle_invoke_result_stream empty_usage invoke_result self agent st) in
  _handle_invoke_result_stream empty_usage invoke_result self agent st
  = (set_q st (q st ++ map Some chunk_messages ++ [Some end_message; None]), Ok tt) /\
  (exists model prompt_messages usage,
     llm_result = dump_llm_result model prompt_messages
                    (String.concat "" (map chunk_text invoke_result)) usage /\
     forall c rest, invoke_result = c :: rest -> chunk_model c <> "" -> model = chunk_model c) /\
  pc (run_local (consume cfg self (2 * (length ms + length invoke_result + 1) + 1)
                   (start_run st'))) = Finished /\
  observed (consume cfg self (2 * (length ms + length invoke_result + 1) + 1) (start_run st'))
  = ms ++ chunk_messages ++ [end_message].
Proof.
  intros Hstop Htext Hcheck Hfinal Hend Hq. cbn zeta.
  assert (Hrun : _handle_invoke_result_stream empty_usage invoke_result self agent st
                 = (set_q st (q st
                              ++ map Some (map (fun c => construct_queue_message self
                                                           (chunk_event agent c)) invoke_result)
                              ++ [Some (construct_queue_message self
                                          (message_end_event llm_result)); None]),
                    Ok tt)).
  { unfold _handle_invoke_result_stream, bind.
    rewrite (stream_loop_published _ _ _ _ _ Hstop Htext Hcheck), Hfinal.
    rewrite (publish_passes _ _ _ _ Hend), is_stopped_set_q, Hstop.
    cbn [andb PublishFrom_eqb q set_q]. unfold enqueued_by. cbn [closes_queue ev_class
      message_end_event]. rewrite map_map, <- app_assoc. reflexivity. }
  rewrite Hrun. cbn [fst]. split; [reflexivity|]. split.
  - unfold final_llm_result in Hfinal.
    destruct (sv_model (stream_vars_after (mk_stream_vars None [] "" None) invoke_result))
      as [model|] eqn:Hmodel; [|discriminate].
    injection Hfinal as <-.
    rewrite (stream_vars_after_text _ _ Htext). cbn [sv_text].
    do 3 eexists. split; [reflexivity|].
    intros c rest -> Hnonempty.
    apply Forall_cons in Htext as [Hc _]. unfold text_content in Hc.
    cbn [stream_vars_after] in Hmodel. unfold stream_update in Hmodel.
    destruct (content (delta_message (chunk_delta c))) as [| | |s| | | | | | |];
      try discriminate Hc.
    cbn [sv_model no_model] in Hmodel.
    assert (Hkeep : forall l vars m, sv_model vars = Some m -> m <> "" ->
                                     sv_model (stream_vars_after vars l) = Some m).
    { induction l as [|c' l IHl]; intros vars m Hm Hne; [exact Hm|].
      cbn [stream_vars_after]. unfold stream_update.
      destruct (content (delta_message (chunk_delta c'))); try exact Hm.
      apply IHl; [|exact Hne]. cbn [sv_model]. rewrite Hm. cbn [no_model].
      destruct (String.eqb_spec m ""); [contradiction|reflexivity]. }
    rewrite (Hkeep rest _ (chunk_model c)) in Hmodel;
      [congruence|reflexivity|exact Hnonempty].
  - set (messages := ms ++ map (fun c => construct_queue_message self (chunk_event agent c))
                             invoke_result
                     ++ [construct_queue_message self (message_end_event llm_result)]).
    destruct (consume_messages cfg self messages
                (set_q st (q st
                           ++ map Some (map (fun c => construct_queue_message self
                                                        (chunk_event agent c)) invoke_result)
                           ++ [Some (construct_queue_message self
                                       (message_end_event llm_result)); None]))
                (listen_start (set_q st (q st
                           ++ map Some (map (fun c => construct_queue_message self
                                                        (chunk_event agent c)) invoke_result)
                           ++ [Some (construct_queue_message self
                                       (message_end_event llm_result)); None])))
                [] [None])
      as (st2 & loc2 & Hconsume & Hpc2 & ext & Hq2).
    + reflexivity.
    + cbn [q set_q]. subst messages. rewrite Hq, !map_app, <- !app_assoc. reflexivity.
    + replace (2 * (length ms + length invoke_result + 1) + 1)%nat
        with (2 * length messages + 1)%nat
        by (subst messages; rewrite !length_app, length_map; cbn; lia).
      rewrite consume_add. unfold start_run. rewrite Hconsume.
      cbn [consume run_actions repeat fold_left run_action run_state run_local observed].
      rewrite (listen_step_sentinel _ _ _ _ ext Hpc2 Hq2). cbn. split; reflexivity.
Qed.

(** X23: on a stopped task [_handle_invoke_result_stream] gets no further
    than its first chunk: the chunk is put on the queue, the publish raises
    [GenerateTaskStoppedError], and neither another chunk nor the message end
    follows.  With no chunk at all nothing is published either: the final
    result has no model and its construction fails. *)
Theorem invoke_result_stream_interrupted
    (self : Manager) (agent : bool) (c : LLMResultChunk) (rest : list LLMResultChunk)
    (st : State) :
  (_is_stopped self st = true ->
   _check_for_sqlalchemy_models (model_dump (chunk_event agent c)) = None ->
   _handle_invoke_result_stream empty_usage (c :: rest) self agent st
   = (set_q st (q st ++ [Some (construct_queue_message self (chunk_event agent c))]),
      Raise GenerateTaskStoppedError)) /\
  _handle_invoke_result_stream empty_usage [] self agent st
  = (st, Raise (OtherError "ValidationError")).
Proof.
  split; [|reflexivity].
  intros Hstop Hcheck. unfold _handle_invoke_result_stream, bind. cbn [stream_loop].
  unfold bind. rewrite (publish_passes _ _ _ _ Hcheck), Hstop. cbn [andb PublishFrom_eqb].
  destruct agent; reflexivity.
Qed.

End InvokeResultProperties.

Lemma convert_stream_frames_witness :
  convert unit string (fun _ => []) (fun _ => []) (fun chunks => chunks)
    (fun chunks => chunks) (inr ["ping"; "{}"]) DEBUGGER
  = inr (map sse_frame ["ping"; "{}"]) /\
  ["ping"; "{}"] = ["ping"; "{}"].
Proof.
  destruct (convert_stream_frames unit string (fun _ => []) (fun _ => [])
              (fun chunks => chunks) (fun chunks => chunks) ["ping"; "{}"] DEBUGGER)
    as (Hconvert & _ & Hinj).
  split; [exact Hconvert|]. apply Hinj. reflexivity.
Defined.

Lemma get_simple_metadata_spec_witness :
  exists simple,
    _get_simple_metadata
      [(PStr "usage", PDict []); (PStr "model", PStr "gpt");
       (PStr "retriever_resources", PList [PDict [(PStr "segment_id", PStr "s1")]])]
    = Ok simple /\
    dict_lookup "model" simple = Some (PStr "gpt").
Proof.
  destruct (get_simple_metadata_spec
              [(PStr "usage", PDict []); (PStr "model", PStr "gpt");
               (PStr "retriever_resources", PList [PDict [(PStr "segment_id", PStr "s1")]])])
    as (simple & Hrun & _ & _ & _ & Hother).
  exists simple. split; [exact Hrun|].
  rewrite Hother by discriminate. reflexivity.
Defined.

Lemma invoke_result_stream_published_witness :
  _handle_invoke_result_stream PNone [sample_chunk "Hel"; sample_chunk "lo"]
    sample_manager false sample_state
  = (set_q sample_state
       [Some (construct_queue_message sample_manager (chunk_event false (sample_chunk "Hel")));
        Some (construct_queue_message sample_manager (chunk_event false (sample_chunk "lo")));
        Some (construct_queue_message sample_manager
                (message_end_event
                   (dump_llm_result "gpt" [PDict [(PStr "role", PStr "user")]] "Hello" PNone)));
        None],
     Ok tt).
Proof.
  refine (proj1 (invoke_result_stream_published PNone default_config sample_manager false
                   [sample_chunk "Hel"; sample_chunk "lo"] sample_state
                   (dump_llm_result "gpt" [PDict [(PStr "role", PStr "user")]] "Hello" PNone)
                   [] _ _ _ _ _ _)).
  - reflexivity.
  - repeat constructor.
  - repeat constructor.
  - reflexivity.
  - reflexivity.
  - reflexivity.
Defined.

Lemma invoke_result_stream_interrupted_witness :
  _handle_invoke_result_stream PNone [sample_chunk "Hel"; sample_chunk "lo"]
    sample_manager false stopped_state
  = (set_q stopped_state
       (q stopped_state
        ++ [Some (construct_queue_message sample_manager
                    (chunk_event false (sample_chunk "Hel")))]),
     Raise GenerateTaskStoppedError).
Proof.
  apply (invoke_result_stream_interrupted PNone sample_manager false (sample_chunk "Hel")
           [sample_chunk "lo"] stopped_state); reflexivity.
Defined.

Lemma cleaned_inputs_spec_witness :
  _get_cleaned_inputs (fun _ => "") (fun _ => None) (fun _ => None)
    (Some [(PStr "name", PStr "日本語"); (PStr "extra", PInt 1)])
    [mk_variable "name" TEXT_INPUT true PNone PNone (PInt 3)]
  = Ok [(PStr "name", PStr "日本語")] /\
  dict_contains "extra" [(PStr "name", PStr "日本語")] <> true.
Proof.
  split; [reflexivity|].
  pose proof (cleaned_inputs_spec (fun _ => "") (fun _ => None) (fun _ => None)
                (Some [(PStr "name", PStr "日本語"); (PStr "extra", PInt 1)])
                [mk_variable "name" TEXT_INPUT true PNone PNone (PInt 3)]) as Hspec.
  change (_get_cleaned_inputs (fun _ => "") (fun _ => None) (fun _ => None)
            (Some [(PStr "name", PStr "日本語"); (PStr "extra", PInt 1)])
            [mk_variable "name" TEXT_INPUT true PNone PNone (PInt 3)])
    with (@Ok (list (pyval * pyval)) [(PStr "name", PStr "日本語")]) in Hspec.
  cbv beta iota zeta in Hspec. destruct Hspec as (_ & Hkeys & _).
  intros Hextra. apply Hkeys in Hextra as (var & [<-|[]] & Hname). discriminate Hname.
Defined.
